(** * The nmcli module of community.general: a shallow embedding

    The development follows [plugins/modules/nmcli.py].  Python values,
    strings and insertion-ordered dictionaries are modelled first, then the
    [Nmcli] class method by method, then [main].  Strings are byte strings:
    the character classes used below ([str.isspace], [\w], [\d],
    [str.upper], [str.splitlines]) are the ones Python applies to ASCII
    text. *)

From Stdlib Require Import ZArith List String Ascii Bool Lia Permutation Sorted.
From Stdlib Require Import DecimalString.
Import ListNotations.

Open Scope string_scope.
Open Scope list_scope.

(* ------------------------------------------------------------------ *)
(** ** Python strings *)
(* ------------------------------------------------------------------ *)

Module Py.

Definition chars (s : string) : list ascii := list_ascii_of_string s.
Definition str_of (l : list ascii) : string := string_of_list_ascii l.

Definition code (c : ascii) : nat := nat_of_ascii c.

Definition in_range (lo hi : nat) (c : ascii) : bool :=
  (lo <=? code c)%nat && (code c <=? hi)%nat.

(** [c in s] for a one-character needle. *)
Definition contains_char (c : ascii) (s : string) : bool :=
  existsb (Ascii.eqb c) (chars s).

(** [str.isspace] and the regular expression class [\s]. *)
Definition is_space (c : ascii) : bool :=
  in_range 9 13 c || in_range 28 32 c.

Definition is_digit (c : ascii) : bool := in_range 48 57 c.
Definition is_upper (c : ascii) : bool := in_range 65 90 c.
Definition is_lower (c : ascii) : bool := in_range 97 122 c.

(** The regular expression class [\w]. *)
Definition is_word (c : ascii) : bool :=
  is_digit c || is_upper c || is_lower c || Ascii.eqb c "_".

Definition upper_char (c : ascii) : ascii :=
  if is_lower c then ascii_of_nat (code c - 32) else c.

Definition lower_char (c : ascii) : ascii :=
  if is_upper c then ascii_of_nat (code c + 32) else c.

(** [s.upper()] and [s.lower()]. *)
Definition upper (s : string) : string := str_of (map upper_char (chars s)).
Definition lower (s : string) : string := str_of (map lower_char (chars s)).

Fixpoint drop_while (f : ascii -> bool) (l : list ascii) : list ascii :=
  match l with
  | [] => []
  | c :: r => if f c then drop_while f r else l
  end.

Fixpoint take_while (f : ascii -> bool) (l : list ascii) : list ascii :=
  match l with
  | [] => []
  | c :: r => if f c then c :: take_while f r else []
  end.

Definition lstrip_by (f : ascii -> bool) (s : string) : string :=
  str_of (drop_while f (chars s)).
Definition rstrip_by (f : ascii -> bool) (s : string) : string :=
  str_of (rev (drop_while f (rev (chars s)))).

(** [s.lstrip()], [s.strip()] and [s.strip(c)]. *)
Definition lstrip (s : string) : string := lstrip_by is_space s.
Definition strip (s : string) : string := lstrip_by is_space (rstrip_by is_space s).
Definition strip_char (c : ascii) (s : string) : string :=
  lstrip_by (Ascii.eqb c) (rstrip_by (Ascii.eqb c) s).

(** [s.split(sep)] for a one-character separator: never the empty list. *)
Fixpoint split_aux (sep : ascii) (cur : list ascii) (l : list ascii) : list string :=
  match l with
  | [] => [str_of (rev cur)]
  | c :: r =>
      if Ascii.eqb c sep then str_of (rev cur) :: split_aux sep [] r
      else split_aux sep (c :: cur) r
  end.

Definition split (sep : ascii) (s : string) : list string :=
  split_aux sep [] (chars s).

(** [s.split(sep, 1)]: the text before the first separator and, when there
    is a separator, the text after it. *)
Fixpoint split1_aux (sep : ascii) (cur : list ascii) (l : list ascii)
  : string * option string :=
  match l with
  | [] => (str_of (rev cur), None)
  | c :: r =>
      if Ascii.eqb c sep then (str_of (rev cur), Some (str_of r))
      else split1_aux sep (c :: cur) r
  end.

Definition split1 (sep : ascii) (s : string) : string * option string :=
  split1_aux sep [] (chars s).

(** Line boundaries of [str.splitlines]: LF, VT, FF, CR, FS, GS, RS; CR LF
    counts as one boundary. *)
Definition is_linebreak (c : ascii) : bool :=
  in_range 10 13 c || in_range 28 30 c.

Fixpoint splitlines_aux (after_cr : bool) (cur : list ascii) (l : list ascii)
  : list string :=
  match l with
  | [] => match cur with [] => [] | _ => [str_of (rev cur)] end
  | c :: r =>
      if after_cr && Ascii.eqb c "010" then splitlines_aux false cur r
      else if is_linebreak c
           then str_of (rev cur) :: splitlines_aux (Ascii.eqb c "013") [] r
           else splitlines_aux false (c :: cur) r
  end.

(** [s.splitlines()]. *)
Definition splitlines (s : string) : list string :=
  splitlines_aux false [] (chars s).

(** [sep.join(l)]. *)
Fixpoint join (sep : string) (l : list string) : string :=
  match l with
  | [] => ""
  | [x] => x
  | x :: r => x ++ sep ++ join sep r
  end.

Fixpoint prefix_of (p l : list ascii) : option (list ascii) :=
  match p, l with
  | [], _ => Some l
  | a :: p', b :: l' => if Ascii.eqb a b then prefix_of p' l' else None
  | _ :: _, [] => None
  end.

(** [s.startswith(p)]. *)
Definition startswith (p s : string) : bool :=
  match prefix_of (chars p) (chars s) with Some _ => true | None => false end.

(** [s.replace(old, "")] for a non-empty [old]: every non-overlapping
    occurrence, scanning from the left, is removed. *)
Fixpoint remove_all_aux (fuel : nat) (old : list ascii) (l : list ascii) : list ascii :=
  match fuel with
  | O => l
  | S fuel' =>
      match l with
      | [] => []
      | c :: r =>
          match prefix_of old l with
          | Some rest => remove_all_aux fuel' old rest
          | None => c :: remove_all_aux fuel' old r
          end
      end
  end.

Definition remove_all (old s : string) : string :=
  match chars old with
  | [] => s
  | o => str_of (remove_all_aux (S (String.length s)) o (chars s))
  end.

(** [str(n)] for an integer. *)
Definition str_of_Z (z : Z) : string := NilZero.string_of_int (Z.to_int z).

End Py.

(* ------------------------------------------------------------------ *)
(** ** Python values and dictionaries *)
(* ------------------------------------------------------------------ *)

(** The values a module parameter, an option of the option table or an
    entry of the observed connection can hold.  Lists hold strings: every
    list parameter is declared with [elements='str'], and the lists of the
    observed state come from [str.split]. *)
Inductive pyval : Type :=
| VNone
| VBool (b : bool)
| VInt (z : Z)
| VStr (s : string)
| VList (l : list string).

(** Equality of two lists of strings. *)
Fixpoint list_eqb (a b : list string) : bool :=
  match a, b with
  | [], [] => true
  | x :: a', y :: b' => String.eqb x y && list_eqb a' b'
  | _, _ => false
  end.

(** [a == b] *)
Definition pyval_eqb (a b : pyval) : bool :=
  match a, b with
  | VNone, VNone => true
  | VBool x, VBool y => Bool.eqb x y
  | VInt x, VInt y => Z.eqb x y
  | VStr x, VStr y => String.eqb x y
  | VList x, VList y => list_eqb x y
  | _, _ => false
  end.

Definition of_str (o : option string) : pyval :=
  match o with Some s => VStr s | None => VNone end.
Definition of_int (o : option Z) : pyval :=
  match o with Some z => VInt z | None => VNone end.
Definition of_bool (o : option bool) : pyval :=
  match o with Some b => VBool b | None => VNone end.
Definition of_list (o : option (list string)) : pyval :=
  match o with Some l => VList l | None => VNone end.

(** Truth value of an object ([if value], [not value]). *)
Definition truthy (v : pyval) : bool :=
  match v with
  | VNone => false
  | VBool b => b
  | VInt z => negb (Z.eqb z 0)
  | VStr s => negb (String.eqb s "")
  | VList l => match l with [] => false | _ => true end
  end.

Definition truthy_str (o : option string) : bool := truthy (of_str o).

Module Repr.

Definition hex_digit (n : nat) : ascii :=
  if (n <? 10)%nat then ascii_of_nat (48 + n) else ascii_of_nat (87 + n).

Definition escape (quote : ascii) (c : ascii) : list ascii :=
  (if Ascii.eqb c quote || Ascii.eqb c "\" then ["\"; c]
   else if Ascii.eqb c "009" then ["\"; "t"]
   else if Ascii.eqb c "010" then ["\"; "n"]
   else if Ascii.eqb c "013" then ["\"; "r"]
   else if (Py.code c <? 32)%nat || (Py.code c =? 127)%nat
        then ["\"; "x"; hex_digit (Py.code c / 16); hex_digit (Py.code c mod 16)]
        else [c])%char.

(** [repr(s)] of a string: single quotes, unless the text has a single
    quote and no double quote. *)
Definition repr_str (s : string) : string :=
  let q : ascii :=
    if Py.contains_char "'" s && negb (Py.contains_char "034" s)
    then "034"%char else "'"%char in
  Py.str_of (q :: flat_map (escape q) (Py.chars s) ++ [q]).

(** [str(l)] of a list of strings. *)
Definition repr_list (l : list string) : string :=
  "[" ++ Py.join ", " (map repr_str l) ++ "]".

End Repr.

(** [to_text(value)] of ansible's text converters: text is returned as it
    is, any other object through [str()]. *)
Definition to_text (v : pyval) : string :=
  match v with
  | VNone => "None"
  | VBool true => "True"
  | VBool false => "False"
  | VInt z => Py.str_of_Z z
  | VStr s => s
  | VList l => Repr.repr_list l
  end.

(** Insertion-ordered dictionaries with string keys. *)
Definition dict (V : Type) : Type := list (string * V).

Section Dict.
Context {V : Type}.

Fixpoint dict_get (k : string) (d : dict V) : option V :=
  match d with
  | [] => None
  | (k', v) :: r => if String.eqb k k' then Some v else dict_get k r
  end.

Definition dict_mem (k : string) (d : dict V) : bool :=
  match dict_get k d with Some _ => true | None => false end.

(** [d[k] = v]: an existing key keeps its place, a new key goes last. *)
Fixpoint dict_set (k : string) (v : V) (d : dict V) : dict V :=
  match d with
  | [] => [(k, v)]
  | (k', v') :: r =>
      if String.eqb k k' then (k, v) :: r else (k', v') :: dict_set k v r
  end.

(** [del d[k]] for a key that is present. *)
Fixpoint dict_del (k : string) (d : dict V) : dict V :=
  match d with
  | [] => []
  | (k', v') :: r =>
      if String.eqb k k' then r else (k', v') :: dict_del k r
  end.

(** [d.update(e)] *)
Definition dict_update (d e : dict V) : dict V :=
  fold_left (fun acc kv => dict_set (fst kv) (snd kv) acc) e d.

Definition dict_keys (d : dict V) : list string := map fst d.
End Dict.

(** [sorted(l)] on strings: code point order. *)
Fixpoint insert_sorted (x : string) (l : list string) : list string :=
  match l with
  | [] => [x]
  | y :: r => if String.leb x y then x :: l else y :: insert_sorted x r
  end.

Definition sorted (l : list string) : list string :=
  fold_right insert_sorted [] l.

(** [sorted(d.items())]: the keys of a dictionary are distinct, so the
    items are ordered by key. *)
Fixpoint insert_item {V : Type} (x : string * V) (l : dict V) : dict V :=
  match l with
  | [] => [x]
  | y :: r => if String.leb (fst x) (fst y) then x :: l else y :: insert_item x r
  end.

Definition sorted_items {V : Type} (d : dict V) : dict V :=
  fold_right insert_item [] d.

(* ------------------------------------------------------------------ *)
(** ** The regular expressions of the module *)
(* ------------------------------------------------------------------ *)

Module Re.
Import Py.

Local Open Scope char_scope.

(** [re.compile(r'^([-]?\d+) \((\w+)\)$').match(s)]: group 1 of the match.
    [$] also matches before a final line feed. *)
Definition match_enum_value (s : string) : option string :=
  let l := chars s in
  let '(sign, l1) :=
    match l with
    | "-" :: r => (["-"], r)
    | _ => ([], l)
    end in
  let digits := take_while is_digit l1 in
  match digits, drop_while is_digit l1 with
  | _ :: _, " " :: "(" :: l2 =>
      match take_while is_word l2, drop_while is_word l2 with
      | _ :: _, [")"] => Some (str_of (sign ++ digits))
      | _ :: _, [")"; "010"] => Some (str_of (sign ++ digits))
      | _, _ => None
      end
  | _, _ => None
  end.

Definition is_hex (c : ascii) : bool :=
  is_digit c || in_range 65 70 c || in_range 97 102 c.

Definition hex_value (c : ascii) : Z :=
  if is_digit c then Z.of_nat (code c - 48)
  else if in_range 65 70 c then Z.of_nat (code c - 55)
  else Z.of_nat (code c - 87).

(** [int(h, 16)] *)
Definition int16 (h : list ascii) : Z :=
  fold_left (fun acc c => 16 * acc + hex_value c)%Z h 0%Z.

(** [re.match('0x([0-9A-Fa-f]+)', s)]: group 1 of the match. *)
Definition match_hex (s : string) : option (list ascii) :=
  match chars s with
  | "0" :: "x" :: l =>
      match take_while is_hex l with
      | [] => None
      | h => Some h
      end
  | _ => None
  end.

Definition is_name_char (c : ascii) : bool := is_word c || Ascii.eqb c "-".
Definition is_value_char (c : ascii) : bool :=
  negb (is_space c || Ascii.eqb c "," || Ascii.eqb c "}").

Definition skip_one_space (l : list ascii) : list ascii :=
  match l with
  | c :: r => if is_space c then r else l
  | [] => []
  end.

(** One attempt of the pattern of [get_route_params] at the head of [l]: a
    run of [\w] or [-], one optional white space, [=], one optional white
    space, a run of anything but white space, comma and closing brace.  The
    result holds the two groups and the text after the match.  Every quantifier is greedy and
    none can give a character back to a later part of the pattern, so the
    attempt is decided by the longest runs. *)
Definition route_param_at (l : list ascii)
  : option (string * string * list ascii) :=
  let name := take_while is_name_char l in
  match skip_one_space (drop_while is_name_char l) with
  | "=" :: r =>
      let r' := skip_one_space r in
      Some (str_of name, str_of (take_while is_value_char r'),
            drop_while is_value_char r')
  | _ => None
  end.

(** [re.findall] with that pattern: leftmost matches, each search starting
    where the last match ended. *)
Fixpoint findall_route_params_aux (fuel : nat) (l : list ascii)
  : list (string * string) :=
  match fuel with
  | O => []
  | S fuel' =>
      match l with
      | [] => []
      | _ :: r =>
          match route_param_at l with
          | Some (k, v, rest) => (k, v) :: findall_route_params_aux fuel' rest
          | None => findall_route_params_aux fuel' r
          end
      end
  end.

Definition findall_route_params (s : string) : list (string * string) :=
  findall_route_params_aux (S (String.length s)) (chars s).

(** [re.sub] of white space, [=], white space by [=] with [count=1]: the
    leftmost [=], with the white space around it, becomes a bare [=]. *)
Fixpoint sub_equals_aux (pending : list ascii) (l : list ascii) : list ascii :=
  match l with
  | [] => rev pending
  | c :: r =>
      if Ascii.eqb c "=" then "=" :: drop_while is_space r
      else if is_space c then sub_equals_aux (c :: pending) r
      else rev pending ++ c :: sub_equals_aux [] r
  end.

Definition sub_equals (s : string) : string :=
  str_of (sub_equals_aux [] (chars s)).

End Re.

(* ------------------------------------------------------------------ *)
(** ** Module parameters and the [Nmcli] object *)
(* ------------------------------------------------------------------ *)

(** [module.params] after the argument spec has been applied: parameters
    with a default always hold a value, the others may be [None].
    [conn_name] and [state] are required. *)
Record Params : Type := {
  p_state : string;
  p_ignore_unsupported_suboptions : bool;
  p_autoconnect : bool;
  p_autoconnect_priority : option Z;
  p_autoconnect_retries : option Z;
  p_conn_name : string;
  p_conn_reload : bool;
  p_slave_type : option string;
  p_master : option string;
  p_ifname : option string;
  p_type : option string;
  p_ip4 : option (list string);
  p_gw4 : option string;
  p_gw4_ignore_auto : bool;
  p_routes4 : option (list string);
  p_routes4_extended : option (list (dict pyval));
  p_route_metric4 : option Z;
  p_routing_rules4 : option (list string);
  p_never_default4 : bool;
  p_dns4 : option (list string);
  p_dns4_search : option (list string);
  p_dns4_options : option (list string);
  p_dns4_ignore_auto : bool;
  p_method4 : option string;
  p_may_fail4 : bool;
  p_ip6 : option (list string);
  p_gw6 : option string;
  p_gw6_ignore_auto : bool;
  p_routes6 : option (list string);
  p_routes6_extended : option (list (dict pyval));
  p_route_metric6 : option Z;
  p_dns6 : option (list string);
  p_dns6_search : option (list string);
  p_dns6_options : option (list string);
  p_dns6_ignore_auto : bool;
  p_method6 : option string;
  p_ip_privacy6 : option string;
  p_addr_gen_mode6 : option string;
  p_mtu : option Z;
  p_stp : bool;
  p_priority : Z;
  p_mode : string;
  p_miimon : option Z;
  p_primary : option string;
  p_downdelay : option Z;
  p_updelay : option Z;
  p_xmit_hash_policy : option string;
  p_fail_over_mac : option string;
  p_arp_interval : option Z;
  p_arp_ip_target : option string;
  p_slavepriority : Z;
  p_forwarddelay : Z;
  p_hellotime : Z;
  p_maxage : Z;
  p_ageingtime : Z;
  p_hairpin : bool;
  p_path_cost : Z;
  p_mac : option string;
  p_runner : string;
  p_runner_hwaddr_policy : option string;
  p_runner_fast_rate : option bool;
  p_vlanid : option Z;
  p_vlandev : option string;
  p_flags : option string;
  p_ingress : option string;
  p_egress : option string;
  p_vxlan_id : option Z;
  p_vxlan_local : option string;
  p_vxlan_remote : option string;
  p_ip_tunnel_dev : option string;
  p_ip_tunnel_local : option string;
  p_ip_tunnel_remote : option string;
  p_ip_tunnel_input_key : option string;
  p_ip_tunnel_output_key : option string;
  p_dhcp_client_id : option string;
  p_zone : option string;
  p_ssid : option string;
  p_wifi : option (dict pyval);
  p_wifi_sec : option (dict pyval);
  p_gsm : option (dict pyval);
  p_macvlan : option (dict pyval);
  p_wireguard : option (dict pyval);
  p_vpn : option (dict pyval);
  p_transport_mode : option string;
  p_infiniband_mac : option string;
  p_sriov : option (dict pyval);
  p_table : option Z
}.

(** One call of the external tool: the argument vector after [to_text] and
    the text fed to its standard input. *)
Record Cmd : Type := { argv : list string; data : option string }.

(** What [run_command] returns: exit code, standard output, standard
    error. *)
Definition Resp : Type := (Z * string * string)%type.

Definition History : Type := list (Cmd * Resp).

(** The [AnsibleModule] object as far as the module uses it.  The answer
    of the external tool may depend on every call made before. *)
Record AnsibleModule : Type := {
  params : Params;
  check_mode : bool;
  _diff : bool;
  nmcli_path : string;                       (* get_bin_path('nmcli', True) *)
  run_command : History -> Cmd -> Resp
}.

(** The attributes of the [Nmcli] object: the parameters, and apart from
    them the attributes the methods assign to after construction. *)
Record Nmcli : Type := {
  module : AnsibleModule;
  type : option string;
  mtu : option Z;
  wifi : option (dict pyval);
  wifi_sec : option (dict pyval);
  ipv4_method : option string;
  ipv6_method : option string;
  edit_commands : list string
}.

Definition P (self : Nmcli) : Params := params (module self).
Definition conn_name (self : Nmcli) : string := p_conn_name (P self).
Definition nmcli_bin (self : Nmcli) : string := nmcli_path (module self).

Definition set_type (self : Nmcli) (t : option string) : Nmcli :=
  {| module := module self; type := t; mtu := mtu self; wifi := wifi self;
     wifi_sec := wifi_sec self; ipv4_method := ipv4_method self;
     ipv6_method := ipv6_method self; edit_commands := edit_commands self |}.

Definition set_mtu (self : Nmcli) (m : option Z) : Nmcli :=
  {| module := module self; type := type self; mtu := m; wifi := wifi self;
     wifi_sec := wifi_sec self; ipv4_method := ipv4_method self;
     ipv6_method := ipv6_method self; edit_commands := edit_commands self |}.

Definition set_wifi (self : Nmcli) (w : option (dict pyval)) : Nmcli :=
  {| module := module self; type := type self; mtu := mtu self; wifi := w;
     wifi_sec := wifi_sec self; ipv4_method := ipv4_method self;
     ipv6_method := ipv6_method self; edit_commands := edit_commands self |}.

Definition set_wifi_sec (self : Nmcli) (w : option (dict pyval)) : Nmcli :=
  {| module := module self; type := type self; mtu := mtu self; wifi := wifi self;
     wifi_sec := w; ipv4_method := ipv4_method self;
     ipv6_method := ipv6_method self; edit_commands := edit_commands self |}.

Definition set_edit_commands (self : Nmcli) (c : list string) : Nmcli :=
  {| module := module self; type := type self; mtu := mtu self; wifi := wifi self;
     wifi_sec := wifi_sec self; ipv4_method := ipv4_method self;
     ipv6_method := ipv6_method self; edit_commands := c |}.

(** [self.type == t] and [self.type in (...)]. *)
Definition type_is (self : Nmcli) (t : string) : bool :=
  match type self with Some s => String.eqb s t | None => false end.

Definition str_in (s : string) (l : list string) : bool :=
  existsb (String.eqb s) l.

Definition type_in (self : Nmcli) (l : list string) : bool :=
  match type self with Some s => str_in s l | None => false end.

Definition opt_str_is (o : option string) (t : string) : bool :=
  match o with Some s => String.eqb s t | None => false end.

(* ------------------------------------------------------------------ *)
(** ** Results and exceptions *)
(* ------------------------------------------------------------------ *)

Record Diff : Type := { before : dict pyval; after : dict pyval }.

(** The [result] dictionary of [main]. *)
Record Result : Type := {
  r_conn_name : string;
  r_state : string;
  r_diff : option Diff;
  r_Exists : option string;
  r_Connection : option string;
  r_stdout : option string;
  r_stderr : option string
}.

(** Whatever leaves a method other than its return value.  [exit_json] and
    [fail_json] end the process, so they are exceptions no handler of the
    module catches. *)
Inductive exn : Type :=
| ExitJson (changed : bool) (result : option Result)
| FailJson (msg : string) (name : option string) (rc : option Z)
| NmcliModuleError (msg : string)
| PyError (kind : string).

Inductive res (A : Type) : Type :=
| Ok (a : A)
| Exc (e : exn).
Arguments Ok {A} a.
Arguments Exc {A} e.

Definition res_bind {A B : Type} (r : res A) (f : A -> res B) : res B :=
  match r with
  | Ok a => f a
  | Exc e => Exc e
  end.

Fixpoint res_map_list {A B : Type} (f : A -> res B) (l : list A) : res (list B) :=
  match l with
  | [] => Ok []
  | a :: r =>
      res_bind (f a) (fun b => res_bind (res_map_list f r) (fun bs => Ok (b :: bs)))
  end.

(* ------------------------------------------------------------------ *)
(** ** Properties and static methods of [Nmcli] *)
(* ------------------------------------------------------------------ *)

Definition ip_conn_type (self : Nmcli) : bool :=
  type_in self
    ["bond"; "bridge"; "dummy"; "ethernet"; "802-3-ethernet"; "generic"; "gre";
     "infiniband"; "ipip"; "sit"; "team"; "vlan"; "wifi"; "802-11-wireless";
     "gsm"; "macvlan"; "wireguard"; "vpn"; "loopback"; "ovs-interface"; "vrf"].

Definition mac_setting (self : Nmcli) : string :=
  if type_is self "bridge" then "bridge.mac-address"
  else "802-3-ethernet.cloned-mac-address".

Definition mtu_conn_type (self : Nmcli) : bool :=
  type_in self
    ["bond"; "bond-slave"; "dummy"; "ethernet"; "infiniband"; "team-slave"; "vlan"].

Definition mtu_setting (self : Nmcli) : string :=
  if type_is self "infiniband" then "infiniband.mtu" else "802-3-ethernet.mtu".

Definition mtu_to_string (mtu : pyval) : string :=
  if negb (truthy mtu) then "auto" else to_text mtu.

Definition ip6_privacy_values : dict string :=
  [("disabled", "0");
   ("prefer-public-addr", "1 (enabled, prefer public IP)");
   ("prefer-temp-addr", "2 (enabled, prefer temporary IP)");
   ("unknown", "-1")].

Definition ip6_privacy_to_num (privacy : pyval) : res pyval :=
  match privacy with
  | VNone => Ok VNone
  | VStr s =>
      match dict_get s ip6_privacy_values with
      | Some n => Ok (VStr n)
      | None => Exc (PyError "AssertionError")
      end
  | VList _ => Exc (PyError "TypeError")
  | _ => Exc (PyError "AssertionError")
  end.

Definition slave_conn_type (self : Nmcli) : bool :=
  type_in self
    ["ethernet"; "bridge"; "bond"; "vlan"; "team"; "wifi"; "bond-slave";
     "bridge-slave"; "team-slave"; "wifi"; "infiniband"; "ovs-port";
     "ovs-interface"].

Definition tunnel_conn_type (self : Nmcli) : bool :=
  type_in self ["gre"; "ipip"; "sit"].

Definition enforce_ipv4_cidr_notation (ip4_addresses : option (list string))
  : option (list string) :=
  match ip4_addresses with
  | None => None
  | Some l =>
      Some (map (fun address =>
                   if Py.contains_char "/" address then address
                   else (address ++ "/32")%string) l)
  end.

Definition enforce_ipv6_cidr_notation (ip6_addresses : option (list string))
  : option (list string) :=
  match ip6_addresses with
  | None => None
  | Some l =>
      Some (map (fun address =>
                   if Py.contains_char "/" address then address
                   else (address ++ "/128")%string) l)
  end.

(** [route.get(k) is not None] *)
Definition route_has (route : dict pyval) (k : string) : bool :=
  match dict_get k route with
  | Some VNone | None => false
  | Some _ => true
  end.

Definition route_to_string (route : dict pyval) : res string :=
  match dict_get "ip" route with
  | None => Exc (PyError "KeyError")
  | Some (VStr ip) =>
      res_bind
        (if route_has route "next_hop" then
           match dict_get "next_hop" route with
           | Some (VStr nh) => Ok (ip ++ " " ++ nh)%string
           | _ => Exc (PyError "TypeError")
           end
         else Ok ip)
        (fun s1 =>
           let s2 :=
             match dict_get "metric" route with
             | Some VNone | None => s1
             | Some m => (s1 ++ " " ++ to_text m)%string
             end in
           Ok (fold_left
                 (fun acc item =>
                    let '(attribute, value) := item in
                    if negb (str_in attribute ["ip"; "next_hop"; "metric"])
                       && negb (pyval_eqb value VNone)
                    then (acc ++ " " ++ attribute ++ "=" ++ Py.lower (to_text value))%string
                    else acc)
                 (sorted_items route) s2))
  | Some _ => Exc (PyError "TypeError")
  end.

Definition enforce_routes_format (routes : option (list string))
    (routes_extended : option (list (dict pyval))) : res pyval :=
  match routes, routes_extended with
  | Some r, _ => Ok (VList r)
  | None, Some ext => res_bind (res_map_list route_to_string ext) (fun l => Ok (VList l))
  | None, None => Ok VNone
  end.

Definition bool_to_string (boolean : pyval) : string :=
  if truthy boolean then "yes" else "no".

(** [",".join(lst)]: a string is joined character by character, any other
    object that is not a list cannot be joined. *)
Definition list_to_string (lst : pyval) : res pyval :=
  match lst with
  | VNone => Ok VNone
  | VList l => Ok (VStr (Py.join "," l))
  | VStr s => Ok (VStr (Py.join "," (map (fun c => String c "") (Py.chars s))))
  | _ => Exc (PyError "TypeError")
  end.

Inductive setting_type : Type := TBool | TList | TInt | TStr.

Definition settings_type (setting : string) : setting_type :=
  if str_in setting
       ["bridge.stp"; "bridge-port.hairpin-mode"; "connection.autoconnect";
        "ipv4.never-default"; "ipv4.ignore-auto-dns"; "ipv4.ignore-auto-routes";
        "ipv4.may-fail"; "ipv6.ignore-auto-dns"; "ipv6.ignore-auto-routes";
        "802-11-wireless.hidden"; "team.runner-fast-rate"]
  then TBool
  else if str_in setting
       ["ipv4.addresses"; "ipv6.addresses"; "ipv4.dns"; "ipv4.dns-search";
        "ipv4.dns-options"; "ipv4.routes"; "ipv4.routing-rules"; "ipv6.dns";
        "ipv6.dns-search"; "ipv6.dns-options"; "ipv6.routes";
        "802-11-wireless-security.group";
        "802-11-wireless-security.leap-password-flags";
        "802-11-wireless-security.pairwise"; "802-11-wireless-security.proto";
        "802-11-wireless-security.psk-flags";
        "802-11-wireless-security.wep-key-flags";
        "802-11-wireless.mac-address-blacklist"]
  then TList
  else if str_in setting
       ["connection.autoconnect-priority"; "connection.autoconnect-retries"]
  then TInt
  else TStr.

Definition is_TList (t : setting_type) : bool :=
  match t with TList => true | _ => false end.
Definition is_TBool (t : setting_type) : bool :=
  match t with TBool => true | _ => false end.

(** [get_route_params]: each observed route is parsed into a dictionary
    ([nh] becomes [next_hop], [mt] becomes [metric]) and printed again. *)
Definition route_params_of (raw_value : string) : dict pyval :=
  fold_left
    (fun route_params pv =>
       let '(parameter, value) := pv in
       if String.eqb parameter "nh" then dict_set "next_hop" (VStr value) route_params
       else if String.eqb parameter "mt" then dict_set "metric" (VStr value) route_params
       else dict_set parameter (VStr value) route_params)
    (Re.findall_route_params raw_value) [].

Definition get_route_params (raw_values : pyval) : res (list string) :=
  match raw_values with
  | VList l => res_map_list (fun raw => route_to_string (route_params_of raw)) l
  | VStr s =>
      res_map_list (fun c => route_to_string (route_params_of (String c "")))
                   (Py.chars s)
  | _ => Exc (PyError "TypeError")
  end.

Definition create_connection_up (self : Nmcli) : bool :=
  if type_in self ["bond"; "dummy"; "ethernet"; "infiniband"; "wifi"] then
    match mtu self, p_dns4 (P self), p_dns6 (P self) with
    | None, None, None => false
    | _, _, _ => true
    end
  else if type_is self "team" then
    match p_dns4 (P self), p_dns6 (P self) with
    | None, None => false
    | _, _ => true
    end
  else false.

(* ------------------------------------------------------------------ *)
(** ** The option table: [connection_options] *)
(* ------------------------------------------------------------------ *)

(** [for name, value in d.items(): options.update({prefix + name: value})] *)
Definition update_prefixed (prefix : string) (d : dict pyval)
    (options : dict pyval) : dict pyval :=
  fold_left (fun acc nv => dict_set (prefix ++ fst nv)%string (snd nv) acc) d options.

Definition truthy_dict (d : option (dict pyval)) : bool :=
  match d with
  | Some (_ :: _) => true
  | _ => false
  end.

Definition items_of (d : option (dict pyval)) : dict pyval :=
  match d with Some l => l | None => [] end.

Definition slave_type_conflict (self : Nmcli) (allowed : string) : string :=
  let t := to_text (of_str (type self)) in
  ("Connection type '" ++ t ++ "' cannot be combined with '"
   ++ to_text (of_str (p_slave_type (P self))) ++ "' slave-type. "
   ++ "Allowed slave-type for '" ++ t ++ "' is '" ++ allowed ++ "'.")%string.

Definition slave_type_warning (allowed : string) (conn_type : string) : string :=
  ("Connection 'slave-type' property automatically set to '" ++ allowed ++ "' "
   ++ "because of using '" ++ conn_type ++ "' connection type.")%string.

(** The body of the loop over [self.vpn.items()]: the options and the text
    of [vpn.data] gathered so far. *)
Definition vpn_step (acc : dict pyval * string) (nv : string * pyval)
  : dict pyval * string :=
  let '(options, vpn_data_values) := acc in
  let '(name, value) := nv in
  let '(options1, data1) :=
    if String.eqb name "service-type"
    then (dict_set "vpn.service-type" value options, vpn_data_values)
    else if String.eqb name "permissions"
    then (dict_set "connection.permissions" value options, vpn_data_values)
    else
      let sep := if negb (String.eqb vpn_data_values "") then ", " else "" in
      let value' :=
        match value with
        | VBool _ => VStr (bool_to_string value)
        | _ => value
        end in
      (options, (vpn_data_values ++ sep ++ name ++ "=" ++ to_text value')%string) in
  (dict_set "vpn.data" (VStr data1) options1, data1).

(** The options specific to the connection type, with the warnings given
    on the way. *)
Definition type_options (self : Nmcli) (options : dict pyval)
  : list string * res (dict pyval) :=
  let p := P self in
  let slave_branch (allowed conn_type : string)
      (k : dict pyval -> list string * dict pyval) :=
    if truthy_str (p_slave_type p) && negb (opt_str_is (p_slave_type p) allowed)
    then ([], Exc (FailJson (slave_type_conflict self allowed) None None))
    else
      let '(w, options1) :=
        if negb (truthy_str (p_slave_type p))
        then ([slave_type_warning allowed conn_type],
              dict_update options [("connection.slave-type", VStr allowed)])
        else ([], options) in
      let '(w', options2) := k options1 in
      ((w ++ w')%list, Ok options2) in
  if type_is self "bond" then
    ([], Ok (dict_update options
        [("arp-interval", of_int (p_arp_interval p));
         ("arp-ip-target", of_str (p_arp_ip_target p));
         ("downdelay", of_int (p_downdelay p));
         ("miimon", of_int (p_miimon p));
         ("mode", VStr (p_mode p));
         ("primary", of_str (p_primary p));
         ("updelay", of_int (p_updelay p));
         ("xmit_hash_policy", of_str (p_xmit_hash_policy p));
         ("fail_over_mac", of_str (p_fail_over_mac p))]))
  else if type_is self "bond-slave" then
    slave_branch "bond" "bond-slave" (fun o => ([], o))
  else if type_is self "bridge" then
    let options1 :=
      dict_update options
        [("bridge.ageing-time", VInt (p_ageingtime p));
         ("bridge.forward-delay", VInt (p_forwarddelay p));
         ("bridge.hello-time", VInt (p_hellotime p));
         ("bridge.max-age", VInt (p_maxage p));
         ("bridge.priority", VInt (p_priority p));
         ("bridge.stp", VBool (p_stp p))] in
    ([], Ok (if p_stp p
             then dict_update options1 [("bridge.priority", VInt (p_priority p))]
             else options1))
  else if type_is self "team" then
    let options1 :=
      dict_update options
        [("team.runner", VStr (p_runner p));
         ("team.runner-hwaddr-policy", of_str (p_runner_hwaddr_policy p))] in
    ([], Ok match p_runner_fast_rate p with
            | Some b => dict_update options1 [("team.runner-fast-rate", VBool b)]
            | None => options1
            end)
  else if type_is self "bridge-slave" then
    slave_branch "bridge" "bridge-slave"
      (fun o =>
         (["Connection type as 'bridge-slave' implies 'ethernet' connection with 'bridge' slave-type. Consider using slave_type='bridge' with necessary type."],
          dict_update o
            [("bridge-port.path-cost", VInt (p_path_cost p));
             ("bridge-port.hairpin-mode", VBool (p_hairpin p));
             ("bridge-port.priority", VInt (p_slavepriority p))]))
  else if type_is self "team-slave" then
    slave_branch "team" "team-slave" (fun o => ([], o))
  else if tunnel_conn_type self then
    let options1 :=
      dict_update options
        [("ip-tunnel.local", of_str (p_ip_tunnel_local p));
         ("ip-tunnel.mode", of_str (type self));
         ("ip-tunnel.parent", of_str (p_ip_tunnel_dev p));
         ("ip-tunnel.remote", of_str (p_ip_tunnel_remote p))] in
    ([], Ok (if type_is self "gre"
             then dict_update options1
                    [("ip-tunnel.input-key", of_str (p_ip_tunnel_input_key p));
                     ("ip-tunnel.output-key", of_str (p_ip_tunnel_output_key p))]
             else options1))
  else if type_is self "vlan" then
    ([], Ok (dict_update options
        [("vlan.id", of_int (p_vlanid p));
         ("vlan.parent", of_str (p_vlandev p));
         ("vlan.flags", of_str (p_flags p));
         ("vlan.ingress", of_str (p_ingress p));
         ("vlan.egress", of_str (p_egress p))]))
  else if type_is self "vxlan" then
    ([], Ok (dict_update options
        [("vxlan.id", of_int (p_vxlan_id p));
         ("vxlan.local", of_str (p_vxlan_local p));
         ("vxlan.remote", of_str (p_vxlan_remote p))]))
  else if type_is self "wifi" then
    let options1 :=
      dict_update options
        [("802-11-wireless.ssid", of_str (p_ssid p));
         ("connection.slave-type",
          if truthy_str (p_master p)
          then match p_slave_type p with None => VStr "bond" | Some s => VStr s end
          else VNone)] in
    let options2 :=
      if truthy_dict (wifi self)
      then update_prefixed "802-11-wireless." (items_of (wifi self)) options1
      else options1 in
    ([], Ok (if truthy_dict (wifi_sec self)
             then update_prefixed "802-11-wireless-security."
                    (items_of (wifi_sec self)) options2
             else options2))
  else if type_is self "gsm" then
    ([], Ok (if truthy_dict (p_gsm p)
             then update_prefixed "gsm." (items_of (p_gsm p)) options
             else options))
  else if type_is self "macvlan" then
    if truthy_dict (p_macvlan p)
    then ([], Ok (update_prefixed "macvlan." (items_of (p_macvlan p)) options))
    else if String.eqb (p_state p) "present"
    then ([], Exc (NmcliModuleError
                     "type is macvlan but all of the following are missing: macvlan"))
    else ([], Ok options)
  else if type_is self "wireguard" then
    ([], Ok (if truthy_dict (p_wireguard p)
             then update_prefixed "wireguard." (items_of (p_wireguard p)) options
             else options))
  else if type_is self "vpn" then
    ([], Ok (if truthy_dict (p_vpn p)
             then fst (fold_left vpn_step (items_of (p_vpn p)) (options, ""))
             else options))
  else if type_is self "infiniband" then
    let options1 :=
      dict_update options
        [("infiniband.transport-mode", of_str (p_transport_mode p))] in
    ([], Ok match p_infiniband_mac p with
            | Some m => if truthy (VStr m)
                        then dict_set "infiniband.mac-address" (VStr m) options1
                        else options1
            | None => options1
            end)
  else if type_is self "vrf" then
    (* [self.table] is only assigned when the type given at construction
       was already vrf *)
    if opt_str_is (p_type p) "vrf"
    then ([], Ok (dict_update options [("table", of_int (p_table p))]))
    else ([], Exc (PyError "AttributeError"))
  else ([], Ok options).

(** The conversion applied to one option at the end of
    [connection_options]. *)
Definition convert_option (self : Nmcli) (detect_change : bool)
    (setting : string) (value : pyval) : res pyval :=
  let setting_type := settings_type setting in
  if detect_change then
    if str_in setting ["vlan.id"; "vxlan.id"] then Ok (VStr (to_text value))
    else if String.eqb setting (mtu_setting self) then Ok (VStr (mtu_to_string value))
    else if String.eqb setting "ipv6.ip6-privacy" then ip6_privacy_to_num value
    else if is_TBool setting_type then Ok (VStr (bool_to_string value))
    else Ok value
  else if is_TBool setting_type then Ok (VStr (bool_to_string value))
  else if is_TList setting_type then list_to_string value
  else Ok value.

Definition convert_options (self : Nmcli) (detect_change : bool)
    (options : dict pyval) : res (dict pyval) :=
  res_map_list
    (fun sv => res_bind (convert_option self detect_change (fst sv) (snd sv))
                        (fun v => Ok (fst sv, v)))
    options.

(** The IP address options. *)
Definition ip_options (self : Nmcli) (options : dict pyval) : res (dict pyval) :=
  let p := P self in
  res_bind (enforce_routes_format (p_routes4 p) (p_routes4_extended p)) (fun routes4 =>
  res_bind (enforce_routes_format (p_routes6 p) (p_routes6_extended p)) (fun routes6 =>
  let options1 :=
    dict_update options
      [("ipv4.addresses", of_list (enforce_ipv4_cidr_notation (p_ip4 p)));
       ("ipv4.dhcp-client-id", of_str (p_dhcp_client_id p));
       ("ipv4.dns", of_list (p_dns4 p));
       ("ipv4.dns-search", of_list (p_dns4_search p));
       ("ipv4.dns-options", of_list (p_dns4_options p));
       ("ipv4.ignore-auto-dns", VBool (p_dns4_ignore_auto p));
       ("ipv4.gateway", of_str (p_gw4 p));
       ("ipv4.ignore-auto-routes", VBool (p_gw4_ignore_auto p));
       ("ipv4.routes", routes4);
       ("ipv4.route-metric", of_int (p_route_metric4 p));
       ("ipv4.routing-rules", of_list (p_routing_rules4 p));
       ("ipv4.never-default", VBool (p_never_default4 p));
       ("ipv4.method", of_str (ipv4_method self));
       ("ipv4.may-fail", VBool (p_may_fail4 p));
       ("ipv6.addresses", of_list (enforce_ipv6_cidr_notation (p_ip6 p)));
       ("ipv6.dns", of_list (p_dns6 p));
       ("ipv6.dns-search", of_list (p_dns6_search p));
       ("ipv6.dns-options", of_list (p_dns6_options p));
       ("ipv6.ignore-auto-dns", VBool (p_dns6_ignore_auto p));
       ("ipv6.gateway", of_str (p_gw6 p));
       ("ipv6.ignore-auto-routes", VBool (p_gw6_ignore_auto p));
       ("ipv6.routes", routes6);
       ("ipv6.route-metric", of_int (p_route_metric6 p));
       ("ipv6.method", of_str (ipv6_method self));
       ("ipv6.ip6-privacy", of_str (p_ip_privacy6 p));
       ("ipv6.addr-gen-mode", of_str (p_addr_gen_mode6 p))] in
  Ok (if truthy_str (ipv4_method self) && negb (opt_str_is (ipv4_method self) "disabled")
      then dict_update options1 [("ipv4.may-fail", VBool (p_may_fail4 p))]
      else options1))).

(** [connection_options(detect_change)]: the warnings given and the
    option table, or the exception that ends the method. *)
Definition connection_options (self : Nmcli) (detect_change : bool)
  : list string * res (dict pyval) :=
  let p := P self in
  (* Options common to multiple connection types. *)
  let options0 : dict pyval :=
    [("connection.autoconnect", VBool (p_autoconnect p));
     ("connection.autoconnect-priority", of_int (p_autoconnect_priority p));
     ("connection.autoconnect-retries", of_int (p_autoconnect_retries p));
     ("connection.zone", of_str (p_zone p))] in
  match
    (if (ip_conn_type self
         && (negb (truthy_str (p_master p)) || opt_str_is (p_slave_type p) "vrf"))
        || type_is self "ovs-interface"
     then ip_options self options0 else Ok options0)
  with
  | Exc e => ([], Exc e)
  | Ok options1 =>
      (* Layer 2 options. *)
      let options2 :=
        if truthy_str (p_mac p)
        then dict_update options1 [(mac_setting self, of_str (p_mac p))]
        else options1 in
      let options3 :=
        if mtu_conn_type self
        then dict_update options2 [(mtu_setting self, of_int (mtu self))]
        else options2 in
      (* Connections that can have a master. *)
      let options4 :=
        if slave_conn_type self
        then dict_update options3
               [("connection.master", of_str (p_master p));
                ("connection.slave-type", of_str (p_slave_type p))]
        else options3 in
      (* Options specific to a connection type. *)
      match type_options self options4 with
      | (w, Exc e) => (w, Exc e)
      | (w, Ok options5) =>
          let options6 :=
            if type_is self "ethernet" && truthy_dict (p_sriov p)
            then update_prefixed "sriov." (items_of (p_sriov p)) options5
            else options5 in
          (* Convert settings values based on the situation. *)
          (w, convert_options self detect_change options6)
      end
  end.

(* ------------------------------------------------------------------ *)
(** ** Methods that run the external tool *)
(* ------------------------------------------------------------------ *)

(** The state a run threads: the object, the calls of the external tool
    made so far with their answers, and the warnings given. *)
Record State : Type := {
  self : Nmcli;
  history : History;
  warnings : list string
}.

Definition M (A : Type) : Type := State -> res A * State.

Definition ret {A : Type} (a : A) : M A := fun st => (Ok a, st).

Definition bind {A B : Type} (m : M A) (f : A -> M B) : M B :=
  fun st =>
    match m st with
    | (Ok a, st') => f a st'
    | (Exc e, st') => (Exc e, st')
    end.

Definition raise {A : Type} (e : exn) : M A := fun st => (Exc e, st).

Declare Scope nmcli_scope.
Delimit Scope nmcli_scope with nmcli.
Notation "x <- m ;; k" := (bind m (fun x => k))
  (at level 61, m at next level, right associativity) : nmcli_scope.
Notation "' pat <- m ;; k" := (bind m (fun x => let pat := x in k))
  (at level 61, pat pattern, m at next level, right associativity) : nmcli_scope.
Notation "m ;;; k" := (bind m (fun _ => k))
  (at level 61, right associativity) : nmcli_scope.
Open Scope nmcli_scope.

Definition get_self : M Nmcli := fun st => (Ok (self st), st).

Definition modify_self (f : Nmcli -> Nmcli) : M unit :=
  fun st =>
    (Ok tt, {| self := f (self st); history := history st; warnings := warnings st |}).

Definition warn (msgs : list string) : M unit :=
  fun st =>
    (Ok tt, {| self := self st; history := history st;
               warnings := (warnings st ++ msgs)%list |}).

Definition lift {A : Type} (r : res A) : M A := fun st => (r, st).

(** [module.fail_json] and [module.exit_json] *)
Definition fail_json {A : Type} (msg : string) (name : option string)
    (rc : option Z) : M A :=
  raise (FailJson msg name rc).

Definition exit_json {A : Type} (changed : bool) (result : option Result) : M A :=
  raise (ExitJson changed result).

(** [try: body except NmcliModuleError as e: handler(str(e))] *)
Definition try_except {A : Type} (body : M A) (handler : string -> M A) : M A :=
  fun st =>
    match body st with
    | (Exc (NmcliModuleError msg), st') => handler msg st'
    | r => r
    end.

(** [execute_command]: one call of [module.run_command], recorded in the
    history. *)
Definition execute_command (cmd : list string) (data : option string) : M Resp :=
  fun st =>
    let c := {| argv := cmd; data := data |} in
    let r := run_command (module (self st)) (history st) c in
    (Ok r, {| self := self st; history := (history st ++ [(c, r)])%list;
              warnings := warnings st |}).

Definition newline : string := String "010" "".

Definition execute_edit_commands (commands : list string) (arguments : list string)
  : M Resp :=
  self <- get_self ;;
  execute_command ([nmcli_bin self; "con"; "edit"] ++ arguments)%list
                  (Some (Py.join newline commands)).

Definition list_connection_info : M (list string) :=
  self <- get_self ;;
  '(rc, out, err) <-
    execute_command [nmcli_bin self; "--fields"; "name"; "--terse"; "con"; "show"] None ;;
  if negb (Z.eqb rc 0) then raise (NmcliModuleError err)
  else ret (Py.splitlines out).

Definition connection_exists : M bool :=
  self <- get_self ;;
  l <- list_connection_info ;;
  ret (str_in (conn_name self) l).

Definition down_connection : M Resp :=
  self <- get_self ;;
  execute_command [nmcli_bin self; "con"; "down"; conn_name self] None.

Definition up_connection : M Resp :=
  self <- get_self ;;
  execute_command [nmcli_bin self; "con"; "up"; conn_name self] None.

Definition reload_connection : M Resp :=
  self <- get_self ;;
  execute_command [nmcli_bin self; "con"; "reload"] None.

Definition SECRET_OPTIONS : list string :=
  ["802-11-wireless-security.leap-password";
   "802-11-wireless-security.psk";
   "802-11-wireless-security.wep-key0";
   "802-11-wireless-security.wep-key1";
   "802-11-wireless-security.wep-key2";
   "802-11-wireless-security.wep-key3"].

(** The loop of [connection_update] that builds the command: the argument
    vector and the edit commands gathered so far. *)
Definition add_option (acc : list string * list string) (kv : string * pyval)
  : list string * list string :=
  let '(cmd, edits) := acc in
  let '(key, value) := kv in
  match value with
  | VNone => acc
  | _ =>
      if str_in key SECRET_OPTIONS
      then (cmd, edits ++ [("set " ++ key ++ " " ++ to_text value)%string])%list
      else if String.eqb key "xmit_hash_policy"
      then ((cmd ++ ["+bond.options"; ("xmit_hash_policy=" ++ to_text value)%string])%list, edits)
      else if String.eqb key "fail_over_mac"
      then ((cmd ++ ["+bond.options"; ("fail_over_mac=" ++ to_text value)%string])%list, edits)
      else ((cmd ++ [key; to_text value])%list, edits)
  end.

(** The options [connection_update] starts from: the interface name. *)
Definition interface_name_options (self : Nmcli) (ifname : option string)
  : dict pyval :=
  let options := [("connection.interface-name", of_str ifname)] in
  (* VPN doesn't need an interface but if sended it must be a valid interface. *)
  if type_is self "vpn" && match p_ifname (P self) with None => true | _ => false end
  then dict_del "connection.interface-name" options
  else options.

(** The interface name [connection_update] puts in the table. *)
Definition update_ifname (self : Nmcli) (nmcli_command : string) : option string :=
  (* Use connection name as default for interface name on creation. *)
  if String.eqb nmcli_command "create"
     && match p_ifname (P self) with None => true | _ => false end
  then Some (conn_name self)
  else p_ifname (P self).

(** The option table of [connection_update], given the table [more] that
    [connection_options] returned. *)
Definition update_options (self : Nmcli) (nmcli_command : string)
    (more : dict pyval) : dict pyval :=
  dict_update (interface_name_options self (update_ifname self nmcli_command)) more.

Definition connection_update (nmcli_command : string) : M Resp :=
  self <- get_self ;;
  cmd0 <-
    (if String.eqb nmcli_command "create" then
       ret [nmcli_bin self; "con"; "add"; "type";
            (if tunnel_conn_type self then "ip-tunnel" else to_text (of_str (type self)));
            "con-name"]
     else if String.eqb nmcli_command "modify" then
       ret [nmcli_bin self; "con"; "modify"]
     else fail_json "Invalid nmcli command." None None) ;;
  let cmd1 := (cmd0 ++ [conn_name self])%list in
  let '(w, r) := connection_options self false in
  warn w ;;;
  more <- lift r ;;
  let options := update_options self nmcli_command more in
  (* Constructing the command. *)
  let '(cmd, edits) := fold_left add_option options (cmd1, edit_commands self) in
  modify_self (fun s => set_edit_commands s edits) ;;;
  execute_command cmd None.

Definition edit_connection : M Resp :=
  self <- get_self ;;
  execute_edit_commands (edit_commands self ++ ["save"; "quit"])%list [conn_name self].

Definition create_connection : M Resp :=
  status <- connection_update "create" ;;
  self <- get_self ;;
  status <-
    (if Z.eqb (fst (fst status)) 0
        && match edit_commands self with [] => false | _ => true end
     then edit_connection else ret status) ;;
  if create_connection_up self then up_connection else ret status.

Definition remove_connection : M Resp :=
  self <- get_self ;;
  execute_command [nmcli_bin self; "con"; "del"; conn_name self] None.

Definition modify_connection : M Resp :=
  status <- connection_update "modify" ;;
  self <- get_self ;;
  if Z.eqb (fst (fst status)) 0
     && match edit_commands self with [] => false | _ => true end
  then edit_connection else ret status.

(* ------------------------------------------------------------------ *)
(** ** The observed connection: [show_connection] *)
(* ------------------------------------------------------------------ *)

(** The aliases of [bond.options]: each [option=value] is stored under
    the name of the option. *)
Definition add_bond_alias (conn_info : dict pyval) (opt : string) : dict pyval :=
  match Py.split1 "=" opt with
  | (alias_key, Some alias_value) => dict_set alias_key (VStr alias_value) conn_info
  | (_, None) => conn_info
  end.

(** The body of the loop of [show_connection] over the lines of the
    output. *)
Definition parse_line (conn_info : dict pyval) (line : string) : dict pyval :=
  let pair := Py.split1 ":" line in
  let key := Py.strip (fst pair) in
  let key_type := settings_type key in
  match snd pair with
  | Some rest =>
      if negb (String.eqb key "") then
        let raw_value := Py.lstrip rest in
        if String.eqb raw_value "--" then
          if is_TList key_type then dict_set key (VList []) conn_info
          else dict_set key VNone conn_info
        else if String.eqb key "bond.options" then
          fold_left add_bond_alias (Py.split "," raw_value) conn_info
        else if str_in key ["ipv4.routes"; "ipv6.routes"] then
          dict_set key (VList (map Py.strip (Py.split ";" raw_value))) conn_info
        else if is_TList key_type then
          dict_set key (VList (map Py.strip (Py.split "," raw_value))) conn_info
        else
          let value :=
            match Re.match_enum_value raw_value with
            | Some g => g
            | None => raw_value
            end in
          dict_set key (VStr value) conn_info
      else conn_info
  | None => conn_info
  end.

Definition parse_show_output (out : string) : dict pyval :=
  fold_left parse_line (Py.splitlines out) [].

Definition show_connection : M (dict pyval) :=
  self <- get_self ;;
  '(rc, out, err) <-
    execute_command [nmcli_bin self; "--show-secrets"; "con"; "show"; conn_name self] None ;;
  if negb (Z.eqb rc 0) then raise (NmcliModuleError err)
  else ret (parse_show_output out).

(* ------------------------------------------------------------------ *)
(** ** Supported properties of the wifi settings *)
(* ------------------------------------------------------------------ *)

Definition get_supported_properties (setting : string) : M (list string) :=
  self <- get_self ;;
  let commands0 :=
    if String.eqb setting "802-11-wireless-security"
    then [("set " ++ setting ++ "." ++ "psk" ++ " " ++ "FAKEVALUE")%string]
    else [] in
  let commands := (commands0 ++ [("print " ++ setting)%string; "quit"; "yes"])%list in
  '(rc, out, err) <-
    execute_edit_commands commands ["type"; to_text (of_str (type self))] ;;
  if negb (Z.eqb rc 0) then raise (NmcliModuleError err)
  else
    let prefix := (setting ++ ".")%string in
    ret (flat_map
           (fun line =>
              if Py.startswith prefix line
              then [Py.remove_all prefix (Py.strip (fst (Py.split1 ":" line)))]
              else [])
           (Py.splitlines out)).

Definition dquote : string := String "034" "".

Definition check_for_unsupported_properties (setting : string) : M (list string) :=
  let setting_key :=
    if String.eqb setting "802-11-wireless" then "wifi"
    else if String.eqb setting "802-11-wireless-security" then "wifi_sec"
    else setting in
  supported_properties <- get_supported_properties setting ;;
  self <- get_self ;;
  (* [getattr(self, setting_key)]: the method is called for the two wifi
     settings only *)
  let attr := if String.eqb setting_key "wifi" then wifi self else wifi_sec self in
  let unsupported_properties :=
    filter (fun property => negb (str_in property supported_properties))
           (dict_keys (items_of attr)) in
  match unsupported_properties with
  | [] => ret unsupported_properties
  | _ =>
      let msg_options :=
        map (fun property => (setting_key ++ "." ++ property)%string)
            unsupported_properties in
      let msg :=
        ("Invalid or unsupported option(s): " ++ dquote
         ++ Py.join (dquote ++ ", " ++ dquote) msg_options ++ dquote)%string in
      if p_ignore_unsupported_suboptions (P self)
      then warn [msg] ;;; ret unsupported_properties
      else fail_json msg None None
  end.

(* ------------------------------------------------------------------ *)
(** ** The change detector: [_compare_conn_params] *)
(* ------------------------------------------------------------------ *)

(** What the loop of [_compare_conn_params] carries from one option to the
    next; [cmp_mtu] is [self.mtu], which the loop may assign. *)
Record Cmp : Type := {
  cmp_mtu : option Z;
  cmp_changed : bool;
  cmp_before : dict pyval;
  cmp_after : dict pyval
}.

(** [value in (0, [])]: equality with [0] holds for [False] too. *)
Definition in_zero_or_empty (value : pyval) : bool :=
  match value with
  | VInt z => Z.eqb z 0
  | VBool b => negb b
  | VList [] => true
  | _ => false
  end.

(** [value not in (0, []) and not value] *)
Definition is_empty_value (value : pyval) : bool :=
  negb (in_zero_or_empty value) && negb (truthy value).

Definition is_none (v : pyval) : bool :=
  match v with VNone => true | _ => false end.

Definition ORDERED_LISTS : list string :=
  ["ipv4.addresses"; "ipv6.addresses"; "ipv4.dns"; "ipv6.dns";
   "ipv4.dns-search"; "ipv6.dns-search"].

(** The rewriting of the observed value (and of the desired one) of a key
    the observed connection has: the observed value, the desired value and
    [self.mtu] afterwards. *)
Definition normalize_param (self : Nmcli) (mtu : option Z) (key : string)
    (current_value value : pyval) : res (pyval * pyval * option Z) :=
  res_bind
    (if String.eqb key "802-11-wireless.wake-on-wlan" && negb (is_none current_value)
     then match current_value with
          | VStr s =>
              match Re.match_hex s with
              | Some h => Ok (VStr (Py.str_of_Z (Re.int16 h)))
              | None => Ok current_value
              end
          | _ => Exc (PyError "TypeError")
          end
     else Ok current_value) (fun cv1 =>
  res_bind
    (if str_in key ["ipv4.routes"; "ipv6.routes"] && negb (is_none cv1)
     then res_bind (get_route_params cv1) (fun l => Ok (VList l))
     else Ok cv1) (fun cv2 =>
  res_bind
    (if String.eqb key (mac_setting self) then
       (* MAC addresses are case insensitive, nmcli always reports them in
          uppercase *)
       match value with
       | VStr v =>
           if truthy cv2 then
             match cv2 with
             | VStr c => Ok (VStr (Py.upper c), VStr (Py.upper v))
             | _ => Exc (PyError "AttributeError")
             end
           else Ok (cv2, VStr (Py.upper v))
       | _ => Exc (PyError "AttributeError")
       end
     else Ok (cv2, value)) (fun cvv =>
  let '(cv3, value3) := cvv in
  res_bind
    (if String.eqb key "gsm.apn" && truthy cv3 then
       match cv3 with
       | VStr c => Ok (VStr (Py.strip_char "034" c))
       | _ => Exc (PyError "AttributeError")
       end
     else Ok cv3) (fun cv4 =>
  let mtu' :=
    if String.eqb key (mtu_setting self)
       && match mtu with None => true | _ => false end
    then Some 0%Z else mtu in
  if String.eqb key "vpn.data" then
    res_bind
      (if truthy cv4 then
         match cv4 with
         | VStr c =>
             Ok (VList (sorted (map (fun part => Re.sub_equals (Py.strip part))
                                    (Py.split "," c))))
         | _ => Exc (PyError "AttributeError")
         end
       else Ok cv4) (fun cv5 =>
    match value3 with
    | VStr v => Ok (cv5, VList (sorted (map Py.strip (Py.split "," v))), mtu')
    | _ => Exc (PyError "AttributeError")
    end)
  else Ok (cv4, value3, mtu'))))).

(** The comparison proper: whether the pair counts as a change, and the
    desired value as the diff shows it. *)
Definition compare_values (self : Nmcli) (mtu : option Z) (key : string)
    (current_value value : pyval) : bool * pyval :=
  match current_value, value with
  | VList c, VList v =>
      (* compare values between two lists *)
      if str_in key ORDERED_LISTS
      then (negb (list_eqb c v), value)
      else (negb (list_eqb (sorted c) (sorted v)), value)
  | _, _ =>
      if String.eqb key (mtu_setting self) && type_is self "dummy"
         && is_none current_value && pyval_eqb value (VStr "auto")
         && match mtu with None => true | _ => false end
      then (false, VNone)
      else
        let value' := VStr (to_text value) in
        (negb (pyval_eqb current_value value'), value')
  end.

(** The body of the loop over [options.items()]. *)
Definition compare_param (self : Nmcli) (conn_info : dict pyval) (acc : Cmp)
    (kv : string * pyval) : res Cmp :=
  let '(key, value) := kv in
  if is_empty_value value then Ok acc
  else
    res_bind
      (match dict_get key conn_info with
       | Some current_value =>
           normalize_param self (cmp_mtu acc) key current_value value
       | None =>
           (* parameter does not exist *)
           Ok (VNone, value, cmp_mtu acc)
       end) (fun n =>
    let '(current_value, value1, mtu) := n in
    let '(differs, value2) := compare_values self mtu key current_value value1 in
    Ok {| cmp_mtu := mtu;
          cmp_changed := cmp_changed acc || differs;
          cmp_before := dict_set key current_value (cmp_before acc);
          cmp_after := dict_set key value2 (cmp_after acc) |}).

Fixpoint compare_loop (self : Nmcli) (conn_info : dict pyval) (acc : Cmp)
    (options : dict pyval) : res Cmp :=
  match options with
  | [] => Ok acc
  | kv :: rest =>
      res_bind (compare_param self conn_info acc kv)
               (fun acc' => compare_loop self conn_info acc' rest)
  end.

Definition _compare_conn_params (conn_info options : dict pyval)
  : M (bool * Diff) :=
  self <- get_self ;;
  r <- lift (compare_loop self conn_info
               {| cmp_mtu := mtu self; cmp_changed := false;
                  cmp_before := []; cmp_after := [] |} options) ;;
  modify_self (fun s => set_mtu s (cmp_mtu r)) ;;;
  ret (cmp_changed r, {| before := cmp_before r; after := cmp_after r |}).

Definition is_connection_changed : M (bool * Diff) :=
  self <- get_self ;;
  let options0 := interface_name_options self (p_ifname (P self)) in
  (if negb (truthy (of_str (type self))) then
     conn_info <- show_connection ;;
     match dict_get "connection.type" conn_info with
     | Some (VStr current_con_type) =>
         if truthy (VStr current_con_type) then
           modify_self (fun s =>
             set_type s (Some (if String.eqb current_con_type "802-11-wireless"
                               then "wifi" else current_con_type)))
         else ret tt
     | Some VNone | None => ret tt
     (* [show_connection] stores text or [None] under this key *)
     | Some _ => raise (PyError "TypeError")
     end
   else ret tt) ;;;
  self <- get_self ;;
  let '(w, r) := connection_options self true in
  warn w ;;;
  more <- lift r ;;
  let options := dict_update options0 more in
  conn_info <- show_connection ;;
  _compare_conn_params conn_info options.

(* ------------------------------------------------------------------ *)
(** ** Construction and [main] *)
(* ------------------------------------------------------------------ *)

Definition method_of (method : option string) (t : option string)
    (ip : option (list string)) : option string :=
  if truthy_str method then method
  else if match t with
          | Some s => str_in s ["dummy"; "macvlan"; "wireguard"]
          | None => false
          end && negb (truthy (of_list ip))
  then Some "disabled"
  else if truthy (of_list ip) then Some "manual"
  else None.

(** [extra_options_validation] *)
Definition extra_options_validation (p : Params) : res unit :=
  if negb match p_type p with
          | Some s => str_in s ["bridge-slave"; "team-slave"; "bond-slave"]
          | None => false
          end
  then
    match p_master p, p_slave_type p with
    | None, Some _ =>
        Exc (FailJson "'master' option is required when 'slave_type' is specified."
                      None None)
    | _, _ => Ok tt
    end
  else Ok tt.

(** [Nmcli.__init__] *)
Definition init (m : AnsibleModule) : res Nmcli :=
  let p := params m in
  res_bind (extra_options_validation p) (fun _ =>
  Ok {| module := m;
        type := p_type p;
        mtu := p_mtu p;
        wifi := p_wifi p;
        wifi_sec := p_wifi_sec p;
        ipv4_method := method_of (p_method4 p) (p_type p) (p_ip4 p);
        ipv6_method := method_of (p_method6 p) (p_type p) (p_ip6 p);
        edit_commands := [] |}).

(** The checks [main] makes before the state is acted on.  [conn_name] is
    required by the argument spec, so the first check of the source, on a
    missing name, cannot fire. *)
Definition check_for_issues : M unit :=
  self <- get_self ;;
  let p := P self in
  (* team checks *)
  (if type_is self "team" then
     (if truthy_str (p_runner_hwaddr_policy p)
         && negb (String.eqb (p_runner p) "activebackup")
      then fail_json "Runner-hwaddr-policy is only allowed for runner activebackup"
                     None None
      else ret tt) ;;;
     (if match p_runner_fast_rate p with Some _ => true | None => false end
         && negb (String.eqb (p_runner p) "lacp")
      then fail_json "runner-fast-rate is only allowed for runner lacp" None None
      else ret tt)
   else ret tt) ;;;
  (* team-slave checks *)
  (if type_is self "team-slave" || opt_str_is (p_slave_type p) "team" then
     (match p_master p with
      | None =>
          fail_json ("Please specify a name for the master when type is "
                     ++ to_text (of_str (type self)))%string None None
      | Some _ => ret tt
      end) ;;;
     (match p_ifname p with
      | None =>
          fail_json ("Please specify an interface name for the connection when type is "
                     ++ to_text (of_str (type self)))%string None None
      | Some _ => ret tt
      end)
   else ret tt) ;;;
  if type_is self "wifi" then
    u_wifi <-
      (if truthy_dict (wifi self) then
         (if dict_mem "ssid" (items_of (wifi self)) then
            warn ["Ignoring option 'wifi.ssid', it must be specified with option 'ssid'"] ;;;
            modify_self (fun s => set_wifi s (Some (dict_del "ssid" (items_of (wifi s)))))
          else ret tt) ;;;
         l <- check_for_unsupported_properties "802-11-wireless" ;;
         ret (Some l)
       else ret None) ;;
    self <- get_self ;;
    u_wifi_sec <-
      (if truthy_dict (wifi_sec self) then
         l <- check_for_unsupported_properties "802-11-wireless-security" ;;
         ret (Some l)
       else ret None) ;;
    if p_ignore_unsupported_suboptions p then
      (match u_wifi with
       | Some properties =>
           modify_self (fun s =>
             set_wifi s (Some (fold_left (fun d property => dict_del property d)
                                         properties (items_of (wifi s)))))
       | None => ret tt
       end) ;;;
      (match u_wifi_sec with
       | Some properties =>
           modify_self (fun s =>
             set_wifi_sec s (Some (fold_left (fun d property => dict_del property d)
                                             properties (items_of (wifi_sec s)))))
       | None => ret tt
       end)
    else ret tt
  else ret tt.

(** The local variables [rc], [out], [err] and [result] of [main]. *)
Record Locals : Type := {
  rc : option Z;
  out : string;
  err : string;
  result : Result
}.

Definition assign (l : Locals) (r : Resp) : Locals :=
  {| rc := Some (fst (fst r)); out := snd (fst r); err := snd r; result := result l |}.

Definition set_result (l : Locals) (r : Result) : Locals :=
  {| rc := rc l; out := out l; err := err l; result := r |}.

Definition with_diff (r : Result) (d : Diff) : Result :=
  {| r_conn_name := r_conn_name r; r_state := r_state r; r_diff := Some d;
     r_Exists := r_Exists r; r_Connection := r_Connection r;
     r_stdout := r_stdout r; r_stderr := r_stderr r |}.

Definition with_Exists (r : Result) (s : string) : Result :=
  {| r_conn_name := r_conn_name r; r_state := r_state r; r_diff := r_diff r;
     r_Exists := Some s; r_Connection := r_Connection r;
     r_stdout := r_stdout r; r_stderr := r_stderr r |}.

Definition with_Connection (r : Result) (s : string) : Result :=
  {| r_conn_name := r_conn_name r; r_state := r_state r; r_diff := r_diff r;
     r_Exists := r_Exists r; r_Connection := Some s;
     r_stdout := r_stdout r; r_stderr := r_stderr r |}.

Definition with_output (r : Result) (out err : string) : Result :=
  {| r_conn_name := r_conn_name r; r_state := r_state r; r_diff := r_diff r;
     r_Exists := r_Exists r; r_Connection := r_Connection r;
     r_stdout := if truthy (VStr out) then Some out else r_stdout r;
     r_stderr := if truthy (VStr err) then Some err else r_stderr r |}.

Definition rc_failed (rc : option Z) : bool :=
  match rc with Some z => negb (Z.eqb z 0) | None => false end.

Definition no_connection_named (name : string) : string :=
  ("No Connection named " ++ name ++ " exists")%string.

(** [state == 'absent'] *)
Definition state_absent (l : Locals) : M Locals :=
  self <- get_self ;;
  exists_ <- connection_exists ;;
  if exists_ then
    (if check_mode (module self) then exit_json true None else ret tt) ;;;
    r <- down_connection ;;
    let l := assign l r in
    r <- remove_connection ;;
    let l := assign l r in
    if rc_failed (rc l)
    then fail_json (err l) (Some (no_connection_named (conn_name self))) (rc l)
    else ret l
  else ret l.

(** [state == 'present'] *)
Definition state_present (l : Locals) : M Locals :=
  self <- get_self ;;
  exists_ <- connection_exists ;;
  l <-
    (if exists_ then
       '(changed, diff) <- is_connection_changed ;;
       let l := if _diff (module self) then set_result l (with_diff (result l) diff) else l in
       if changed then
         (* modify connection (note: this function is check mode aware) *)
         let l := set_result l (with_Exists (result l)
                    "Connections do exist so we are modifying them") in
         (if check_mode (module self) then exit_json true (Some (result l)) else ret tt) ;;;
         r <- modify_connection ;;
         let l := assign l r in
         if p_conn_reload (P self) then
           r <- reload_connection ;;
           ret (assign l r)
         else ret l
       else
         let l := set_result l (with_Exists (result l)
                    "Connections already exist and no changes made") in
         (if check_mode (module self) then exit_json false (Some (result l)) else ret tt) ;;;
         ret l
     else ret l) ;;
  exists_ <- connection_exists ;;
  l <-
    (if negb exists_ then
       self' <- get_self ;;
       let l := set_result l (with_Connection (result l)
                  ("Connection " ++ conn_name self' ++ " of Type "
                   ++ to_text (of_str (type self')) ++ " is being added")%string) in
       (if check_mode (module self) then exit_json true (Some (result l)) else ret tt) ;;;
       r <- create_connection ;;
       ret (assign l r)
     else ret l) ;;
  if rc_failed (rc l)
  then fail_json (err l) (Some (conn_name self)) (rc l)
  else ret l.

(** [state == 'up'] and [state == 'down'] *)
Definition state_up_down (action : M Resp) (l : Locals) : M Locals :=
  self <- get_self ;;
  exists_ <- connection_exists ;;
  if exists_ then
    (if check_mode (module self) then exit_json true None else ret tt) ;;;
    l <-
      (if p_conn_reload (P self) then
         r <- reload_connection ;;
         ret (assign l r)
       else ret l) ;;
    r <- action ;;
    let l := assign l r in
    if rc_failed (rc l)
    then fail_json (err l) (Some (no_connection_named (conn_name self))) (rc l)
    else ret l
  else ret l.

(** The [try] statement of [main]: the state is acted on, and an
    [NmcliModuleError] becomes a failure of the module. *)
Definition reconcile (l : Locals) : M Locals :=
  self <- get_self ;;
  let state := p_state (P self) in
  try_except
    (if String.eqb state "absent" then state_absent l
     else if String.eqb state "present" then state_present l
     else if String.eqb state "up" then state_up_down up_connection l
     else if String.eqb state "down" then state_up_down down_connection l
     else ret l)
    (fun e => fail_json e (Some (conn_name self)) None).

(** The end of [main]: the result is completed and returned. *)
Definition report {A : Type} (l : Locals) : M A :=
  exit_json (match rc l with None => false | Some _ => true end)
            (Some (with_output (result l) (out l) (err l))).

(** The reconciliation driver: the state machine and its report. *)
Definition drive {A : Type} (l : Locals) : M A :=
  l' <- reconcile l ;;
  report l'.

Definition initial_locals (self : Nmcli) : Locals :=
  {| rc := None; out := ""; err := "";
     result := {| r_conn_name := conn_name self; r_state := p_state (P self);
                  r_diff := None; r_Exists := None; r_Connection := None;
                  r_stdout := None; r_stderr := None |} |}.

Definition main_body : M Empty_set :=
  self <- get_self ;;
  check_for_issues ;;;
  drive (initial_locals self).

(** How a run ends, the calls of the external tool it made, and the
    warnings it gave. *)
Record Outcome : Type := {
  finish : exn;
  calls : History;
  warned : list string
}.

Definition outcome_of (r : res Empty_set * State) : Outcome :=
  {| finish := match fst r with
               | Exc e => e
               | Ok x => match x with end
               end;
     calls := history (snd r);
     warned := warnings (snd r) |}.

Definition main (m : AnsibleModule) : Outcome :=
  match init m with
  | Exc e => {| finish := e; calls := []; warned := [] |}
  | Ok nmcli =>
      outcome_of (main_body {| self := nmcli; history := []; warnings := [] |})
  end.

(* ------------------------------------------------------------------ *)
(** ** Vocabulary of the properties *)
(* ------------------------------------------------------------------ *)

(** The commands of the external tool the module knows, told apart by
    their argument vector (the first argument is the path of the tool)
    and, for an edit session, by the commands it is fed on its standard
    input. *)
Inductive cmd_kind : Type :=
| Listing      (* --fields name --terse con show *)
| Show         (* --show-secrets con show NAME *)
| Probe        (* con edit type TYPE, fed commands that save nothing *)
| Create       (* con add ... *)
| Modify       (* con modify ... *)
| Edit         (* con edit NAME: set secrets, save, quit *)
| Up           (* con up NAME *)
| Down         (* con down NAME *)
| Delete       (* con del NAME *)
| Reload       (* con reload *)
| Other.

(** A command of the editor that changes nothing on the host: it sets a
    property of the connection being edited in memory, prints, quits, or
    confirms quitting. *)
Definition harmless (line : string) : bool :=
  Py.startswith "set " line || Py.startswith "print " line
  || String.eqb line "quit" || String.eqb line "yes".

(** An edit session that saves nothing: it is fed its commands on the
    standard input, one a line, and each of them is harmless.  A session
    without input, or fed any other command ([save], [activate], ...),
    does not count as one. *)
Definition unsaved (d : option string) : bool :=
  match d with
  | Some text => forallb harmless (Py.split "010" text)
  | None => false
  end.

Definition kind_of (c : Cmd) : cmd_kind :=
  match tl (argv c) with
  | a :: b :: rest =>
      if list_eqb (a :: b :: rest) ["--fields"; "name"; "--terse"; "con"; "show"]
      then Listing
      else if String.eqb a "--show-secrets" then
        match b :: rest with
        | [c1; c2; _] => if String.eqb c1 "con" && String.eqb c2 "show" then Show else Other
        | _ => Other
        end
      else if String.eqb a "con" then
        if String.eqb b "add" then Create
        else if String.eqb b "modify" then Modify
        else if String.eqb b "edit" then
          match rest with
          | [_] => Edit
          | [t; _] =>
              if String.eqb t "type" && unsaved (data c) then Probe else Other
          | _ => Other
          end
        else if String.eqb b "up" then Up
        else if String.eqb b "down" then Down
        else if String.eqb b "del" then Delete
        else if String.eqb b "reload" then Reload
        else Other
      else Other
  | _ => Other
  end.

(** The commands that only read: everything else changes the connections
    of the host. *)
Definition is_query (k : cmd_kind) : bool :=
  match k with
  | Listing | Show | Probe => true
  | _ => false
  end.

Definition mutating (c : Cmd) : bool := negb (is_query (kind_of c)).

Definition kinds (h : History) : list cmd_kind := map (fun cr => kind_of (fst cr)) h.

(** The listing command and what its answer says about a name. *)
Definition listing_cmd (self : Nmcli) : Cmd :=
  {| argv := [nmcli_bin self; "--fields"; "name"; "--terse"; "con"; "show"];
     data := None |}.

Definition lists_name (name : string) (r : Resp) : bool :=
  Z.eqb (fst (fst r)) 0 && str_in name (Py.splitlines (snd (fst r))).

Definition lists_no_such_name (name : string) (r : Resp) : bool :=
  Z.eqb (fst (fst r)) 0 && negb (str_in name (Py.splitlines (snd (fst r)))).

(** Two characters that are the same letter in either case, or the same
    character. *)
Definition same_letter (c d : ascii) : Prop := Py.lower_char c = Py.lower_char d.

(** Two texts that differ in letter case only. *)
Definition differ_in_case_only (a b : string) : Prop :=
  Forall2 same_letter (Py.chars a) (Py.chars b).

(** The state a run starts from once the object is built. *)
Definition start (nmcli : Nmcli) : State :=
  {| self := nmcli; history := []; warnings := [] |}.

Definition empty_cmp (self : Nmcli) : Cmp :=
  {| cmp_mtu := mtu self; cmp_changed := false; cmp_before := []; cmp_after := [] |}.

(* ------------------------------------------------------------------ *)
(** ** Sample tasks and sample hosts *)
(* ------------------------------------------------------------------ *)

(** The parameters of a task that gives [conn_name], [state] and some of
    [type], [ifname], [mtu] and [conn_reload]: every other parameter holds
    the default of the argument spec. *)
Definition task (name state : string) (type ifname : option string)
    (mtu : option Z) (conn_reload : bool) : Params := {|
  p_state := state;
  p_ignore_unsupported_suboptions := false;
  p_autoconnect := true;
  p_autoconnect_priority := None;
  p_autoconnect_retries := None;
  p_conn_name := name;
  p_conn_reload := conn_reload;
  p_slave_type := None;
  p_master := None;
  p_ifname := ifname;
  p_type := type;
  p_ip4 := None;
  p_gw4 := None;
  p_gw4_ignore_auto := false;
  p_routes4 := None;
  p_routes4_extended := None;
  p_route_metric4 := None;
  p_routing_rules4 := None;
  p_never_default4 := false;
  p_dns4 := None;
  p_dns4_search := None;
  p_dns4_options := None;
  p_dns4_ignore_auto := false;
  p_method4 := None;
  p_may_fail4 := true;
  p_ip6 := None;
  p_gw6 := None;
  p_gw6_ignore_auto := false;
  p_routes6 := None;
  p_routes6_extended := None;
  p_route_metric6 := None;
  p_dns6 := None;
  p_dns6_search := None;
  p_dns6_options := None;
  p_dns6_ignore_auto := false;
  p_method6 := None;
  p_ip_privacy6 := None;
  p_addr_gen_mode6 := None;
  p_mtu := mtu;
  p_stp := true;
  p_priority := 128%Z;
  p_mode := "balance-rr";
  p_miimon := None;
  p_primary := None;
  p_downdelay := None;
  p_updelay := None;
  p_xmit_hash_policy := None;
  p_fail_over_mac := None;
  p_arp_interval := None;
  p_arp_ip_target := None;
  p_slavepriority := 32%Z;
  p_forwarddelay := 15%Z;
  p_hellotime := 2%Z;
  p_maxage := 20%Z;
  p_ageingtime := 300%Z;
  p_hairpin := false;
  p_path_cost := 100%Z;
  p_mac := None;
  p_runner := "roundrobin";
  p_runner_hwaddr_policy := None;
  p_runner_fast_rate := None;
  p_vlanid := None;
  p_vlandev := None;
  p_flags := None;
  p_ingress := None;
  p_egress := None;
  p_vxlan_id := None;
  p_vxlan_local := None;
  p_vxlan_remote := None;
  p_ip_tunnel_dev := None;
  p_ip_tunnel_local := None;
  p_ip_tunnel_remote := None;
  p_ip_tunnel_input_key := None;
  p_ip_tunnel_output_key := None;
  p_dhcp_client_id := None;
  p_zone := None;
  p_ssid := None;
  p_wifi := None;
  p_wifi_sec := None;
  p_gsm := None;
  p_macvlan := None;
  p_wireguard := None;
  p_vpn := None;
  p_transport_mode := None;
  p_infiniband_mac := None;
  p_sriov := None;
  p_table := None
|}.

Definition default_params (name state : string) : Params :=
  task name state None None None false.

(** A host whose listing shows [listing] and whose other commands succeed
    silently, but for the kinds [fails] gives an exit code and an error
    text for. *)
Definition host (listing : string) (fails : cmd_kind -> option (Z * string))
  : History -> Cmd -> Resp :=
  fun _ c =>
    match kind_of c with
    | Listing => (0%Z, listing, "")
    | k =>
        match fails k with
        | Some (rc, err) => (rc, "", err)
        | None => (0%Z, "", "")
        end
    end.

Definition never_fails : cmd_kind -> option (Z * string) := fun _ => None.

Definition ansible_module (p : Params) (check : bool)
    (run : History -> Cmd -> Resp) : AnsibleModule :=
  {| params := p; check_mode := check; _diff := false;
     nmcli_path := "/usr/bin/nmcli"; run_command := run |}.

(** The object [Nmcli(module)] of a task whose options pass the
    validation of the constructor. *)
Definition nmcli_of (m : AnsibleModule) : Nmcli :=
  match init m with
  | Ok nmcli => nmcli
  | Exc _ =>
      {| module := m; type := None; mtu := None; wifi := None; wifi_sec := None;
         ipv4_method := None; ipv6_method := None; edit_commands := [] |}
  end.

(** The observed list as the change detector compares it: the routes are
    first rewritten by [get_route_params], any other list is taken as it
    is. *)
Definition observed_as_compared (key : string) (observed : list string)
  : res (list string) :=
  if str_in key ["ipv4.routes"; "ipv6.routes"]
  then get_route_params (VList observed)
  else Ok observed.

(** The order of strings [sorted] sorts by. *)
Definition str_le (a b : string) : Prop := String.leb a b = true.

(** The object of a task that names the connection [eth0] and nothing
    else, on a host that has it. *)
Definition sample_nmcli : Nmcli :=
  nmcli_of (ansible_module (default_params "eth0" "present") false
                           (host "eth0" never_fails)).

(** The arguments the loop of [connection_update] appends for one option. *)
Definition option_args (kv : string * pyval) : list string :=
  let '(key, value) := kv in
  match value with
  | VNone => []
  | _ =>
      if str_in key SECRET_OPTIONS then []
      else if String.eqb key "xmit_hash_policy"
      then ["+bond.options"; ("xmit_hash_policy=" ++ to_text value)%string]
      else if String.eqb key "fail_over_mac"
      then ["+bond.options"; ("fail_over_mac=" ++ to_text value)%string]
      else [key; to_text value]
  end.

(** The edit commands the loop of [connection_update] adds for one option. *)
Definition option_edits (kv : string * pyval) : list string :=
  let '(key, value) := kv in
  match value with
  | VNone => []
  | _ =>
      if str_in key SECRET_OPTIONS
      then [("set " ++ key ++ " " ++ to_text value)%string]
      else []
  end.

(** The head of the argument vector of [connection_update], up to the name
    of the connection. *)
Definition command_head (self : Nmcli) (nmcli_command : string) : list string :=
  if String.eqb nmcli_command "create" then
    [nmcli_bin self; "con"; "add"; "type";
     (if tunnel_conn_type self then "ip-tunnel" else to_text (of_str (type self)));
     "con-name"; conn_name self]
  else [nmcli_bin self; "con"; "modify"; conn_name self].

(** The state [connection_update] runs the external tool in, and the
    command it runs, when [connection_options] gave the warnings [w] and
    the table [more]. *)
Definition update_cmd (self : Nmcli) (nmcli_command : string) (more : dict pyval)
  : list string :=
  (command_head self nmcli_command
   ++ flat_map option_args (update_options self nmcli_command more))%list.

Definition update_edits (self : Nmcli) (nmcli_command : string) (more : dict pyval)
  : list string :=
  (edit_commands self
   ++ flat_map option_edits (update_options self nmcli_command more))%list.

Definition after_options (st : State) (nmcli_command : string) (w : list string)
    (more : dict pyval) : State :=
  {| self := set_edit_commands (self st) (update_edits (self st) nmcli_command more);
     history := history st;
     warnings := (warnings st ++ w)%list |}.

(** The key of the interface name in the option table. *)
Definition interface_name_key : string := "connection.interface-name".

(** The state at the start of a run of the task [p] on a host that answers
    as [run]. *)
Definition start_of (p : Params) (check : bool) (run : History -> Cmd -> Resp)
  : State :=
  start (nmcli_of (ansible_module p check run)).

Definition argvs (h : History) : list (list string) :=
  map (fun cr => argv (fst cr)) h.

(** The answer the external tool gives to the command [c] in the state
    [st], and the state after the call. *)
Definition answer (st : State) (c : Cmd) : Resp :=
  run_command (module (self st)) (history st) c.

Definition logged (st : State) (c : Cmd) : State :=
  {| self := self st;
     history := (history st ++ [(c, answer st c)])%list;
     warnings := warnings st |}.

Definition plain (args : list string) : Cmd := {| argv := args; data := None |}.

Definition down_cmd (self : Nmcli) : Cmd := plain [nmcli_bin self; "con"; "down"; conn_name self].
Definition up_cmd (self : Nmcli) : Cmd := plain [nmcli_bin self; "con"; "up"; conn_name self].
Definition reload_cmd (self : Nmcli) : Cmd := plain [nmcli_bin self; "con"; "reload"].
Definition delete_cmd (self : Nmcli) : Cmd := plain [nmcli_bin self; "con"; "del"; conn_name self].
Definition edit_cmd (self : Nmcli) : Cmd :=
  {| argv := [nmcli_bin self; "con"; "edit"; conn_name self];
     data := Some (Py.join newline (edit_commands self ++ ["save"; "quit"])%list) |}.

Definition rc_of (r : Resp) : Z := fst (fst r).
Definition err_of (r : Resp) : string := snd r.

Definition nonempty {A : Type} (l : list A) : bool :=
  match l with [] => false | _ => true end.

(** The state after the command of [connection_update] has run, and
    whether the edit session that sets the secrets follows it. *)
Definition updated (st : State) (nmcli_command : string) (w : list string)
    (more : dict pyval) : State :=
  logged (after_options st nmcli_command w more)
         (plain (update_cmd (self st) nmcli_command more)).

Definition update_answer (st : State) (nmcli_command : string) (w : list string)
    (more : dict pyval) : Resp :=
  answer (after_options st nmcli_command w more)
         (plain (update_cmd (self st) nmcli_command more)).

Definition secrets_follow (st : State) (nmcli_command : string) (w : list string)
    (more : dict pyval) : bool :=
  Z.eqb (rc_of (update_answer st nmcli_command w more)) 0
  && nonempty (update_edits (self st) nmcli_command more).

(** The state after [connection_update] and the edit session, if any. *)
Definition secured (st : State) (nmcli_command : string) (w : list string)
    (more : dict pyval) : State :=
  if secrets_follow st nmcli_command w more
  then logged (updated st nmcli_command w more)
              (edit_cmd (self (updated st nmcli_command w more)))
  else updated st nmcli_command w more.

Definition secured_answer (st : State) (nmcli_command : string) (w : list string)
    (more : dict pyval) : Resp :=
  if secrets_follow st nmcli_command w more
  then answer (updated st nmcli_command w more)
              (edit_cmd (self (updated st nmcli_command w more)))
  else update_answer st nmcli_command w more.

Definition CREATE_UP_TYPES : list string :=
  ["bond"; "dummy"; "ethernet"; "infiniband"; "wifi"].

(** A history made of read-only commands. *)
Definition only_queries (h : History) : Prop :=
  Forall (fun cr => mutating (fst cr) = false) h.

(** From [st] to [st'] the module object stayed the same and the external
    tool was only asked read-only commands. *)
Definition quietly (st st' : State) : Prop :=
  module (self st') = module (self st)
  /\ exists ext : History,
       history st' = (history st ++ ext)%list /\ only_queries ext.

Definition quiet_from {A : Type} (st : State) (m : M A) : Prop :=
  quietly st (snd (m st)).

Definition quiet {A : Type} (m : M A) : Prop :=
  forall st : State, quiet_from st m.

(** The answer that decides how a run ends, read off the calls made: each
    mutating command replaces it by its own answer, a read-only command
    that succeeds leaves it, and a read-only command that fails forgets it
    (the run then ends with the error of that command). *)
Definition step_verdict (v : option Resp) (cr : Cmd * Resp) : option Resp :=
  if mutating (fst cr) then Some (snd cr)
  else if Z.eqb (rc_of (snd cr)) 0 then v
  else None.

Definition verdict_from (v : option Resp) (ext : History) : option Resp :=
  fold_left step_verdict ext v.

(** A read-only call that succeeded. *)
Definition successful_query (cr : Cmd * Resp) : Prop :=
  mutating (fst cr) = false /\ rc_of (snd cr) = 0%Z.

(** From [st] to [st'] the module object stayed the same and the deciding
    answer went from [v] to [v']. *)
Definition tracked (v : option Resp) (st : State) (v' : option Resp) (st' : State)
  : Prop :=
  module (self st') = module (self st)
  /\ exists ext : History,
       history st' = (history st ++ ext)%list /\ v' = verdict_from v ext.

(** The outcome of the state machine agrees with the deciding answer: a
    failed one ends the run as a failure that carries its exit code and
    its error text. *)
Definition agrees (v : option Resp) (out : res Locals) : Prop :=
  match out with
  | Ok _ => forall r : Resp, v = Some r -> rc_of r = 0%Z
  | Exc e =>
      forall r : Resp, v = Some r -> rc_of r <> 0%Z ->
      exists name : string, e = FailJson (err_of r) (Some name) (Some (rc_of r))
  end.

(** The local variables hold the deciding answer; when there is one, the
    option table could be built. *)
Definition coherent (v : option Resp) (l : Locals) (st : State) : Prop :=
  match v with
  | None => rc l = None
  | Some r =>
      rc l = Some (rc_of r) /\ err l = err_of r
      /\ exists (w : list string) (more : dict pyval),
           connection_options (self st) false = (w, Ok more)
  end.

(** The two halves of [state_present]: what is done when the first listing
    has been read, and what follows. *)
Definition present_head (self : Nmcli) (l : Locals) (exists_ : bool) : M Locals :=
  if exists_ then
    '(changed, diff) <- is_connection_changed ;;
    let l := if _diff (module self) then set_result l (with_diff (result l) diff) else l in
    if changed then
      let l := set_result l (with_Exists (result l)
                 "Connections do exist so we are modifying them") in
      (if check_mode (module self) then exit_json true (Some (result l)) else ret tt) ;;;
      r <- modify_connection ;;
      let l := assign l r in
      if p_conn_reload (P self) then
        r <- reload_connection ;;
        ret (assign l r)
      else ret l
    else
      let l := set_result l (with_Exists (result l)
                 "Connections already exist and no changes made") in
      (if check_mode (module self) then exit_json false (Some (result l)) else ret tt) ;;;
      ret l
  else ret l.

Definition present_tail (self : Nmcli) (l : Locals) : M Locals :=
  exists_ <- connection_exists ;;
  l <-
    (if negb exists_ then
       self' <- get_self ;;
       let l := set_result l (with_Connection (result l)
                  ("Connection " ++ conn_name self' ++ " of Type "
                   ++ to_text (of_str (type self')) ++ " is being added")%string) in
       (if check_mode (module self) then exit_json true (Some (result l)) else ret tt) ;;;
       r <- create_connection ;;
       ret (assign l r)
     else ret l) ;;
  if rc_failed (rc l)
  then fail_json (err l) (Some (conn_name self)) (rc l)
  else ret l.

(** A host on which bringing a connection down fails, as it does for a
    connection that is not active. *)
Definition down_fails : cmd_kind -> option (Z * string) :=
  fun k =>
    match k with
    | Down => Some (10%Z, "Error: 'eth0' is not an active connection.")
    | _ => None
    end.

(** A host on which deleting a connection fails. *)
Definition delete_fails : cmd_kind -> option (Z * string) :=
  fun k =>
    match k with
    | Delete => Some (6%Z, "Error: Connection deletion failed")
    | _ => None
    end.

(** A host whose listing shows [listing], whose show command prints
    [shown], and whose other commands succeed silently. *)
Definition host_showing (listing shown : string) : History -> Cmd -> Resp :=
  fun _ c =>
    match kind_of c with
    | Listing => (0%Z, listing, "")
    | Show => (0%Z, shown, "")
    | _ => (0%Z, "", "")
    end.

(** The three validations that need no call of the external tool: a slave
    type without a master, a team slave without master or interface name,
    and team runner options that do not fit the runner. *)
Definition slave_type_without_master (p : Params) : Prop :=
  p_master p = None /\ p_slave_type p <> None
  /\ match p_type p with
     | Some t => str_in t ["bridge-slave"; "team-slave"; "bond-slave"] = false
     | None => True
     end.

Definition team_slave_incomplete (p : Params) : Prop :=
  (p_type p = Some "team-slave" \/ p_slave_type p = Some "team")
  /\ (p_master p = None \/ p_ifname p = None).

Definition team_runner_mismatch (p : Params) : Prop :=
  p_type p = Some "team"
  /\ ((truthy_str (p_runner_hwaddr_policy p) = true /\ p_runner p <> "activebackup")
      \/ (p_runner_fast_rate p <> None /\ p_runner p <> "lacp")).

(** The three parts of the checks of [main], on the object they read. *)
Definition team_checks (self : Nmcli) : M unit :=
  let p := P self in
  if type_is self "team" then
    (if truthy_str (p_runner_hwaddr_policy p)
        && negb (String.eqb (p_runner p) "activebackup")
     then fail_json "Runner-hwaddr-policy is only allowed for runner activebackup"
                    None None
     else ret tt) ;;;
    (if match p_runner_fast_rate p with Some _ => true | None => false end
        && negb (String.eqb (p_runner p) "lacp")
     then fail_json "runner-fast-rate is only allowed for runner lacp" None None
     else ret tt)
  else ret tt.

Definition team_slave_checks (self : Nmcli) : M unit :=
  let p := P self in
  if type_is self "team-slave" || opt_str_is (p_slave_type p) "team" then
    (match p_master p with
     | None =>
         fail_json ("Please specify a name for the master when type is "
                    ++ to_text (of_str (type self)))%string None None
     | Some _ => ret tt
     end) ;;;
    (match p_ifname p with
     | None =>
         fail_json ("Please specify an interface name for the connection when type is "
                    ++ to_text (of_str (type self)))%string None None
     | Some _ => ret tt
     end)
  else ret tt.

(** How a check that calls nothing ends: it passes, or it fails the
    module. *)
Definition passes_or_fails (check : M unit) (st : State) : Prop :=
  check st = (Ok tt, st)
  \/ exists msg : string, check st = (Exc (FailJson msg None None), st).

(** The case in which the change detector takes the default MTU of a
    dummy connection for unchanged. *)
Definition mtu_default_on_dummy (self : Nmcli) (mtu : option Z) (key : string)
    (value : pyval) : bool :=
  String.eqb key (mtu_setting self) && type_is self "dummy"
  && pyval_eqb value (VStr "auto")
  && match mtu with None => true | _ => false end.

(** A host whose external tool cannot reach the network manager: every
    command fails. *)
Definition unreachable : History -> Cmd -> Resp :=
  fun _ _ => (8%Z, "", "Error: NetworkManager is not running.").

(** The command [state=up] or [state=down] runs on the connection. *)
Definition action_cmd (self : Nmcli) : Cmd :=
  if String.eqb (p_state (P self)) "up" then up_cmd self else down_cmd self.

(** An entry of the option table whose key is one of the secrets. *)
Definition is_secret (kv : string * pyval) : bool := str_in (fst kv) SECRET_OPTIONS.

Definition has_value (kv : string * pyval) : bool := negb (is_none (snd kv)).

(** The line of the edit session that sets an option. *)
Definition set_line (kv : string * pyval) : string :=
  ("set " ++ fst kv ++ " " ++ to_text (snd kv))%string.

(** A text made of characters of one class only, and not empty. *)
Definition run_of (f : ascii -> bool) (s : string) : Prop :=
  s <> "" /\ forallb f (Py.chars s) = true.

(** Calls that all run the program [b]; a step that keeps the path of the
    external tool and makes such calls only; a computation all of whose
    steps are of this kind when it starts with that path. *)
Definition by_tool (b : string) (h : History) : Prop :=
  Forall (fun cr => hd_error (argv (fst cr)) = Some b) h.

Definition tool_kept (b : string) (st st' : State) : Prop :=
  nmcli_bin (self st') = b
  /\ exists ext : History, history st' = (history st ++ ext)%list /\ by_tool b ext.

Definition tool_only {A : Type} (b : string) (m : M A) : Prop :=
  forall st : State, nmcli_bin (self st) = b -> tool_kept b st (snd (m st)).

(** The command that shows the connection. *)
Definition show_cmd (self : Nmcli) : Cmd :=
  plain [nmcli_bin self; "--show-secrets"; "con"; "show"; conn_name self].

Definition out_of (r : Resp) : string := snd (fst r).

(** A line of the output of the show command: the key before the first
    colon, the value after it, the names of the options a line of
    [bond.options] stores as aliases, and the keys the line stores a
    value under. *)
Definition line_key (line : string) : string :=
  Py.strip (fst (Py.split1 ":" line)).

Definition line_value (line : string) : option string :=
  match snd (Py.split1 ":" line) with
  | Some rest => Some (Py.lstrip rest)
  | None => None
  end.

Definition alias_name (opt : string) : list string :=
  match Py.split1 "=" opt with
  | (alias_key, Some _) => [alias_key]
  | (_, None) => []
  end.

Definition alias_names (line : string) : list string :=
  match line_value line with
  | Some raw_value =>
      if String.eqb (line_key line) "bond.options"
         && negb (String.eqb raw_value "--")
      then flat_map alias_name (Py.split "," raw_value)
      else []
  | None => []
  end.

Definition writes (line : string) : list string :=
  match line_value line with
  | Some raw_value =>
      if String.eqb (line_key line) "" then []
      else if String.eqb raw_value "--" then [line_key line]
      else if String.eqb (line_key line) "bond.options" then alias_names line
      else [line_key line]
  | None => []
  end.

(** A host that has a bond whose options name an option like a list-typed
    setting. *)
Definition odd_bond_shown : string :=
  ("ipv4.dns:                               --" ++ newline
   ++ "bond.options:                           mode=balance-rr,ipv4.dns=--")%string.

(** The task [p] with the wifi options [ssid], [wifi] and [wifi_sec]. *)
Definition with_wifi (p : Params) (ssid : option string)
    (wifi wifi_sec : option (dict pyval)) : Params := {|
  p_state := p_state p;
  p_ignore_unsupported_suboptions := p_ignore_unsupported_suboptions p;
  p_autoconnect := p_autoconnect p;
  p_autoconnect_priority := p_autoconnect_priority p;
  p_autoconnect_retries := p_autoconnect_retries p;
  p_conn_name := p_conn_name p;
  p_conn_reload := p_conn_reload p;
  p_slave_type := p_slave_type p;
  p_master := p_master p;
  p_ifname := p_ifname p;
  p_type := p_type p;
  p_ip4 := p_ip4 p;
  p_gw4 := p_gw4 p;
  p_gw4_ignore_auto := p_gw4_ignore_auto p;
  p_routes4 := p_routes4 p;
  p_routes4_extended := p_routes4_extended p;
  p_route_metric4 := p_route_metric4 p;
  p_routing_rules4 := p_routing_rules4 p;
  p_never_default4 := p_never_default4 p;
  p_dns4 := p_dns4 p;
  p_dns4_search := p_dns4_search p;
  p_dns4_options := p_dns4_options p;
  p_dns4_ignore_auto := p_dns4_ignore_auto p;
  p_method4 := p_method4 p;
  p_may_fail4 := p_may_fail4 p;
  p_ip6 := p_ip6 p;
  p_gw6 := p_gw6 p;
  p_gw6_ignore_auto := p_gw6_ignore_auto p;
  p_routes6 := p_routes6 p;
  p_routes6_extended := p_routes6_extended p;
  p_route_metric6 := p_route_metric6 p;
  p_dns6 := p_dns6 p;
  p_dns6_search := p_dns6_search p;
  p_dns6_options := p_dns6_options p;
  p_dns6_ignore_auto := p_dns6_ignore_auto p;
  p_method6 := p_method6 p;
  p_ip_privacy6 := p_ip_privacy6 p;
  p_addr_gen_mode6 := p_addr_gen_mode6 p;
  p_mtu := p_mtu p;
  p_stp := p_stp p;
  p_priority := p_priority p;
  p_mode := p_mode p;
  p_miimon := p_miimon p;
  p_primary := p_primary p;
  p_downdelay := p_downdelay p;
  p_updelay := p_updelay p;
  p_xmit_hash_policy := p_xmit_hash_policy p;
  p_fail_over_mac := p_fail_over_mac p;
  p_arp_interval := p_arp_interval p;
  p_arp_ip_target := p_arp_ip_target p;
  p_slavepriority := p_slavepriority p;
  p_forwarddelay := p_forwarddelay p;
  p_hellotime := p_hellotime p;
  p_maxage := p_maxage p;
  p_ageingtime := p_ageingtime p;
  p_hairpin := p_hairpin p;
  p_path_cost := p_path_cost p;
  p_mac := p_mac p;
  p_runner := p_runner p;
  p_runner_hwaddr_policy := p_runner_hwaddr_policy p;
  p_runner_fast_rate := p_runner_fast_rate p;
  p_vlanid := p_vlanid p;
  p_vlandev := p_vlandev p;
  p_flags := p_flags p;
  p_ingress := p_ingress p;
  p_egress := p_egress p;
  p_vxlan_id := p_vxlan_id p;
  p_vxlan_local := p_vxlan_local p;
  p_vxlan_remote := p_vxlan_remote p;
  p_ip_tunnel_dev := p_ip_tunnel_dev p;
  p_ip_tunnel_local := p_ip_tunnel_local p;
  p_ip_tunnel_remote := p_ip_tunnel_remote p;
  p_ip_tunnel_input_key := p_ip_tunnel_input_key p;
  p_ip_tunnel_output_key := p_ip_tunnel_output_key p;
  p_dhcp_client_id := p_dhcp_client_id p;
  p_zone := p_zone p;
  p_ssid := ssid;
  p_wifi := wifi;
  p_wifi_sec := wifi_sec;
  p_gsm := p_gsm p;
  p_macvlan := p_macvlan p;
  p_wireguard := p_wireguard p;
  p_vpn := p_vpn p;
  p_transport_mode := p_transport_mode p;
  p_infiniband_mac := p_infiniband_mac p;
  p_sriov := p_sriov p;
  p_table := p_table p
|}.

(** A wifi task in full, and a host whose editor knows the properties it
    names: the session that prints a setting shows them. *)
Definition wifi_task (state : string) : Params :=
  with_wifi (task "wlan0" state (Some "wifi") (Some "wlan0") None false)
            (Some "home")
            (Some [("mode", VStr "infrastructure")])
            (Some [("key-mgmt", VStr "wpa-psk"); ("psk", VStr "correct horse")]).

Definition wifi_host : History -> Cmd -> Resp :=
  fun _ c =>
    match kind_of c with
    | Probe =>
        (0%Z,
         ("802-11-wireless.mode:  infrastructure" ++ newline
          ++ "802-11-wireless-security.key-mgmt:  --" ++ newline
          ++ "802-11-wireless-security.psk:  --")%string, "")
    | _ => (0%Z, "", "")
    end.

(** A wifi task with an MTU whose security options give a number for the
    list-typed [psk-flags]: the option table cannot be built for it. *)
Definition flagged_wifi_task : Params :=
  with_wifi (task "wlan0" "present" (Some "wifi") (Some "wlan0") (Some 1500%Z) false)
            (Some "home") None (Some [("psk-flags", VInt 1)]).

(* ------------------------------------------------------------------ *)
(** * Properties *)
(* ------------------------------------------------------------------ *)

(** ** Default prefix lengths *)

Lemma contains_char_In (c : ascii) (s : string) :
  Py.contains_char c s = true <-> In c (Py.chars s).
Proof.
  unfold Py.contains_char. rewrite existsb_exists. split.
  - intros (x & Hx & E). apply Ascii.eqb_eq in E. now subst.
  - intros H. exists c. split; [assumption | apply Ascii.eqb_refl].
Qed.

Lemma contains_char_not_In (c : ascii) (s : string) :
  Py.contains_char c s = false <-> ~ In c (Py.chars s).
Proof.
  rewrite <- contains_char_In. destruct (Py.contains_char c s); split; intros H;
    try reflexivity; try discriminate; try (intro; discriminate).
  exfalso. now apply H.
Qed.

Section Cidr.
Variable suffix : string.

Let enforce (l : list string) : list string :=
  map (fun address =>
         if Py.contains_char "/" address then address
         else (address ++ suffix)%string) l.

Lemma enforce_nth (l : list string) (i : nat) (address : string) :
  nth_error l i = Some address ->
  (In "/"%char (Py.chars address) -> nth_error (enforce l) i = Some address) /\
  (~ In "/"%char (Py.chars address) ->
     nth_error (enforce l) i = Some (address ++ suffix)%string).
Proof.
  intros H. unfold enforce. rewrite nth_error_map, H. simpl. split; intros Hs.
  - apply contains_char_In in Hs. now rewrite Hs.
  - apply contains_char_not_In in Hs. now rewrite Hs.
Qed.
End Cidr.

(** C6. Every address of a list of desired IP addresses that has no [/]
    leaves [enforce_ipv4_cidr_notation] with [/32] appended and
    [enforce_ipv6_cidr_notation] with [/128] appended; an address that has
    a [/] leaves both unchanged.  The lists keep their length and order. *)
Theorem enforce_cidr_notation_defaults :
  forall addresses : list string,
  exists out4 out6 : list string,
    enforce_ipv4_cidr_notation (Some addresses) = Some out4 /\
    enforce_ipv6_cidr_notation (Some addresses) = Some out6 /\
    List.length out4 = List.length addresses /\
    List.length out6 = List.length addresses /\
    forall (i : nat) (address : string),
      nth_error addresses i = Some address ->
      (In "/"%char (Py.chars address) ->
         nth_error out4 i = Some address /\ nth_error out6 i = Some address) /\
      (~ In "/"%char (Py.chars address) ->
         nth_error out4 i = Some (address ++ "/32")%string /\
         nth_error out6 i = Some (address ++ "/128")%string).
Proof.
  intros addresses. eexists. eexists.
  split; [reflexivity |]. split; [reflexivity |].
  split; [apply length_map |]. split; [apply length_map |].
  intros i address H.
  destruct (enforce_nth "/32" addresses i address H) as [A4 B4].
  destruct (enforce_nth "/128" addresses i address H) as [A6 B6].
  split; intros Hs; split; auto.
Qed.

Lemma enforce_cidr_notation_defaults_witness :
  exists out4 out6 : list string,
    enforce_ipv4_cidr_notation (Some ["192.0.2.7"; "198.51.100.1/24"]) = Some out4 /\
    enforce_ipv6_cidr_notation (Some ["2001:db8::7"; "2001:db8::1/64"]) = Some out6 /\
    nth_error out4 0 = Some "192.0.2.7/32" /\
    nth_error out4 1 = Some "198.51.100.1/24" /\
    nth_error out6 0 = Some "2001:db8::7/128" /\
    nth_error out6 1 = Some "2001:db8::1/64".
Proof.
  destruct (enforce_cidr_notation_defaults ["192.0.2.7"; "198.51.100.1/24"])
    as (out4 & o6 & E4 & _ & _ & _ & H4).
  destruct (enforce_cidr_notation_defaults ["2001:db8::7"; "2001:db8::1/64"])
    as (o4 & out6 & _ & E6 & _ & _ & H6).
  exists out4, out6.
  split; [exact E4 |]. split; [exact E6 |].
  repeat split.
  - apply (H4 0%nat "192.0.2.7" eq_refl). vm_compute. intuition discriminate.
  - apply (H4 1%nat "198.51.100.1/24" eq_refl). vm_compute. intuition.
  - apply (H6 0%nat "2001:db8::7" eq_refl). vm_compute. intuition discriminate.
  - apply (H6 1%nat "2001:db8::1/64" eq_refl). vm_compute. intuition.
Defined.

(** ** Dictionaries *)

Lemma dict_get_set {V : Type} (k k' : string) (v : V) (d : dict V) :
  dict_get k (dict_set k' v d) = if String.eqb k k' then Some v else dict_get k d.
Proof.
  induction d as [| [k0 v0] d IH]; simpl.
  - destruct (String.eqb k k'); reflexivity.
  - destruct (String.eqb k' k0) eqn:E0; simpl.
    + apply String.eqb_eq in E0. subst k0.
      destruct (String.eqb k k'); reflexivity.
    + destruct (String.eqb k k0) eqn:E1.
      * apply String.eqb_eq in E1. subst k0.
        rewrite String.eqb_sym in E0. now rewrite E0.
      * exact IH.
Qed.

Lemma dict_get_set_same {V : Type} (k : string) (v : V) (d : dict V) :
  dict_get k (dict_set k v d) = Some v.
Proof. rewrite dict_get_set. now rewrite String.eqb_refl. Qed.

Lemma dict_get_set_other {V : Type} (k k' : string) (v : V) (d : dict V) :
  k <> k' -> dict_get k (dict_set k' v d) = dict_get k d.
Proof.
  intros H. rewrite dict_get_set.
  destruct (String.eqb k k') eqn:E; [| reflexivity].
  apply String.eqb_eq in E. contradiction.
Qed.

(** ** The empty marker of the observed connection *)

Lemma is_TList_true (key : string) :
  is_TList (settings_type key) = true <-> settings_type key = TList.
Proof. destruct (settings_type key); simpl; split; congruence. Qed.

(** A line whose key is a list-typed setting stores a list under it. *)
Lemma parse_line_list_typed (conn_info : dict pyval) (line key_text rest : string) :
  Py.split1 ":" line = (key_text, Some rest) ->
  Py.strip key_text <> "" ->
  settings_type (Py.strip key_text) = TList ->
  exists l : list string,
    dict_get (Py.strip key_text) (parse_line conn_info line) = Some (VList l).
Proof.
  intros Hsplit Hkey Hlist. unfold parse_line. rewrite Hsplit. simpl.
  set (key := Py.strip key_text) in *.
  destruct (String.eqb key "") eqn:E; [apply String.eqb_eq in E; contradiction |].
  simpl. apply is_TList_true in Hlist. rewrite Hlist.
  destruct (String.eqb (Py.lstrip rest) "--").
  - eexists. apply dict_get_set_same.
  - destruct (String.eqb key "bond.options") eqn:Eb.
    + apply String.eqb_eq in Eb. rewrite Eb in Hlist. discriminate.
    + match goal with |- context [if ?b then _ else _] => destruct b end;
        eexists; apply dict_get_set_same.
Qed.

(** One turn of the loop of [show_connection]: a line whose value is the
    empty marker stores the empty list under a key whose setting type is
    list and [None] under a key of any other type; and the line of a
    list-typed setting always stores a list. *)
Lemma parse_line_empty_marker :
  forall (conn_info : dict pyval) (line key_text rest : string),
    Py.split1 ":" line = (key_text, Some rest) ->
    Py.strip key_text <> "" ->
    (Py.lstrip rest = "--" ->
       dict_get (Py.strip key_text) (parse_line conn_info line)
       = Some (match settings_type (Py.strip key_text) with
               | TList => VList []
               | _ => VNone
               end)) /\
    (settings_type (Py.strip key_text) = TList ->
       dict_get (Py.strip key_text) (parse_line conn_info line) <> Some (VStr "--")).
Proof.
  intros conn_info line key_text rest Hsplit Hkey. split.
  - intros Hmark. unfold parse_line. rewrite Hsplit. simpl.
    destruct (String.eqb (Py.strip key_text) "") eqn:E;
      [apply String.eqb_eq in E; contradiction |].
    simpl. rewrite Hmark. simpl.
    destruct (settings_type (Py.strip key_text)); simpl; apply dict_get_set_same.
  - intros Hlist.
    destruct (parse_line_list_typed conn_info line key_text rest Hsplit Hkey Hlist)
      as [l Hl].
    rewrite Hl. discriminate.
Qed.

(** ** MAC addresses are compared without regard to case *)

Lemma upper_lower_char (c : ascii) :
  Py.upper_char (Py.lower_char c) = Py.upper_char c.
Proof. destruct c as [[] [] [] [] [] [] [] []]; reflexivity. Qed.

Lemma same_letter_upper (c d : ascii) :
  same_letter c d -> Py.upper_char c = Py.upper_char d.
Proof.
  unfold same_letter. intros H.
  rewrite <- (upper_lower_char c), <- (upper_lower_char d). now rewrite H.
Qed.

Lemma differ_in_case_only_upper (a b : string) :
  differ_in_case_only a b -> Py.upper a = Py.upper b.
Proof.
  unfold differ_in_case_only, Py.upper. intros H. f_equal.
  induction H as [| c d l1 l2 Hcd _ IH]; simpl.
  - reflexivity.
  - now rewrite (same_letter_upper c d Hcd), IH.
Qed.

Lemma differ_in_case_only_empty (a : string) :
  differ_in_case_only "" a -> a = "".
Proof.
  unfold differ_in_case_only. simpl. intros H. inversion H as [E |].
  destruct a; [reflexivity | discriminate].
Qed.

Lemma mac_setting_cases (self : Nmcli) :
  mac_setting self = "bridge.mac-address"
  \/ mac_setting self = "802-3-ethernet.cloned-mac-address".
Proof. unfold mac_setting. destruct (type_is self "bridge"); auto. Qed.

Lemma mtu_setting_cases (self : Nmcli) :
  mtu_setting self = "infiniband.mtu" \/ mtu_setting self = "802-3-ethernet.mtu".
Proof. unfold mtu_setting. destruct (type_is self "infiniband"); auto. Qed.

Arguments Py.upper s : simpl never.

Lemma normalize_param_mac (self : Nmcli) (mtu : option Z) (observed desired : string) :
  observed <> "" ->
  normalize_param self mtu (mac_setting self) (VStr observed) (VStr desired)
  = Ok (VStr (Py.upper observed), VStr (Py.upper desired), mtu).
Proof.
  intros Hobs. destruct observed as [| c o]; [contradiction |].
  unfold normalize_param.
  destruct (mac_setting_cases self) as [E | E];
    destruct (mtu_setting_cases self) as [F | F];
    rewrite E, F; reflexivity.
Qed.

Lemma compare_values_mac (self : Nmcli) (mtu : option Z) (a b : string) :
  compare_values self mtu (mac_setting self) (VStr a) (VStr b)
  = (negb (String.eqb a b), VStr b).
Proof.
  unfold compare_values.
  destruct (mac_setting_cases self) as [E | E];
    destruct (mtu_setting_cases self) as [F | F];
    rewrite E, F; reflexivity.
Qed.

(** C5. When the observed connection holds a MAC address under the MAC
    setting of the connection type and the desired address differs from it
    in letter case only, the change detector counts no change for that
    setting: the loop body leaves the flag as it was, and a table made of
    that setting alone compares as unchanged. *)
Theorem mac_address_compared_case_insensitively :
  forall (self : Nmcli) (conn_info : dict pyval) (acc : Cmp)
         (observed desired : string),
    dict_get (mac_setting self) conn_info = Some (VStr observed) ->
    differ_in_case_only observed desired ->
    (exists acc' : Cmp,
        compare_param self conn_info acc (mac_setting self, VStr desired) = Ok acc'
        /\ cmp_changed acc' = cmp_changed acc) /\
    (exists r : Cmp,
        compare_loop self conn_info (empty_cmp self) [(mac_setting self, VStr desired)]
        = Ok r
        /\ cmp_changed r = false).
Proof.
  intros self conn_info acc observed desired Hget Hcase.
  assert (Step : forall a : Cmp, exists a' : Cmp,
             compare_param self conn_info a (mac_setting self, VStr desired) = Ok a'
             /\ cmp_changed a' = cmp_changed a).
  { intros a. unfold compare_param.
    destruct (is_empty_value (VStr desired)) eqn:Hemp; [eauto |].
    rewrite Hget.
    assert (Hup := differ_in_case_only_upper observed desired Hcase).
    assert (Hobs : observed <> "").
    { intros ->. apply differ_in_case_only_empty in Hcase. subst desired.
      discriminate. }
    rewrite (normalize_param_mac self _ observed desired Hobs). cbn [res_bind].
    rewrite compare_values_mac, Hup, String.eqb_refl. cbn [negb].
    eexists. split; [reflexivity | simpl; apply orb_false_r]. }
  split; [apply Step |].
  destruct (Step (empty_cmp self)) as (r & Hr & Hc).
  exists r. cbn [compare_loop]. rewrite Hr. split; [reflexivity | exact Hc].
Qed.

Lemma mac_address_compared_case_insensitively_witness :
  exists r : Cmp,
    compare_loop (nmcli_of (ansible_module (default_params "eth0" "present") false
                                           (host "eth0" never_fails)))
                 [("802-3-ethernet.cloned-mac-address", VStr "AA:BB:CC:DD:EE:FF")]
                 (empty_cmp (nmcli_of (ansible_module (default_params "eth0" "present")
                                                      false (host "eth0" never_fails))))
                 [("802-3-ethernet.cloned-mac-address", VStr "aa:bb:cc:dd:ee:ff")]
    = Ok r
    /\ cmp_changed r = false.
Proof.
  apply (proj2 (mac_address_compared_case_insensitively
                  (nmcli_of (ansible_module (default_params "eth0" "present") false
                                            (host "eth0" never_fails)))
                  [("802-3-ethernet.cloned-mac-address", VStr "AA:BB:CC:DD:EE:FF")]
                  (empty_cmp (nmcli_of (ansible_module (default_params "eth0" "present")
                                                       false (host "eth0" never_fails))))
                  "AA:BB:CC:DD:EE:FF" "aa:bb:cc:dd:ee:ff"
                  eq_refl
                  ltac:(repeat constructor))).
Defined.

(** ** Sorting *)

Lemma str_le_trans (a b c : string) : str_le a b -> str_le b c -> str_le a c.
Proof.
  unfold str_le, String.leb. revert b c.
  induction a as [| x a IH]; intros [| y b] [| z c]; simpl; try easy.
  unfold Ascii.compare.
  destruct (N.compare_spec (N_of_ascii x) (N_of_ascii y)) as [Exy | Lxy | Gxy];
    destruct (N.compare_spec (N_of_ascii y) (N_of_ascii z)) as [Eyz | Lyz | Gyz];
    destruct (N.compare_spec (N_of_ascii x) (N_of_ascii z)) as [Exz | Lxz | Gxz];
    try easy; try lia.
  apply IH.
Qed.

Lemma str_le_total (a b : string) : str_le a b \/ str_le b a.
Proof. apply String.leb_total. Qed.

Lemma str_le_antisym (a b : string) : str_le a b -> str_le b a -> a = b.
Proof. apply String.leb_antisym. Qed.

Lemma insert_sorted_perm (x : string) (l : list string) :
  Permutation (insert_sorted x l) (x :: l).
Proof.
  induction l as [| y l IH]; simpl.
  - apply Permutation_refl.
  - destruct (String.leb x y).
    + apply Permutation_refl.
    + eapply perm_trans; [apply perm_skip, IH | apply perm_swap].
Qed.

Lemma sorted_perm (l : list string) : Permutation (sorted l) l.
Proof.
  induction l as [| x l IH]; simpl.
  - apply perm_nil.
  - eapply perm_trans; [apply insert_sorted_perm | now apply perm_skip].
Qed.

Lemma insert_sorted_strongly (x : string) (l : list string) :
  StronglySorted str_le l -> StronglySorted str_le (insert_sorted x l).
Proof.
  induction l as [| y l IH]; intros H; simpl.
  - constructor; [constructor | constructor].
  - inversion H as [| ? ? Hl Hy]; subst.
    destruct (String.leb x y) eqn:E.
    + constructor; [assumption |].
      constructor; [exact E |].
      eapply Forall_impl; [| exact Hy].
      intros z Hz. eapply str_le_trans; [exact E | exact Hz].
    + constructor; [now apply IH |].
      assert (Hyx : str_le y x).
      { destruct (str_le_total x y) as [A | A]; [unfold str_le in A; congruence | exact A]. }
      eapply Permutation_Forall.
      * apply Permutation_sym, insert_sorted_perm.
      * constructor; assumption.
Qed.

Lemma sorted_strongly (l : list string) : StronglySorted str_le (sorted l).
Proof.
  induction l as [| x l IH]; simpl.
  - constructor.
  - now apply insert_sorted_strongly.
Qed.

Lemma strongly_sorted_unique (l1 l2 : list string) :
  StronglySorted str_le l1 -> StronglySorted str_le l2 ->
  Permutation l1 l2 -> l1 = l2.
Proof.
  revert l2. induction l1 as [| a l1 IH]; intros l2 S1 S2 HP.
  - apply Permutation_nil in HP. now subst.
  - destruct l2 as [| b l2].
    + apply Permutation_sym, Permutation_nil in HP. discriminate.
    + inversion S1 as [| ? ? S1' Ha]; inversion S2 as [| ? ? S2' Hb]; subst.
      assert (E : a = b).
      { assert (Hin_a : In a (b :: l2)) by
          (eapply Permutation_in; [exact HP | now left]).
        assert (Hin_b : In b (a :: l1)) by
          (eapply Permutation_in; [apply Permutation_sym; exact HP | now left]).
        destruct Hin_a as [-> | Hin_a]; [reflexivity |].
        destruct Hin_b as [-> | Hin_b]; [reflexivity |].
        rewrite Forall_forall in Ha, Hb.
        apply str_le_antisym; [now apply Ha | now apply Hb]. }
      subst b. f_equal. apply IH; try assumption.
      eapply Permutation_cons_inv; exact HP.
Qed.

(** [sorted] sends two orderings of one list to the same list. *)
Lemma sorted_of_permutation (l1 l2 : list string) :
  Permutation l1 l2 -> sorted l1 = sorted l2.
Proof.
  intros HP. apply strongly_sorted_unique; try apply sorted_strongly.
  eapply perm_trans; [apply sorted_perm |].
  eapply perm_trans; [exact HP | apply Permutation_sym, sorted_perm].
Qed.

Lemma list_eqb_eq (a b : list string) : list_eqb a b = true <-> a = b.
Proof.
  revert b. induction a as [| x a IH]; intros [| y b]; simpl; try easy.
  rewrite andb_true_iff, String.eqb_eq, IH. split.
  - intros [-> ->]. reflexivity.
  - intros E. inversion E. auto.
Qed.

Lemma list_eqb_refl (a : list string) : list_eqb a a = true.
Proof. now apply list_eqb_eq. Qed.

Lemma list_eqb_neq (a b : list string) : list_eqb a b = false <-> a <> b.
Proof.
  rewrite <- list_eqb_eq. destruct (list_eqb a b); split; congruence.
Qed.

(** ** Ordered and unordered list settings *)

Lemma str_in_In (s : string) (l : list string) : str_in s l = true <-> In s l.
Proof.
  unfold str_in. rewrite existsb_exists. split.
  - intros (x & Hx & E). apply String.eqb_eq in E. now subst.
  - intros H. exists s. split; [assumption | apply String.eqb_refl].
Qed.

Lemma settings_type_TList (key : string) :
  settings_type key = TList ->
  In key ["ipv4.addresses"; "ipv6.addresses"; "ipv4.dns"; "ipv4.dns-search";
          "ipv4.dns-options"; "ipv4.routes"; "ipv4.routing-rules"; "ipv6.dns";
          "ipv6.dns-search"; "ipv6.dns-options"; "ipv6.routes";
          "802-11-wireless-security.group";
          "802-11-wireless-security.leap-password-flags";
          "802-11-wireless-security.pairwise"; "802-11-wireless-security.proto";
          "802-11-wireless-security.psk-flags";
          "802-11-wireless-security.wep-key-flags";
          "802-11-wireless.mac-address-blacklist"].
Proof.
  unfold settings_type.
  match goal with |- context [if ?b then TBool else _] => destruct b end;
    [discriminate |].
  match goal with |- context [if ?b then TList else _] => destruct b eqn:E end.
  - intros _. now apply str_in_In.
  - match goal with |- context [if ?b then TInt else _] => destruct b end;
      discriminate.
Qed.

Ltac each_key H :=
  repeat (destruct H as [H | H]; [subst |]); try contradiction.

Lemma normalize_param_list (self : Nmcli) (mtu : option Z) (key : string)
    (observed desired : list string) :
  settings_type key = TList ->
  normalize_param self mtu key (VList observed) (VList desired)
  = res_bind (observed_as_compared key observed)
             (fun compared => Ok (VList compared, VList desired, mtu)).
Proof.
  intros H. apply settings_type_TList in H.
  unfold normalize_param, observed_as_compared.
  destruct (mac_setting_cases self) as [E | E];
    destruct (mtu_setting_cases self) as [F | F];
    rewrite E, F; each_key H; try reflexivity;
    cbn; destruct (res_map_list _ observed); reflexivity.
Qed.

Lemma is_empty_value_list (l : list string) : is_empty_value (VList l) = false.
Proof. destruct l; reflexivity. Qed.

Lemma compare_values_lists (self : Nmcli) (mtu : option Z) (key : string)
    (c v : list string) :
  compare_values self mtu key (VList c) (VList v)
  = (if str_in key ORDERED_LISTS then negb (list_eqb c v)
     else negb (list_eqb (sorted c) (sorted v)), VList v).
Proof. unfold compare_values. destruct (str_in key ORDERED_LISTS); reflexivity. Qed.

Lemma observed_as_compared_ordered (key : string) (observed : list string) :
  str_in key ORDERED_LISTS = true -> observed_as_compared key observed = Ok observed.
Proof.
  intros H. apply str_in_In in H. unfold ORDERED_LISTS in H.
  each_key H; reflexivity.
Qed.

(** C4, as the code has it.  For a list-typed setting that the observed
    connection holds as a list: under the six address, DNS and search
    domain settings a desired list that is another ordering of the
    observed list counts as a change; under every other list-typed setting
    a desired list that is an ordering of the observed list as the
    detector compares it (for the routes the list rewritten by
    [get_route_params], else the observed list itself) leaves the change
    flag as it was. *)
Theorem list_settings_order_sensitivity :
  forall (self : Nmcli) (conn_info : dict pyval) (acc : Cmp) (key : string)
         (observed desired : list string),
    settings_type key = TList ->
    dict_get key conn_info = Some (VList observed) ->
    (str_in key ORDERED_LISTS = true ->
     Permutation observed desired -> observed <> desired ->
     exists acc' : Cmp,
       compare_param self conn_info acc (key, VList desired) = Ok acc'
       /\ cmp_changed acc' = true) /\
    (str_in key ORDERED_LISTS = false ->
     forall compared : list string,
       observed_as_compared key observed = Ok compared ->
       Permutation compared desired ->
       exists acc' : Cmp,
         compare_param self conn_info acc (key, VList desired) = Ok acc'
         /\ cmp_changed acc' = cmp_changed acc) /\
    (str_in key ORDERED_LISTS = false ->
     str_in key ["ipv4.routes"; "ipv6.routes"] = false ->
     Permutation observed desired ->
     exists acc' : Cmp,
       compare_param self conn_info acc (key, VList desired) = Ok acc'
       /\ cmp_changed acc' = cmp_changed acc).
Proof.
  intros self conn_info acc key observed desired Hty Hget.
  assert (Unordered : str_in key ORDERED_LISTS = false ->
            forall compared : list string,
              observed_as_compared key observed = Ok compared ->
              Permutation compared desired ->
              exists acc' : Cmp,
                compare_param self conn_info acc (key, VList desired) = Ok acc'
                /\ cmp_changed acc' = cmp_changed acc).
  { intros Hord compared Hcmp HP.
    unfold compare_param. rewrite is_empty_value_list, Hget.
    rewrite (normalize_param_list self _ key observed desired Hty), Hcmp.
    cbn [res_bind]. rewrite compare_values_lists, Hord.
    rewrite (sorted_of_permutation compared desired HP), list_eqb_refl.
    eexists. split; [reflexivity | simpl; apply orb_false_r]. }
  split; [| split].
  - intros Hord HP Hne.
    unfold compare_param. rewrite is_empty_value_list, Hget.
    rewrite (normalize_param_list self _ key observed desired Hty).
    rewrite (observed_as_compared_ordered key observed Hord).
    cbn [res_bind]. rewrite compare_values_lists, Hord.
    apply list_eqb_neq in Hne. rewrite Hne.
    eexists. split; [reflexivity | simpl; apply orb_true_r].
  - exact Unordered.
  - intros Hord Hroutes HP. apply (Unordered Hord observed); [| exact HP].
    unfold observed_as_compared. now rewrite Hroutes.
Qed.

Lemma list_settings_order_sensitivity_witness :
  (exists acc' : Cmp,
      compare_param sample_nmcli
        [("ipv4.dns", VList ["192.0.2.53"; "198.51.100.53"])]
        (empty_cmp sample_nmcli)
        ("ipv4.dns", VList ["198.51.100.53"; "192.0.2.53"]) = Ok acc'
      /\ cmp_changed acc' = true) /\
  (exists acc' : Cmp,
      compare_param sample_nmcli
        [("ipv4.routes", VList ["{ ip = 192.0.2.0/24, nh = 198.51.100.1 }";
                                "{ ip = 203.0.113.0/24, nh = 198.51.100.1 }"])]
        (empty_cmp sample_nmcli)
        ("ipv4.routes", VList ["203.0.113.0/24 198.51.100.1";
                               "192.0.2.0/24 198.51.100.1"]) = Ok acc'
      /\ cmp_changed acc' = cmp_changed (empty_cmp sample_nmcli)) /\
  (exists acc' : Cmp,
      compare_param sample_nmcli
        [("ipv4.dns-options", VList ["rotate"; "edns0"])]
        (empty_cmp sample_nmcli)
        ("ipv4.dns-options", VList ["edns0"; "rotate"]) = Ok acc'
      /\ cmp_changed acc' = cmp_changed (empty_cmp sample_nmcli)).
Proof.
  split; [| split].
  - apply (proj1 (list_settings_order_sensitivity sample_nmcli
                    [("ipv4.dns", VList ["192.0.2.53"; "198.51.100.53"])]
                    (empty_cmp sample_nmcli) "ipv4.dns"
                    ["192.0.2.53"; "198.51.100.53"] ["198.51.100.53"; "192.0.2.53"]
                    eq_refl eq_refl)
                 eq_refl (perm_swap _ _ _) ltac:(discriminate)).
  - apply (proj1 (proj2 (list_settings_order_sensitivity sample_nmcli
                    [("ipv4.routes", VList ["{ ip = 192.0.2.0/24, nh = 198.51.100.1 }";
                                            "{ ip = 203.0.113.0/24, nh = 198.51.100.1 }"])]
                    (empty_cmp sample_nmcli) "ipv4.routes"
                    ["{ ip = 192.0.2.0/24, nh = 198.51.100.1 }";
                     "{ ip = 203.0.113.0/24, nh = 198.51.100.1 }"]
                    ["203.0.113.0/24 198.51.100.1"; "192.0.2.0/24 198.51.100.1"]
                    eq_refl eq_refl))
                 eq_refl
                 ["192.0.2.0/24 198.51.100.1"; "203.0.113.0/24 198.51.100.1"]
                 eq_refl (perm_swap _ _ _)).
  - apply (proj2 (proj2 (list_settings_order_sensitivity sample_nmcli
                    [("ipv4.dns-options", VList ["rotate"; "edns0"])]
                    (empty_cmp sample_nmcli) "ipv4.dns-options"
                    ["rotate"; "edns0"] ["edns0"; "rotate"]
                    eq_refl eq_refl))
                 eq_refl eq_refl (perm_swap _ _ _)).
Defined.

(** The claim C4 as the specification words it fails for the routes: the
    observed routes, in the notation of the external tool, and the same
    routes in the other order compare as changed, although [ipv4.routes]
    is a list-typed setting outside the six ordered ones. *)
Lemma list_settings_order_counterexample :
  settings_type "ipv4.routes" = TList /\
  str_in "ipv4.routes" ORDERED_LISTS = false /\
  Permutation ["{ ip = 192.0.2.0/24, nh = 198.51.100.1 }";
               "{ ip = 203.0.113.0/24, nh = 198.51.100.1 }"]
              ["{ ip = 203.0.113.0/24, nh = 198.51.100.1 }";
               "{ ip = 192.0.2.0/24, nh = 198.51.100.1 }"] /\
  exists r : Cmp,
    compare_loop sample_nmcli
      [("ipv4.routes", VList ["{ ip = 192.0.2.0/24, nh = 198.51.100.1 }";
                              "{ ip = 203.0.113.0/24, nh = 198.51.100.1 }"])]
      (empty_cmp sample_nmcli)
      [("ipv4.routes", VList ["{ ip = 203.0.113.0/24, nh = 198.51.100.1 }";
                              "{ ip = 192.0.2.0/24, nh = 198.51.100.1 }"])]
    = Ok r
    /\ cmp_changed r = true
    /\ cmp_before r = [("ipv4.routes", VList ["192.0.2.0/24 198.51.100.1";
                                              "203.0.113.0/24 198.51.100.1"])].
Proof.
  split; [reflexivity |]. split; [reflexivity |]. split; [apply perm_swap |].
  eexists. split; [vm_compute; reflexivity |]. split; reflexivity.
Qed.

(** ** The command line of [connection_update] *)

Lemma fold_add_option (options : dict pyval) (cmd edits : list string) :
  fold_left add_option options (cmd, edits)
  = ((cmd ++ flat_map option_args options)%list,
     (edits ++ flat_map option_edits options)%list).
Proof.
  revert cmd edits. induction options as [| [key value] options IH]; intros cmd edits.
  - simpl. now rewrite !app_nil_r.
  - cbn [fold_left flat_map]. 
    assert (E : add_option (cmd, edits) (key, value)
                = ((cmd ++ option_args (key, value))%list,
                   (edits ++ option_edits (key, value))%list)).
    { unfold add_option, option_args, option_edits.
      destruct value; try (now rewrite !app_nil_r);
        destruct (str_in key SECRET_OPTIONS);
        try destruct (String.eqb key "xmit_hash_policy");
        try destruct (String.eqb key "fail_over_mac");
        now rewrite ?app_nil_r. }
    rewrite E, IH, <- !app_assoc. reflexivity.
Qed.

(** What [connection_update] does once [connection_options] has returned
    a table: the edit commands are stored, the warnings given and the
    command run. *)
Lemma connection_update_run (st : State) (nmcli_command : string)
    (w : list string) (more : dict pyval) :
  nmcli_command = "create" \/ nmcli_command = "modify" ->
  connection_options (self st) false = (w, Ok more) ->
  connection_update nmcli_command st
  = execute_command (update_cmd (self st) nmcli_command more) None
                    (after_options st nmcli_command w more).
Proof.
  intros Hcmd Hopt. unfold connection_update, bind, get_self.
  destruct Hcmd as [-> | ->]; cbn [String.eqb Ascii.eqb Bool.eqb ret];
    rewrite Hopt; unfold warn, lift, modify_self;
    cbn [self history warnings app];
    rewrite fold_add_option; reflexivity.
Qed.

(** When [connection_options] ends in an exception, so does
    [connection_update], and the external tool is not run. *)
Lemma connection_update_raises (st : State) (nmcli_command : string)
    (w : list string) (e : exn) :
  nmcli_command = "create" \/ nmcli_command = "modify" ->
  connection_options (self st) false = (w, Exc e) ->
  connection_update nmcli_command st
  = (Exc e, {| self := self st; history := history st;
               warnings := (warnings st ++ w)%list |}).
Proof.
  intros Hcmd Hopt. unfold connection_update, bind, get_self.
  destruct Hcmd as [-> | ->]; cbn [String.eqb Ascii.eqb Bool.eqb ret];
    rewrite Hopt; unfold warn, lift; reflexivity.
Qed.

(** ** [connection_options] never sets the interface name *)

Lemma dict_get_update_other {V : Type} (k : string) (d e : dict V) :
  dict_get k e = None -> dict_get k (dict_update d e) = dict_get k d.
Proof.
  unfold dict_update. revert d. induction e as [| [k' v'] e IH]; intros d H.
  - reflexivity.
  - simpl in H. destruct (String.eqb k k') eqn:E; [discriminate |].
    cbn [fold_left fst snd]. rewrite (IH _ H), dict_get_set, E. reflexivity.
Qed.

Lemma dict_update_head {V : Type} (k : string) (v : V) (d e : dict V) :
  dict_get k e = None ->
  dict_update ((k, v) :: d) e = (k, v) :: dict_update d e.
Proof.
  unfold dict_update. revert d. induction e as [| [k' v'] e IH]; intros d H.
  - reflexivity.
  - simpl in H. destruct (String.eqb k k') eqn:E; [discriminate |].
    cbn [fold_left fst snd dict_set]. rewrite String.eqb_sym, E.
    apply (IH _ H).
Qed.

Lemma update_prefixed_get_other (k prefix : string) (items d : dict pyval) :
  (forall n : string, String.eqb k (prefix ++ n) = false) ->
  dict_get k (update_prefixed prefix items d) = dict_get k d.
Proof.
  intros H. unfold update_prefixed. revert d.
  induction items as [| [n v] items IH]; intros d.
  - reflexivity.
  - cbn [fold_left fst snd]. rewrite IH, dict_get_set, H. reflexivity.
Qed.

Lemma vpn_step_interface_name (items : dict pyval) (d : dict pyval) (s : string) :
  dict_get interface_name_key (fst (fold_left vpn_step items (d, s)))
  = dict_get interface_name_key d.
Proof.
  revert d s. induction items as [| [n v] items IH]; intros d s.
  - reflexivity.
  - cbn [fold_left]. 
    destruct (vpn_step (d, s) (n, v)) as [d' s'] eqn:E. rewrite IH.
    unfold vpn_step in E.
    destruct (String.eqb n "service-type");
      [| destruct (String.eqb n "permissions")];
      inversion E; subst; rewrite !dict_get_set; reflexivity.
Qed.

Lemma convert_options_keeps_none (self : Nmcli) (detect_change : bool) (k : string)
    (options options' : dict pyval) :
  convert_options self detect_change options = Ok options' ->
  dict_get k options = None -> dict_get k options' = None.
Proof.
  unfold convert_options. revert options'.
  induction options as [| [k0 v0] options IH]; intros options' H Hk.
  - inversion H. reflexivity.
  - cbn [res_map_list fst snd] in H.
    destruct (convert_option self detect_change k0 v0) as [v1 | e];
      [| discriminate].
    cbn [res_bind] in H.
    destruct (res_map_list _ options) as [rest | e]; [| discriminate].
    cbn [res_bind] in H. inversion H; subst.
    simpl in Hk |- *. destruct (String.eqb k k0); [discriminate |].
    now apply IH.
Qed.

Ltac split_branches :=
  repeat match goal with
         | |- context [if ?b then _ else _] => destruct b
         | |- context [match ?o with Some _ => _ | None => _ end] => destruct o
         end.

Ltac interface_name_absent :=
  repeat first
    [ rewrite dict_get_update_other by reflexivity
    | rewrite update_prefixed_get_other by (intros; reflexivity)
    | rewrite vpn_step_interface_name
    | rewrite dict_get_set_other by discriminate ].

Lemma type_options_interface_name (self : Nmcli) (options options' : dict pyval)
    (w : list string) :
  type_options self options = (w, Ok options') ->
  dict_get interface_name_key options' = dict_get interface_name_key options.
Proof.
  unfold type_options, interface_name_key. split_branches;
    intros E; inversion E; subst; clear E;
    interface_name_absent; reflexivity.
Qed.

Lemma Ok_inj {A : Type} (a b : A) : Ok a = Ok b -> a = b.
Proof. intros H. inversion H. reflexivity. Qed.

Lemma ip_options_interface_name (self : Nmcli) (options options' : dict pyval) :
  ip_options self options = Ok options' ->
  dict_get interface_name_key options' = dict_get interface_name_key options.
Proof.
  unfold ip_options, interface_name_key.
  destruct (enforce_routes_format _ _) as [r4 | e]; [| discriminate].
  destruct (enforce_routes_format _ _) as [r6 | e]; [| discriminate].
  cbn [res_bind]. intros E. apply Ok_inj in E. subst options'.
  destruct (truthy_str (ipv4_method self)
            && negb (opt_str_is (ipv4_method self) "disabled"));
    rewrite ?dict_get_update_other by reflexivity; reflexivity.
Qed.

Lemma connection_options_interface_name (self : Nmcli) (detect_change : bool)
    (w : list string) (more : dict pyval) :
  connection_options self detect_change = (w, Ok more) ->
  dict_get interface_name_key more = None.
Proof.
  unfold connection_options. intros H.
  match type of H with
  | context [match ?x with Ok _ => _ | Exc _ => _ end] =>
      destruct x as [options1 | e] eqn:E1; [| discriminate]
  end.
  assert (H1 : dict_get interface_name_key options1 = None).
  { revert E1. split_branches; intros E1.
    - now rewrite (ip_options_interface_name _ _ _ E1).
    - inversion E1. reflexivity. }
  clear E1.
  match type of H with
  | context [type_options self ?o] =>
      destruct (type_options self o) as [w' [options5 | e]] eqn:E5;
      [| discriminate];
      assert (H5 : dict_get interface_name_key options5 = None)
  end.
  { rewrite (type_options_interface_name _ _ _ _ E5).
    destruct (mac_setting_cases self) as [Em | Em];
      destruct (mtu_setting_cases self) as [Et | Et];
      rewrite Em, Et; unfold interface_name_key in *;
      split_branches; interface_name_absent; exact H1. }
  clear E5. inversion H as [[Hw Hm]]; clear H.
  eapply convert_options_keeps_none; [exact Hm |].
  unfold interface_name_key in *.
  split_branches; interface_name_absent; exact H5.
Qed.

Lemma update_options_head (self : Nmcli) (nmcli_command : string) (more : dict pyval)
    (w : list string) :
  connection_options self false = (w, Ok more) ->
  update_options self nmcli_command more
  = if type_is self "vpn" && match p_ifname (P self) with None => true | _ => false end
    then dict_update [] more
    else (interface_name_key, of_str (update_ifname self nmcli_command))
           :: dict_update [] more.
Proof.
  intros H. apply connection_options_interface_name in H.
  unfold update_options, interface_name_options.
  destruct (type_is self "vpn" && _).
  - cbn [dict_del]. reflexivity.
  - apply dict_update_head. exact H.
Qed.

Lemma execute_command_history (cmd : list string) (d : option string) (st : State) :
  history (snd (execute_command cmd d st))
  = (history st
     ++ [({| argv := cmd; data := d |},
          run_command (module (self st)) (history st) {| argv := cmd; data := d |})])%list.
Proof. reflexivity. Qed.

(** C9. The interface name in the command of [connection_update], when
    [connection_options] returns a table (which never holds the interface
    name itself).  On creation without [ifname], for a type other than vpn,
    the option [connection.interface-name] is emitted first, with the name
    of the connection as its value.  For the type vpn without [ifname] the
    table has no such option and none is emitted, on creation and on
    modification.  On modification [ifname] is used as given: emitted when
    set, left out when unset. *)
Theorem connection_update_interface_name :
  forall (st : State) (w : list string) (more : dict pyval),
    connection_options (self st) false = (w, Ok more) ->
    dict_get interface_name_key (dict_update [] more) = None /\
    (p_ifname (P (self st)) = None -> type_is (self st) "vpn" = false ->
     dict_get interface_name_key (update_options (self st) "create" more)
     = Some (VStr (conn_name (self st))) /\
     exists resp : Resp,
       history (snd (connection_update "create" st))
       = (history st
          ++ [({| argv := command_head (self st) "create"
                          ++ [interface_name_key; conn_name (self st)]
                          ++ flat_map option_args (dict_update [] more);
                  data := None |}, resp)])%list) /\
    (p_ifname (P (self st)) = None -> type_is (self st) "vpn" = true ->
     forall nmcli_command : string,
       nmcli_command = "create" \/ nmcli_command = "modify" ->
       dict_get interface_name_key (update_options (self st) nmcli_command more) = None /\
       exists resp : Resp,
         history (snd (connection_update nmcli_command st))
         = (history st
            ++ [({| argv := command_head (self st) nmcli_command
                            ++ flat_map option_args (dict_update [] more);
                    data := None |}, resp)])%list) /\
    (type_is (self st) "vpn" = false \/ p_ifname (P (self st)) <> None ->
     dict_get interface_name_key (update_options (self st) "modify" more)
     = Some (of_str (p_ifname (P (self st)))) /\
     exists resp : Resp,
       history (snd (connection_update "modify" st))
       = (history st
          ++ [({| argv := command_head (self st) "modify"
                          ++ match p_ifname (P (self st)) with
                             | Some ifname => [interface_name_key; ifname]
                             | None => []
                             end
                          ++ flat_map option_args (dict_update [] more);
                  data := None |}, resp)])%list).
Proof.
  intros st w more Hopt.
  assert (Hnone : dict_get interface_name_key (dict_update [] more) = None).
  { rewrite dict_get_update_other; [reflexivity |].
    exact (connection_options_interface_name _ _ _ _ Hopt). }
  split; [exact Hnone |]. split; [| split].
  - intros Hif Hvpn.
    rewrite (connection_update_run st "create" w more (or_introl eq_refl) Hopt).
    rewrite execute_command_history. unfold update_cmd.
    rewrite (update_options_head _ _ _ _ Hopt), Hvpn. cbn [andb].
    unfold update_ifname. rewrite Hif. cbn [String.eqb Ascii.eqb Bool.eqb andb of_str].
    split.
    + cbn [dict_get]. unfold interface_name_key. now rewrite String.eqb_refl.
    + eexists. reflexivity.
  - intros Hif Hvpn nmcli_command Hcmd.
    rewrite (connection_update_run st nmcli_command w more Hcmd Hopt).
    rewrite execute_command_history. unfold update_cmd.
    rewrite (update_options_head _ _ _ _ Hopt), Hvpn, Hif. cbn [andb].
    split; [exact Hnone |]. eexists. reflexivity.
  - intros Hgiven.
    rewrite (connection_update_run st "modify" w more (or_intror eq_refl) Hopt).
    rewrite execute_command_history. unfold update_cmd.
    rewrite (update_options_head _ _ _ _ Hopt).
    assert (E : type_is (self st) "vpn"
                && match p_ifname (P (self st)) with None => true | _ => false end
                = false).
    { destruct Hgiven as [-> | Hg]; [reflexivity |].
      destruct (p_ifname (P (self st))); [apply andb_false_r | contradiction]. }
    rewrite E. unfold update_ifname.
    cbn [String.eqb Ascii.eqb Bool.eqb andb].
    split.
    + cbn [dict_get]. unfold interface_name_key. now rewrite String.eqb_refl.
    + destruct (p_ifname (P (self st))); eexists; reflexivity.
Qed.

Lemma connection_update_interface_name_witness :
  (exists rest : list string,
     argvs (history (snd (connection_update "create"
              (start_of (task "eth0" "present" (Some "ethernet") None None false)
                        false (host "" never_fails)))))
     = [["/usr/bin/nmcli"; "con"; "add"; "type"; "ethernet"; "con-name"; "eth0";
         "connection.interface-name"; "eth0"] ++ rest]%list) /\
  (exists more : dict pyval,
     connection_options
       (nmcli_of (ansible_module (task "vpn0" "present" (Some "vpn") None None false)
                                 false (host "" never_fails))) false
     = ([], Ok more) /\
     dict_get interface_name_key
       (update_options
          (nmcli_of (ansible_module (task "vpn0" "present" (Some "vpn") None None false)
                                    false (host "" never_fails)))
          "create" more) = None) /\
  (exists rest : list string,
     argvs (history (snd (connection_update "modify"
              (start_of (task "eth0" "present" (Some "ethernet") (Some "ens3") None false)
                        false (host "" never_fails)))))
     = [["/usr/bin/nmcli"; "con"; "modify"; "eth0";
         "connection.interface-name"; "ens3"] ++ rest]%list).
Proof.
  split; [| split].
  - edestruct (connection_update_interface_name
                 (start_of (task "eth0" "present" (Some "ethernet") None None false)
                           false (host "" never_fails)))
      as (_ & Hcreate & _ & _); [vm_compute; reflexivity |].
    destruct (Hcreate eq_refl eq_refl) as (_ & resp & Hh).
    rewrite Hh. eexists. reflexivity.
  - eexists. split; [vm_compute; reflexivity |].
    edestruct (connection_update_interface_name
                 (start_of (task "vpn0" "present" (Some "vpn") None None false)
                           false (host "" never_fails)))
      as (_ & _ & Hvpn & _); [vm_compute; reflexivity |].
    exact (proj1 (Hvpn eq_refl eq_refl "create" (or_introl eq_refl))).
  - edestruct (connection_update_interface_name
                 (start_of (task "eth0" "present" (Some "ethernet") (Some "ens3") None false)
                           false (host "" never_fails)))
      as (_ & _ & _ & Hmodify); [vm_compute; reflexivity |].
    destruct (Hmodify (or_introl eq_refl)) as (_ & resp & Hh).
    rewrite Hh. eexists. reflexivity.
Defined.

(** ** Single steps of a run *)

Lemma execute_command_run (cmd : list string) (d : option string) (st : State) :
  execute_command cmd d st
  = (Ok (answer st {| argv := cmd; data := d |}),
     logged st {| argv := cmd; data := d |}).
Proof. reflexivity. Qed.

Lemma up_connection_run (st : State) :
  up_connection st = (Ok (answer st (up_cmd (self st))), logged st (up_cmd (self st))).
Proof. reflexivity. Qed.

Lemma down_connection_run (st : State) :
  down_connection st
  = (Ok (answer st (down_cmd (self st))), logged st (down_cmd (self st))).
Proof. reflexivity. Qed.

Lemma reload_connection_run (st : State) :
  reload_connection st
  = (Ok (answer st (reload_cmd (self st))), logged st (reload_cmd (self st))).
Proof. reflexivity. Qed.

Lemma remove_connection_run (st : State) :
  remove_connection st
  = (Ok (answer st (delete_cmd (self st))), logged st (delete_cmd (self st))).
Proof. reflexivity. Qed.

Lemma edit_connection_run (st : State) :
  edit_connection st
  = (Ok (answer st (edit_cmd (self st))), logged st (edit_cmd (self st))).
Proof. reflexivity. Qed.

Lemma connection_exists_run (st : State) :
  connection_exists st
  = (if negb (Z.eqb (rc_of (answer st (listing_cmd (self st)))) 0)
     then Exc (NmcliModuleError (err_of (answer st (listing_cmd (self st)))))
     else Ok (str_in (conn_name (self st))
                     (Py.splitlines (snd (fst (answer st (listing_cmd (self st))))))),
     logged st (listing_cmd (self st))).
Proof.
  unfold connection_exists, list_connection_info, bind, get_self.
  rewrite execute_command_run. fold (listing_cmd (self st)).
  unfold rc_of, err_of.
  destruct (answer st (listing_cmd (self st))) as [[rc0 out0] err0].
  cbn [fst snd]. destruct (negb (rc0 =? 0)%Z); reflexivity.
Qed.

Lemma connection_exists_listed (st : State) :
  lists_name (conn_name (self st)) (answer st (listing_cmd (self st))) = true ->
  connection_exists st = (Ok true, logged st (listing_cmd (self st))).
Proof.
  unfold lists_name. intros H. apply andb_true_iff in H. destruct H as [H0 H1].
  rewrite connection_exists_run. unfold rc_of. now rewrite H0, H1.
Qed.

Lemma connection_exists_not_listed (st : State) :
  lists_no_such_name (conn_name (self st)) (answer st (listing_cmd (self st))) = true ->
  connection_exists st = (Ok false, logged st (listing_cmd (self st))).
Proof.
  unfold lists_no_such_name. intros H. apply andb_true_iff in H.
  destruct H as [H0 H1]. apply negb_true_iff in H1.
  rewrite connection_exists_run. unfold rc_of. now rewrite H0, H1.
Qed.

(** ** The driver on a connection that does not exist *)

Lemma kind_of_listing (self : Nmcli) : kind_of (listing_cmd self) = Listing.
Proof. reflexivity. Qed.

(** C7. With [state=absent], when the listing of the external tool
    succeeds and does not show the name of the connection, the driver
    makes that one listing call and no other (so neither a down nor a
    delete command), and the run ends with [changed=false].  This holds in
    check mode and outside it. *)
Theorem absent_missing_connection_is_untouched :
  forall (st : State) (l : Locals),
    p_state (P (self st)) = "absent" ->
    rc l = None ->
    lists_no_such_name (conn_name (self st)) (answer st (listing_cmd (self st))) = true ->
    history (snd (@drive Empty_set l st))
    = (history st ++ [(listing_cmd (self st), answer st (listing_cmd (self st)))])%list
    /\ kinds [(listing_cmd (self st), answer st (listing_cmd (self st)))] = [Listing]
    /\ exists result : Result,
         fst (@drive Empty_set l st) = Exc (ExitJson false (Some result)).
Proof.
  intros st l Hstate Hrc Hlist.
  unfold drive, reconcile, bind, get_self, try_except.
  rewrite Hstate. cbn [String.eqb Ascii.eqb Bool.eqb].
  unfold state_absent, bind, get_self.
  rewrite (connection_exists_not_listed st Hlist).
  unfold ret, report, exit_json, raise. rewrite Hrc.
  split; [reflexivity |]. split; [reflexivity |].
  eexists. reflexivity.
Qed.

Lemma absent_missing_connection_is_untouched_witness :
  kinds (calls (main (ansible_module (default_params "eth0" "absent") false
                                     (host "lo" never_fails)))) = [Listing]
  /\ exists result : Result,
       finish (main (ansible_module (default_params "eth0" "absent") false
                                    (host "lo" never_fails)))
       = ExitJson false (Some result).
Proof.
  destruct (absent_missing_connection_is_untouched
              (start_of (default_params "eth0" "absent") false (host "lo" never_fails))
              (initial_locals (nmcli_of (ansible_module (default_params "eth0" "absent")
                                                        false (host "lo" never_fails))))
              eq_refl eq_refl eq_refl) as (Hh & Hk & result & Hf).
  split.
  - change (calls (main (ansible_module (default_params "eth0" "absent") false
                                        (host "lo" never_fails))))
      with (history (snd (@drive Empty_set
              (initial_locals (nmcli_of (ansible_module (default_params "eth0" "absent")
                                                        false (host "lo" never_fails))))
              (start_of (default_params "eth0" "absent") false (host "lo" never_fails))))).
    rewrite Hh. exact Hk.
  - exists result.
    change (finish (main (ansible_module (default_params "eth0" "absent") false
                                         (host "lo" never_fails))))
      with (match fst (@drive Empty_set
              (initial_locals (nmcli_of (ansible_module (default_params "eth0" "absent")
                                                        false (host "lo" never_fails))))
              (start_of (default_params "eth0" "absent") false (host "lo" never_fails)))
            with Exc e => e | Ok x => match x with end end).
    now rewrite Hf.
Defined.

(** ** Reload before up *)

Lemma history_logged3 (st : State) (a b c : Cmd) :
  history (logged (logged (logged st a) b) c)
  = (history st
     ++ [(a, answer st a);
         (b, answer (logged st a) b);
         (c, answer (logged (logged st a) b) c)])%list.
Proof. cbn [logged history]. now rewrite <- !app_assoc. Qed.

(** C8, as the code has it.  With [state=up] and [conn_reload=true],
    outside check mode, when the listing shows the connection, the driver
    runs the listing, then one reload command, then one up command, and
    nothing else: the reload comes immediately before the up. *)
Theorem up_with_reload_reloads_then_ups :
  forall (st : State) (l : Locals),
    p_state (P (self st)) = "up" ->
    p_conn_reload (P (self st)) = true ->
    check_mode (module (self st)) = false ->
    lists_name (conn_name (self st)) (answer st (listing_cmd (self st))) = true ->
    exists a0 a1 a2 : Resp,
      history (snd (@drive Empty_set l st))
      = (history st
         ++ [(listing_cmd (self st), a0);
             (reload_cmd (self st), a1);
             (up_cmd (self st), a2)])%list
      /\ kinds [(listing_cmd (self st), a0);
                (reload_cmd (self st), a1);
                (up_cmd (self st), a2)] = [Listing; Reload; Up]
      /\ argvs [(reload_cmd (self st), a1); (up_cmd (self st), a2)]
         = [[nmcli_bin (self st); "con"; "reload"];
            [nmcli_bin (self st); "con"; "up"; conn_name (self st)]].
Proof.
  intros st l Hstate Hreload Hcheck Hlist.
  exists (answer st (listing_cmd (self st))),
         (answer (logged st (listing_cmd (self st))) (reload_cmd (self st))),
         (answer (logged (logged st (listing_cmd (self st))) (reload_cmd (self st)))
                 (up_cmd (self st))).
  split; [| split; reflexivity].
  rewrite <- history_logged3.
  unfold drive, reconcile, bind, get_self, try_except.
  rewrite Hstate. cbn [String.eqb Ascii.eqb Bool.eqb].
  unfold state_up_down, bind, get_self.
  rewrite (connection_exists_listed st Hlist), Hcheck, Hreload.
  unfold ret. rewrite reload_connection_run, up_connection_run.
  cbn [logged self].
  match goal with |- context [if ?b then _ else _] => destruct b end; reflexivity.
Qed.

Lemma up_with_reload_reloads_then_ups_witness :
  exists a0 a1 a2 : Resp,
    history (snd (@drive Empty_set
               (initial_locals (nmcli_of (ansible_module
                                            (task "eth0" "up" None None None true)
                                            false (host "eth0" never_fails))))
               (start_of (task "eth0" "up" None None None true) false
                         (host "eth0" never_fails))))
    = [(plain ["/usr/bin/nmcli"; "--fields"; "name"; "--terse"; "con"; "show"], a0);
       (plain ["/usr/bin/nmcli"; "con"; "reload"], a1);
       (plain ["/usr/bin/nmcli"; "con"; "up"; "eth0"], a2)].
Proof.
  destruct (up_with_reload_reloads_then_ups
              (start_of (task "eth0" "up" None None None true) false
                        (host "eth0" never_fails))
              (initial_locals (nmcli_of (ansible_module
                                           (task "eth0" "up" None None None true)
                                           false (host "eth0" never_fails))))
              eq_refl eq_refl eq_refl eq_refl) as (a0 & a1 & a2 & Hh & _ & _).
  exists a0, a1, a2. exact Hh.
Defined.

(** The claim C8 as the specification words it fails in check mode: with
    [state=up] and [conn_reload=true] on a connection the listing shows,
    the driver runs the listing and exits with [changed=true]; neither a
    reload nor an up command is run. *)
Lemma up_with_reload_counterexample :
  p_state (task "eth0" "up" None None None true) = "up"
  /\ p_conn_reload (task "eth0" "up" None None None true) = true
  /\ lists_name "eth0"
       (host "eth0" never_fails []
             (plain ["/usr/bin/nmcli"; "--fields"; "name"; "--terse"; "con"; "show"]))
     = true
  /\ argvs (calls (main (ansible_module (task "eth0" "up" None None None true)
                                        true (host "eth0" never_fails))))
     = [["/usr/bin/nmcli"; "--fields"; "name"; "--terse"; "con"; "show"]]
  /\ finish (main (ansible_module (task "eth0" "up" None None None true)
                                  true (host "eth0" never_fails)))
     = ExitJson true None.
Proof. vm_compute. repeat split. Qed.

(** ** Creation and modification, step by step *)

Lemma modify_connection_run (st : State) (w : list string) (more : dict pyval) :
  connection_options (self st) false = (w, Ok more) ->
  modify_connection st
  = (Ok (secured_answer st "modify" w more), secured st "modify" w more).
Proof.
  intros Hopt. unfold modify_connection, bind.
  rewrite (connection_update_run st "modify" w more (or_intror eq_refl) Hopt).
  rewrite execute_command_run.
  unfold get_self, secured_answer, secured, secrets_follow, updated, update_answer,
    plain, rc_of, nonempty.
  cbn [logged after_options self edit_commands set_edit_commands].
  match goal with |- context [if ?b then _ else _] => destruct b end; reflexivity.
Qed.

Lemma create_connection_run (st : State) (w : list string) (more : dict pyval) :
  connection_options (self st) false = (w, Ok more) ->
  create_connection st
  = if create_connection_up (self st)
    then (Ok (answer (secured st "create" w more) (up_cmd (self st))),
          logged (secured st "create" w more) (up_cmd (self st)))
    else (Ok (secured_answer st "create" w more), secured st "create" w more).
Proof.
  intros Hopt. unfold create_connection, bind.
  rewrite (connection_update_run st "create" w more (or_introl eq_refl) Hopt).
  rewrite execute_command_run.
  unfold get_self, secured_answer, secured, secrets_follow, updated, update_answer,
    plain, rc_of, nonempty.
  cbn [logged after_options self edit_commands set_edit_commands].
  match goal with |- context [if (?a && ?b)%bool then _ else _] => destruct (a && b)%bool end;
    cbn [logged self];
    change (create_connection_up
              (set_edit_commands (self st) (update_edits (self st) "create" more)))
      with (create_connection_up (self st));
    destruct (create_connection_up (self st)); reflexivity.
Qed.

Lemma create_connection_raises (st : State) (w : list string) (e : exn) :
  connection_options (self st) false = (w, Exc e) ->
  create_connection st
  = (Exc e, {| self := self st; history := history st;
               warnings := (warnings st ++ w)%list |}).
Proof.
  intros Hopt. unfold create_connection, bind.
  now rewrite (connection_update_raises st "create" w e (or_introl eq_refl) Hopt).
Qed.

Lemma modify_connection_raises (st : State) (w : list string) (e : exn) :
  connection_options (self st) false = (w, Exc e) ->
  modify_connection st
  = (Exc e, {| self := self st; history := history st;
               warnings := (warnings st ++ w)%list |}).
Proof.
  intros Hopt. unfold modify_connection, bind.
  now rewrite (connection_update_raises st "modify" w e (or_intror eq_refl) Hopt).
Qed.

Lemma create_connection_up_by_mtu (self : Nmcli) :
  type_in self CREATE_UP_TYPES = true -> mtu self <> None ->
  create_connection_up self = true.
Proof.
  unfold create_connection_up, CREATE_UP_TYPES. intros -> Hmtu.
  destruct (mtu self); [reflexivity | contradiction].
Qed.

Lemma kind_of_update_cmd (self : Nmcli) (nmcli_command : string) (more : dict pyval) :
  kind_of (plain (update_cmd self nmcli_command more))
  = if String.eqb nmcli_command "create" then Create else Modify.
Proof.
  unfold update_cmd, command_head.
  destruct (String.eqb nmcli_command "create"); reflexivity.
Qed.

(** ** Creation with an MTU *)

Lemma create_cmd_of_up_type (self : Nmcli) (more : dict pyval) :
  type_in self CREATE_UP_TYPES = true ->
  update_cmd self "create" more
  = ([nmcli_bin self; "con"; "add"; "type"; to_text (of_str (type self));
      "con-name"; conn_name self]
     ++ flat_map option_args (update_options self "create" more))%list.
Proof.
  intros Htype. unfold update_cmd, command_head. cbn [String.eqb Ascii.eqb Bool.eqb].
  assert (E : tunnel_conn_type self = false).
  { unfold tunnel_conn_type. unfold type_in in *. destruct (type self) as [t |];
      [| discriminate].
    apply str_in_In in Htype. unfold CREATE_UP_TYPES in Htype.
    repeat (destruct Htype as [<- | Htype]; [reflexivity |]). contradiction. }
  rewrite E. reflexivity.
Qed.

Lemma history_secured (st : State) (nmcli_command : string) (w : list string)
    (more : dict pyval) :
  exists r_update r_edit : Resp,
    history (secured st nmcli_command w more)
    = (history st
       ++ (plain (update_cmd (self st) nmcli_command more), r_update)
          :: (if secrets_follow st nmcli_command w more
              then [(edit_cmd (self (updated st nmcli_command w more)), r_edit)]
              else []))%list.
Proof.
  exists (update_answer st nmcli_command w more),
         (answer (updated st nmcli_command w more)
                 (edit_cmd (self (updated st nmcli_command w more)))).
  unfold secured. destruct (secrets_follow st nmcli_command w more).
  - cbn [logged history updated after_options]. now rewrite <- app_assoc.
  - reflexivity.
Qed.

(** C3, as the code has it.  With [state=present], outside check mode,
    when both listings of the driver succeed without showing the name,
    [mtu] is set and the type is one of bond, dummy, ethernet, infiniband
    and wifi:
    - when [connection_options] returns a table, the calls of the driver
      are the two listings, one create command, the edit session that
      sets the secrets (it is fed the edit commands, then [save] and
      [quit]) exactly when the create command succeeded and there are
      edit commands, and then one up command, whether the create command
      succeeded or not; nothing else;
    - when [connection_options] raises instead, the calls are the two
      listings only: neither a create nor an up command is run. *)
Theorem present_creates_then_ups_with_mtu :
  forall (st : State) (l : Locals),
    p_state (P (self st)) = "present" ->
    check_mode (module (self st)) = false ->
    type_in (self st) CREATE_UP_TYPES = true ->
    mtu (self st) <> None ->
    lists_no_such_name (conn_name (self st)) (answer st (listing_cmd (self st))) = true ->
    lists_no_such_name (conn_name (self st))
      (answer (logged st (listing_cmd (self st))) (listing_cmd (self st))) = true ->
    (forall (w : list string) (more : dict pyval),
        connection_options (self st) false = (w, Ok more) ->
        exists a0 a1 r_create r_edit r_up : Resp,
          history (snd (@drive Empty_set l st))
          = (history st
             ++ [(listing_cmd (self st), a0); (listing_cmd (self st), a1);
                 (plain (update_cmd (self st) "create" more), r_create)]
             ++ (if Z.eqb (rc_of r_create) 0
                    && nonempty (update_edits (self st) "create" more)
                 then [({| argv := [nmcli_bin (self st); "con"; "edit";
                                    conn_name (self st)];
                           data := Some (Py.join newline
                                           (update_edits (self st) "create" more
                                            ++ ["save"; "quit"])) |}, r_edit)]
                 else [])
             ++ [(plain [nmcli_bin (self st); "con"; "up"; conn_name (self st)],
                  r_up)])%list
          /\ update_cmd (self st) "create" more
             = ([nmcli_bin (self st); "con"; "add"; "type";
                 to_text (of_str (type (self st))); "con-name"; conn_name (self st)]
                ++ flat_map option_args (update_options (self st) "create" more))%list)
    /\ (forall (w : list string) (e : exn),
           connection_options (self st) false = (w, Exc e) ->
           exists a0 a1 : Resp,
             history (snd (@drive Empty_set l st))
             = (history st
                ++ [(listing_cmd (self st), a0); (listing_cmd (self st), a1)])%list).
Proof.
  intros st l Hstate Hcheck Htype Hmtu Hl1 Hl2.
  set (st2 := logged (logged st (listing_cmd (self st))) (listing_cmd (self st))).
  assert (Hdrive :
            @drive Empty_set l st
            = (l' <- try_except
                       (fun _ : State =>
                          (l1 <- (r <- create_connection ;;
                                  ret (assign
                                         (set_result l
                                            (with_Connection (result l)
                                               ("Connection " ++ conn_name (self st)
                                                ++ " of Type "
                                                ++ to_text (of_str (type (self st)))
                                                ++ " is being added")%string)) r)) ;;
                           if rc_failed (rc l1)
                           then fail_json (err l1) (Some (conn_name (self st))) (rc l1)
                           else ret l1) st2)
                       (fun e => fail_json e (Some (conn_name (self st))) None) ;;
               report l') st).
  { unfold drive, reconcile, bind, get_self, try_except.
    rewrite Hstate. cbn [String.eqb Ascii.eqb Bool.eqb].
    unfold state_present, bind, get_self.
    rewrite (connection_exists_not_listed st Hl1). unfold ret.
    rewrite (connection_exists_not_listed (logged st (listing_cmd (self st))) Hl2).
    cbn [negb]. rewrite Hcheck. reflexivity. }
  split.
  - intros w more Hopt.
    exists (answer st (listing_cmd (self st))),
           (answer (logged st (listing_cmd (self st))) (listing_cmd (self st))),
           (update_answer st2 "create" w more),
           (answer (updated st2 "create" w more)
                   (edit_cmd (self (updated st2 "create" w more)))),
           (answer (secured st2 "create" w more) (up_cmd (self st))).
    split; [| apply (create_cmd_of_up_type (self st) more Htype)].
    rewrite Hdrive. unfold bind, try_except.
    rewrite (create_connection_run st2 w more Hopt).
    change (self st2) with (self st).
    rewrite (create_connection_up_by_mtu (self st) Htype Hmtu).
    assert (Hfinal :
              history (logged (secured st2 "create" w more) (up_cmd (self st)))
              = (history st
                 ++ [(listing_cmd (self st), answer st (listing_cmd (self st)));
                     (listing_cmd (self st),
                      answer (logged st (listing_cmd (self st))) (listing_cmd (self st)));
                     (plain (update_cmd (self st) "create" more),
                      update_answer st2 "create" w more)]
                 ++ (if secrets_follow st2 "create" w more
                     then [(edit_cmd (self (updated st2 "create" w more)),
                            answer (updated st2 "create" w more)
                                   (edit_cmd (self (updated st2 "create" w more))))]
                     else [])
                 ++ [(up_cmd (self st),
                      answer (secured st2 "create" w more) (up_cmd (self st)))])%list).
    { cbn [logged history]. unfold secured.
      destruct (secrets_follow st2 "create" w more);
        cbn [logged history updated after_options]; subst st2;
        cbn [logged history self]; rewrite <- !app_assoc; reflexivity. }
    unfold ret at 1.
    match goal with |- context [if ?b then _ else _] =>
      match b with rc_failed _ => destruct b end end;
      unfold fail_json, raise, ret, report, exit_json; cbn [snd]; exact Hfinal.
  - intros w e Hopt.
    exists (answer st (listing_cmd (self st))),
           (answer (logged st (listing_cmd (self st))) (listing_cmd (self st))).
    rewrite Hdrive. unfold bind, try_except.
    rewrite (create_connection_raises st2 w e Hopt).
    assert (Hh : history st2
                 = (history st
                    ++ [(listing_cmd (self st), answer st (listing_cmd (self st)));
                        (listing_cmd (self st),
                         answer (logged st (listing_cmd (self st)))
                                (listing_cmd (self st)))])%list).
    { subst st2. cbn [logged history self]. rewrite <- app_assoc. reflexivity. }
    destruct e; unfold fail_json, raise; cbn [snd history]; exact Hh.
Qed.

Lemma present_creates_then_ups_with_mtu_witness :
  kinds (history (snd (@drive Empty_set
           (initial_locals (nmcli_of (ansible_module
              (task "eth0" "present" (Some "ethernet") None (Some 1500%Z) false)
              false (host "lo" never_fails))))
           (start_of (task "eth0" "present" (Some "ethernet") None (Some 1500%Z) false)
                     false (host "lo" never_fails)))))
  = [Listing; Listing; Create; Up]
  /\ kinds (history (snd (@drive Empty_set
              (initial_locals (nmcli_of (ansible_module flagged_wifi_task false
                                                        (host "lo" never_fails))))
              (start_of flagged_wifi_task false (host "lo" never_fails)))))
     = [Listing; Listing].
Proof.
  split.
  - destruct (present_creates_then_ups_with_mtu
                (start_of (task "eth0" "present" (Some "ethernet") None (Some 1500%Z)
                                false)
                          false (host "lo" never_fails))
                (initial_locals (nmcli_of (ansible_module
                   (task "eth0" "present" (Some "ethernet") None (Some 1500%Z) false)
                   false (host "lo" never_fails)))))
      as [Hok _];
      [reflexivity | reflexivity | reflexivity | discriminate
       | reflexivity | reflexivity |].
    edestruct Hok as (a0 & a1 & r_create & r_edit & r_up & Hh & Hc);
      [vm_compute; reflexivity |].
    rewrite Hh.
    match goal with
    | |- context [nonempty ?e] =>
        replace (nonempty e) with false by (vm_compute; reflexivity)
    end.
    rewrite andb_false_r. reflexivity.
  - destruct (present_creates_then_ups_with_mtu
                (start_of flagged_wifi_task false (host "lo" never_fails))
                (initial_locals (nmcli_of (ansible_module flagged_wifi_task false
                                                          (host "lo" never_fails)))))
      as [_ Hraise];
      [reflexivity | reflexivity | reflexivity | discriminate
       | reflexivity | reflexivity |].
    edestruct Hraise as (a0 & a1 & Hh); [vm_compute; reflexivity |].
    rewrite Hh. reflexivity.
Defined.

(** The claim C3 as the specification words it fails for a type outside
    the five: a vlan connection that does not exist is created with its
    MTU, and no up command follows. *)
Lemma present_creates_then_ups_counterexample :
  p_state (task "vlan10" "present" (Some "vlan") None (Some 1400%Z) false) = "present"
  /\ p_mtu (task "vlan10" "present" (Some "vlan") None (Some 1400%Z) false)
     = Some 1400%Z
  /\ lists_no_such_name "vlan10"
       (host "lo" never_fails []
             (plain ["/usr/bin/nmcli"; "--fields"; "name"; "--terse"; "con"; "show"]))
     = true
  /\ kinds (calls (main (ansible_module
                           (task "vlan10" "present" (Some "vlan") None (Some 1400%Z) false)
                           false (host "lo" never_fails))))
     = [Listing; Listing; Create]
  /\ argvs (calls (main (ansible_module
                           (task "vlan10" "present" (Some "vlan") None (Some 1400%Z) false)
                           false (host "lo" never_fails))))
     = [["/usr/bin/nmcli"; "--fields"; "name"; "--terse"; "con"; "show"];
        ["/usr/bin/nmcli"; "--fields"; "name"; "--terse"; "con"; "show"];
        ["/usr/bin/nmcli"; "con"; "add"; "type"; "vlan"; "con-name"; "vlan10";
         "connection.interface-name"; "vlan10"; "connection.autoconnect"; "yes";
         "ipv4.ignore-auto-dns"; "no"; "ipv4.ignore-auto-routes"; "no";
         "ipv4.never-default"; "no"; "ipv4.may-fail"; "yes";
         "ipv6.ignore-auto-dns"; "no"; "ipv6.ignore-auto-routes"; "no";
         "802-3-ethernet.mtu"; "1400"]].
Proof. vm_compute. repeat split. Qed.

(** ** Computations that only query the external tool *)

Lemma quietly_refl (st : State) : quietly st st.
Proof.
  split; [reflexivity |]. exists []. split; [now rewrite app_nil_r | constructor].
Qed.

Lemma quietly_trans (st1 st2 st3 : State) :
  quietly st1 st2 -> quietly st2 st3 -> quietly st1 st3.
Proof.
  intros (M1 & e1 & H1 & Q1) (M2 & e2 & H2 & Q2). split; [congruence |].
  exists (e1 ++ e2)%list. split.
  - now rewrite H2, H1, app_assoc.
  - apply Forall_app. split; assumption.
Qed.

Lemma quiet_from_bind {A B : Type} (st : State) (m : M A) (f : A -> M B) :
  quiet_from st m ->
  (forall (a : A) (st' : State), quietly st st' -> quiet_from st' (f a)) ->
  quiet_from st (bind m f).
Proof.
  unfold quiet_from, bind. intros Hm Hf.
  destruct (m st) as [[a | e] st1]; cbn [snd] in *.
  - eapply quietly_trans; [exact Hm | apply Hf, Hm].
  - exact Hm.
Qed.

Lemma quiet_bind {A B : Type} (m : M A) (f : A -> M B) :
  quiet m -> (forall a : A, quiet (f a)) -> quiet (bind m f).
Proof.
  intros Hm Hf st. apply quiet_from_bind; [apply Hm |].
  intros a st' _. apply Hf.
Qed.

Lemma quiet_from_get_self {B : Type} (st : State) (f : Nmcli -> M B) :
  quiet_from st (f (self st)) -> quiet_from st (bind get_self f).
Proof. intros H. exact H. Qed.

Lemma quiet_ret {A : Type} (a : A) : quiet (ret a).
Proof. intros st. apply quietly_refl. Qed.

Lemma quiet_raise {A : Type} (e : exn) : quiet (@raise A e).
Proof. intros st. apply quietly_refl. Qed.

Lemma quiet_bind_raise {A B : Type} (e : exn) (f : A -> M B) :
  quiet (bind (raise e) f).
Proof. intros st. apply quietly_refl. Qed.

Lemma quiet_get_self : quiet get_self.
Proof. intros st. apply quietly_refl. Qed.

Lemma quiet_warn (w : list string) : quiet (warn w).
Proof.
  intros st. split; [reflexivity |].
  exists []. split; [cbn; now rewrite app_nil_r | constructor].
Qed.

Lemma quiet_lift {A : Type} (r : res A) : quiet (lift r).
Proof. intros st. apply quietly_refl. Qed.

Lemma quiet_modify_self (f : Nmcli -> Nmcli) :
  (forall s : Nmcli, module (f s) = module s) -> quiet (modify_self f).
Proof.
  intros Hf st. split; [apply Hf |].
  exists []. split; [cbn; now rewrite app_nil_r | constructor].
Qed.

Lemma quiet_from_try_except {A : Type} (st : State) (body : M A)
    (handler : string -> M A) :
  quiet_from st body -> (forall msg : string, quiet (handler msg)) ->
  quiet_from st (try_except body handler).
Proof.
  unfold quiet_from, try_except. intros Hb Hh.
  destruct (body st) as [[a | []] st1]; cbn [snd] in *; try exact Hb.
  eapply quietly_trans; [exact Hb | apply Hh].
Qed.

Lemma quiet_execute_command (cmd : list string) (d : option string) :
  mutating {| argv := cmd; data := d |} = false ->
  quiet (execute_command cmd d).
Proof.
  intros Hq st. split; [reflexivity |].
  eexists. split; [reflexivity |]. constructor; [exact Hq | constructor].
Qed.

Ltac quiet_step :=
  first
    [ apply quiet_ret | apply quiet_raise | apply quiet_get_self
    | apply quiet_warn | apply quiet_lift
    | apply quiet_bind_raise
    | apply quiet_modify_self; intros; reflexivity
    | apply quiet_execute_command; reflexivity
    | apply quiet_bind
    | match goal with
      | |- forall _, _ => intro
      | |- quiet (if ?b then _ else _) => destruct b
      | |- quiet (match ?x with _ => _ end) => destruct x
      end ].

Ltac quiet_tac := repeat quiet_step.

Lemma quiet_list_connection_info : quiet list_connection_info.
Proof. unfold list_connection_info. quiet_tac. Qed.

Lemma quiet_connection_exists : quiet connection_exists.
Proof.
  unfold connection_exists. quiet_tac.
Qed.

Lemma quiet_show_connection : quiet show_connection.
Proof. unfold show_connection. quiet_tac. Qed.

(** The session that prints the supported properties of one of the two
    wifi settings is fed harmless commands only: it saves nothing. *)
Lemma quiet_get_supported_properties (setting : string) :
  setting = "802-11-wireless" \/ setting = "802-11-wireless-security" ->
  quiet (get_supported_properties setting).
Proof.
  intros [-> | ->]; unfold get_supported_properties, execute_edit_commands;
    quiet_tac.
Qed.

Lemma quiet_check_for_unsupported_properties (setting : string) :
  setting = "802-11-wireless" \/ setting = "802-11-wireless-security" ->
  quiet (check_for_unsupported_properties setting).
Proof.
  intros H. unfold check_for_unsupported_properties, fail_json.
  apply quiet_bind; [apply quiet_get_supported_properties; exact H |].
  quiet_tac.
Qed.

Lemma quiet_compare_conn_params (conn_info options : dict pyval) :
  quiet (_compare_conn_params conn_info options).
Proof. unfold _compare_conn_params. quiet_tac. Qed.

Lemma quiet_is_connection_changed : quiet is_connection_changed.
Proof.
  unfold is_connection_changed. quiet_tac;
    try apply quiet_show_connection; try apply quiet_compare_conn_params.
Qed.

Lemma quiet_check_for_issues : quiet check_for_issues.
Proof.
  unfold check_for_issues, fail_json.
  repeat first [apply quiet_check_for_unsupported_properties; auto | quiet_step].
Qed.

Lemma quiet_report {A : Type} (l : Locals) : quiet (@report A l).
Proof. unfold report, exit_json. quiet_tac. Qed.

(** ** Check mode *)

Lemma state_absent_check_mode (l : Locals) (st : State) :
  check_mode (module (self st)) = true -> quiet_from st (state_absent l).
Proof.
  intros Hcheck. unfold state_absent. apply quiet_from_get_self.
  rewrite Hcheck. unfold exit_json.
  apply quiet_from_bind; [apply quiet_connection_exists |].
  intros b st' _. destruct b; [apply quiet_bind_raise | apply quiet_ret].
Qed.

Lemma state_up_down_check_mode (action : M Resp) (l : Locals) (st : State) :
  check_mode (module (self st)) = true -> quiet_from st (state_up_down action l).
Proof.
  intros Hcheck. unfold state_up_down. apply quiet_from_get_self.
  rewrite Hcheck. unfold exit_json.
  apply quiet_from_bind; [apply quiet_connection_exists |].
  intros b st' _. destruct b; [apply quiet_bind_raise | apply quiet_ret].
Qed.

Lemma state_present_check_mode (l : Locals) (st : State) :
  check_mode (module (self st)) = true -> quiet_from st (state_present l).
Proof.
  intros Hcheck. unfold state_present. apply quiet_from_get_self.
  rewrite Hcheck. unfold exit_json, fail_json.
  apply quiet_from_bind; [apply quiet_connection_exists |].
  intros b st1 _.
  apply quiet_from_bind.
  - destruct b; [| apply quiet_ret].
    apply quiet_bind; [apply quiet_is_connection_changed |].
    intros [changed diff]. destruct changed; apply quiet_bind_raise.
  - intros l1 st2 _.
    apply quiet_from_bind; [apply quiet_connection_exists |].
    intros b2 st3 _.
    apply quiet_from_bind.
    + destruct b2; cbn [negb]; [apply quiet_ret |].
      apply quiet_bind; [apply quiet_get_self |]. intros s.
      apply quiet_bind_raise.
    + intros l2 st4 _. destruct (rc_failed (rc l2)); quiet_tac.
Qed.

Lemma reconcile_check_mode (l : Locals) (st : State) :
  check_mode (module (self st)) = true -> quiet_from st (reconcile l).
Proof.
  intros Hcheck. unfold reconcile. apply quiet_from_get_self.
  apply quiet_from_try_except.
  - repeat match goal with |- context [if ?b then _ else _] => destruct b end.
    + now apply state_absent_check_mode.
    + now apply state_present_check_mode.
    + now apply state_up_down_check_mode.
    + now apply state_up_down_check_mode.
    + apply quiet_ret.
  - intros msg. unfold fail_json. apply quiet_raise.
Qed.

Lemma drive_check_mode (l : Locals) (st : State) :
  check_mode (module (self st)) = true -> quiet_from st (@drive Empty_set l).
Proof.
  intros Hcheck. unfold drive.
  apply quiet_from_bind; [now apply reconcile_check_mode |].
  intros l' st' _. apply quiet_report.
Qed.

Lemma main_check_mode (m : AnsibleModule) :
  check_mode m = true -> only_queries (calls (main m)).
Proof.
  intros Hcheck. unfold main.
  destruct (init m) as [nmcli | e] eqn:Einit; [| constructor].
  assert (Hm : module nmcli = m).
  { unfold init in Einit. destruct (extra_options_validation (params m));
      [| discriminate]. cbn [res_bind] in Einit. apply Ok_inj in Einit.
    now subst nmcli. }
  change (only_queries (history (snd (main_body (start nmcli))))).
  assert (Q : quiet_from (start nmcli) main_body).
  { unfold main_body. apply quiet_from_get_self.
    apply quiet_from_bind; [apply quiet_check_for_issues |].
    intros [] st' (Hmod & _). apply drive_check_mode.
    rewrite Hmod. cbn [start self]. now rewrite Hm. }
  destruct Q as (_ & ext & Hh & Hq).
  rewrite Hh. exact Hq.
Qed.

Lemma edit_query_is_unsaved (c : Cmd) (rest : list string) :
  mutating c = false -> tl (argv c) = "con" :: "edit" :: rest ->
  unsaved (data c) = true.
Proof.
  unfold mutating, kind_of. intros Hq Htl. rewrite Htl in Hq.
  cbn [list_eqb String.eqb Ascii.eqb Bool.eqb andb] in Hq.
  destruct rest as [| t [| x [| y rest]]]; try discriminate.
  destruct (String.eqb t "type"); cbn [andb] in Hq; [| discriminate].
  destruct (unsaved (data c)); [reflexivity | discriminate].
Qed.

(** C1, as the code has it.  In check mode every call the module makes to
    the external tool is a read-only one (the listing, the show command,
    the edit session that prints the supported properties): no create,
    modify, edit, delete, up, down or reload command is run, and every
    edit session among the calls is fed harmless commands only, so that
    it saves nothing.  Where
    a mutating action would follow, the driver exits instead and reports
    the would-be change: [changed=true] when the connection exists and the
    state is absent, up or down, when it is to be created, and when the
    change detector finds a difference; [changed=false] when the detector
    finds none. *)
Theorem check_mode_only_queries_and_reports :
  (forall m : AnsibleModule,
      check_mode m = true ->
      only_queries (calls (main m))
      /\ forall (cr : Cmd * Resp) (rest : list string),
           In cr (calls (main m)) ->
           tl (argv (fst cr)) = "con" :: "edit" :: rest ->
           unsaved (data (fst cr)) = true) /\
  (forall (st : State) (l : Locals),
      check_mode (module (self st)) = true ->
      (str_in (p_state (P (self st))) ["absent"; "up"; "down"] = true ->
       lists_name (conn_name (self st)) (answer st (listing_cmd (self st))) = true ->
       @drive Empty_set l st
       = (Exc (ExitJson true None), logged st (listing_cmd (self st)))) /\
      (p_state (P (self st)) = "present" ->
       lists_no_such_name (conn_name (self st))
         (answer st (listing_cmd (self st))) = true ->
       lists_no_such_name (conn_name (self st))
         (answer (logged st (listing_cmd (self st))) (listing_cmd (self st))) = true ->
       exists result : Result,
         @drive Empty_set l st
         = (Exc (ExitJson true (Some result)),
            logged (logged st (listing_cmd (self st))) (listing_cmd (self st)))) /\
      (p_state (P (self st)) = "present" ->
       lists_name (conn_name (self st)) (answer st (listing_cmd (self st))) = true ->
       forall (changed : bool) (diff : Diff) (st' : State),
         is_connection_changed (logged st (listing_cmd (self st)))
         = (Ok (changed, diff), st') ->
         exists result : Result,
           @drive Empty_set l st = (Exc (ExitJson changed (Some result)), st'))).
Proof.
  split.
  { intros m Hcheck. pose proof (main_check_mode m Hcheck) as Hq.
    split; [exact Hq |]. intros cr rest Hin Htl.
    apply (edit_query_is_unsaved (fst cr) rest); [| exact Htl].
    unfold only_queries in Hq. rewrite Forall_forall in Hq. now apply Hq. }
  intros st l Hcheck. split; [| split].
  - intros Hstate Hlist. apply str_in_In in Hstate.
    unfold drive, reconcile, bind, get_self, try_except.
    destruct Hstate as [E | [E | [E | []]]]; rewrite <- E;
      cbn [String.eqb Ascii.eqb Bool.eqb];
      unfold state_absent, state_up_down, bind, get_self;
      rewrite (connection_exists_listed st Hlist), Hcheck; reflexivity.
  - intros Hstate Hl1 Hl2.
    unfold drive, reconcile, bind, get_self, try_except.
    rewrite Hstate. cbn [String.eqb Ascii.eqb Bool.eqb].
    unfold state_present, bind, get_self.
    rewrite (connection_exists_not_listed st Hl1). unfold ret.
    rewrite (connection_exists_not_listed (logged st (listing_cmd (self st))) Hl2).
    cbn [negb]. rewrite Hcheck. eexists. reflexivity.
  - intros Hstate Hlist changed diff st' Hicc.
    unfold drive, reconcile, bind, get_self, try_except.
    rewrite Hstate. cbn [String.eqb Ascii.eqb Bool.eqb].
    unfold state_present, bind, get_self.
    rewrite (connection_exists_listed st Hlist), Hicc, Hcheck.
    destruct changed; eexists; reflexivity.
Qed.

Lemma check_mode_only_queries_and_reports_witness :
  only_queries (calls (main (ansible_module (default_params "eth0" "present") true
                                            (host "eth0" never_fails))))
  /\ (only_queries (calls (main (ansible_module (wifi_task "present") true wifi_host)))
      /\ kinds (calls (main (ansible_module (wifi_task "present") true wifi_host)))
         = [Probe; Probe; Listing; Listing]
      /\ finish (main (ansible_module (wifi_task "present") true wifi_host))
         = ExitJson true
             (Some {| r_conn_name := "wlan0"; r_state := "present"; r_diff := None;
                      r_Exists := None;
                      r_Connection :=
                        Some "Connection wlan0 of Type wifi is being added";
                      r_stdout := None; r_stderr := None |}))
  /\ @drive Empty_set
       (initial_locals (nmcli_of (ansible_module (default_params "eth0" "absent") true
                                                 (host "eth0" never_fails))))
       (start_of (default_params "eth0" "absent") true (host "eth0" never_fails))
     = (Exc (ExitJson true None),
        logged (start_of (default_params "eth0" "absent") true (host "eth0" never_fails))
               (plain ["/usr/bin/nmcli"; "--fields"; "name"; "--terse"; "con"; "show"])).
Proof.
  split; [| split].
  - apply (proj1 check_mode_only_queries_and_reports). reflexivity.
  - split; [apply (proj1 check_mode_only_queries_and_reports); reflexivity |].
    split; vm_compute; reflexivity.
  - apply (proj1 (proj2 check_mode_only_queries_and_reports
                    (start_of (default_params "eth0" "absent") true
                              (host "eth0" never_fails))
                    _ eq_refl)); reflexivity.
Defined.

(** The claim C1 as the specification words it fails in its last part: in
    check mode the driver does call the external tool, to list the
    connections and to show the one it compares. *)
Lemma check_mode_counterexample :
  check_mode (ansible_module (default_params "eth0" "present") true
                             (host "eth0" never_fails)) = true
  /\ argvs (calls (main (ansible_module (default_params "eth0" "present") true
                                        (host "eth0" never_fails))))
     = [["/usr/bin/nmcli"; "--fields"; "name"; "--terse"; "con"; "show"];
        ["/usr/bin/nmcli"; "--show-secrets"; "con"; "show"; "eth0"];
        ["/usr/bin/nmcli"; "--show-secrets"; "con"; "show"; "eth0"]]
  /\ calls (main (ansible_module (default_params "eth0" "present") true
                                 (host "eth0" never_fails))) <> [].
Proof.
  split; [reflexivity |]. split; [vm_compute; reflexivity |].
  vm_compute. discriminate.
Qed.

(** ** The exit code that decides *)

Lemma state_present_split (l : Locals) (st : State) :
  state_present l st
  = (exists_ <- connection_exists ;;
     l1 <- present_head (self st) l exists_ ;;
     present_tail (self st) l1) st.
Proof. reflexivity. Qed.

Lemma verdict_from_app (v : option Resp) (a b : History) :
  verdict_from v (a ++ b) = verdict_from (verdict_from v a) b.
Proof. apply fold_left_app. Qed.

Lemma verdict_from_queries (ext : History) :
  only_queries ext -> verdict_from None ext = None.
Proof.
  induction 1 as [| cr ext Hq _ IH]; [reflexivity |].
  cbn [verdict_from fold_left]. unfold step_verdict at 2. rewrite Hq.
  destruct (rc_of (snd cr) =? 0)%Z; exact IH.
Qed.

Lemma verdict_from_successful (v : option Resp) (ext : History) :
  Forall successful_query ext -> verdict_from v ext = v.
Proof.
  induction 1 as [| cr ext [Hq Hrc] _ IH]; [reflexivity |].
  cbn [verdict_from fold_left]. unfold step_verdict at 2.
  rewrite Hq, Hrc. exact IH.
Qed.

(** The deciding answer is that of the last mutating command, when every
    call after it is a read-only one that succeeded. *)
Lemma verdict_of_last_mutating (pre post : History) (c : Cmd) (r : Resp) :
  mutating c = true -> Forall successful_query post ->
  verdict_from None (pre ++ (c, r) :: post) = Some r.
Proof.
  intros Hm Hpost. rewrite verdict_from_app.
  cbn [verdict_from fold_left]. unfold step_verdict at 2. cbn [fst snd].
  rewrite Hm. now apply verdict_from_successful.
Qed.

Lemma tracked_refl (v : option Resp) (st : State) : tracked v st v st.
Proof.
  split; [reflexivity |]. exists []. split; [now rewrite app_nil_r | reflexivity].
Qed.

Lemma tracked_trans (v1 v2 v3 : option Resp) (st1 st2 st3 : State) :
  tracked v1 st1 v2 st2 -> tracked v2 st2 v3 st3 -> tracked v1 st1 v3 st3.
Proof.
  intros (M1 & e1 & H1 & V1) (M2 & e2 & H2 & V2). split; [congruence |].
  exists (e1 ++ e2)%list. split.
  - now rewrite H2, H1, app_assoc.
  - now rewrite verdict_from_app, <- V1.
Qed.

Lemma tracked_quietly (st st' : State) :
  quietly st st' -> tracked None st None st'.
Proof.
  intros (Hm & ext & Hh & Hq). split; [exact Hm |].
  exists ext. split; [exact Hh | now rewrite verdict_from_queries].
Qed.

Lemma tracked_logged_mutating (v : option Resp) (st : State) (c : Cmd) :
  mutating c = true -> tracked v st (Some (answer st c)) (logged st c).
Proof.
  intros Hm. split; [reflexivity |]. eexists. split; [reflexivity |].
  cbn [verdict_from fold_left]. unfold step_verdict. cbn [fst snd]. now rewrite Hm.
Qed.

Lemma tracked_warned (v : option Resp) (st : State) (w : list string) :
  tracked v st v {| self := self st; history := history st;
                    warnings := (warnings st ++ w)%list |}.
Proof.
  split; [reflexivity |]. exists []. split; [cbn; now rewrite app_nil_r | reflexivity].
Qed.

Lemma connection_exists_tracked (v : option Resp) (st : State) :
  match connection_exists st with
  | (Ok _, st') => tracked v st v st' /\ self st' = self st
  | (Exc _, st') => tracked v st None st'
  end.
Proof.
  rewrite connection_exists_run.
  destruct (rc_of (answer st (listing_cmd (self st))) =? 0)%Z eqn:E; cbn [negb].
  - split; [| reflexivity]. split; [reflexivity |].
    eexists. split; [reflexivity |].
    cbn [verdict_from fold_left]. unfold step_verdict. cbn [fst snd].
    now rewrite E.
  - split; [reflexivity |]. eexists. split; [reflexivity |].
    cbn [verdict_from fold_left]. unfold step_verdict. cbn [fst snd].
    now rewrite E.
Qed.

Lemma secured_tracked (v : option Resp) (st : State) (nmcli_command : string)
    (w : list string) (more : dict pyval) :
  nmcli_command = "create" \/ nmcli_command = "modify" ->
  tracked v st (Some (secured_answer st nmcli_command w more))
          (secured st nmcli_command w more).
Proof.
  intros Hcmd.
  assert (Hup : tracked v st (Some (update_answer st nmcli_command w more))
                        (updated st nmcli_command w more)).
  { eapply tracked_trans; [apply (tracked_warned v st w) |].
    split; [reflexivity |]. eexists. split; [reflexivity |].
    cbn [verdict_from fold_left]. unfold step_verdict. cbn [fst snd].
    unfold mutating. rewrite kind_of_update_cmd.
    destruct Hcmd as [-> | ->]; reflexivity. }
  unfold secured, secured_answer.
  destruct (secrets_follow st nmcli_command w more); [| exact Hup].
  eapply tracked_trans; [exact Hup |].
  apply tracked_logged_mutating. reflexivity.
Qed.

Lemma ip_options_edit_commands (s : Nmcli) (edits : list string)
    (options : dict pyval) :
  ip_options (set_edit_commands s edits) options = ip_options s options.
Proof. reflexivity. Qed.

Lemma type_options_edit_commands (s : Nmcli) (edits : list string)
    (options : dict pyval) :
  type_options (set_edit_commands s edits) options = type_options s options.
Proof. reflexivity. Qed.

Lemma convert_options_edit_commands (s : Nmcli) (edits : list string) (d : bool)
    (options : dict pyval) :
  convert_options (set_edit_commands s edits) d options = convert_options s d options.
Proof. reflexivity. Qed.

(** The edit commands gathered so far have no part in the option table. *)
Lemma connection_options_edit_commands (s : Nmcli) (edits : list string) (d : bool) :
  connection_options (set_edit_commands s edits) d = connection_options s d.
Proof.
  unfold connection_options. cbv zeta.
  rewrite !ip_options_edit_commands.
  change (P (set_edit_commands s edits)) with (P s).
  change (ip_conn_type (set_edit_commands s edits)) with (ip_conn_type s).
  change (type_is (set_edit_commands s edits)) with (type_is s).
  change (mac_setting (set_edit_commands s edits)) with (mac_setting s).
  change (mtu_setting (set_edit_commands s edits)) with (mtu_setting s).
  change (mtu_conn_type (set_edit_commands s edits)) with (mtu_conn_type s).
  change (slave_conn_type (set_edit_commands s edits)) with (slave_conn_type s).
  change (mtu (set_edit_commands s edits)) with (mtu s).
  match goal with |- context [match ?x with Ok _ => _ | Exc _ => _ end] =>
    destruct x as [options1 | e] end; [| reflexivity].
  rewrite type_options_edit_commands.
  match goal with |- context [type_options s ?o] =>
    destruct (type_options s o) as [w [options5 | e]] end; [| reflexivity].
  rewrite !convert_options_edit_commands. reflexivity.
Qed.

Lemma self_secured (st : State) (nmcli_command : string) (w : list string)
    (more : dict pyval) :
  self (secured st nmcli_command w more)
  = set_edit_commands (self st) (update_edits (self st) nmcli_command more).
Proof. unfold secured. destruct (secrets_follow _ _ _ _); reflexivity. Qed.

Lemma rc_failed_assign (l : Locals) (r : Resp) :
  rc_failed (rc (assign l r)) = negb (Z.eqb (rc_of r) 0).
Proof. reflexivity. Qed.

Ltac outcome H := apply pair_equal_spec in H; destruct H as [<- <-].

Lemma present_head_spec (self0 : Nmcli) (l : Locals) (b : bool) (st1 : State)
    (out : res Locals) (st' : State) :
  check_mode (module self0) = false -> rc l = None ->
  present_head self0 l b st1 = (out, st') ->
  exists vA : option Resp,
    tracked None st1 vA st'
    /\ match out with
       | Ok lA => coherent vA lA st'
       | Exc _ => vA = None
       end.
Proof.
  intros Hcheck Hrc H. unfold present_head in H.
  destruct b;
    [| outcome H; exists None; split; [apply tracked_refl | exact Hrc]].
  unfold bind at 1 in H.
  pose proof (quiet_is_connection_changed st1) as Q. unfold quiet_from in Q.
  destruct (is_connection_changed st1) as [[[changed diff] | e] st2]; cbn [snd] in Q;
    apply tracked_quietly in Q;
    [| outcome H; exists None; split; [exact Q | reflexivity]].
  rewrite Hcheck in H.
  set (l1 := if _diff (module self0) then set_result l (with_diff (result l) diff)
             else l) in H.
  assert (Hrc1 : rc l1 = None) by (subst l1; destruct (_diff (module self0)); exact Hrc).
  destruct changed;
    [| outcome H; exists None; split; [exact Q | exact Hrc1]].
  unfold bind at 1 in H. cbn [ret] in H. unfold bind at 1 in H.
  destruct (connection_options (self st2) false) as [w [more | e]] eqn:Hopt.
  - rewrite (modify_connection_run st2 w more Hopt) in H.
    assert (Hsec := secured_tracked None st2 "modify" w more (or_intror eq_refl)).
    assert (Hopt' : connection_options (self (secured st2 "modify" w more)) false
                    = (w, Ok more)).
    { rewrite self_secured, connection_options_edit_commands. exact Hopt. }
    destruct (p_conn_reload (P self0)).
    + unfold bind in H. rewrite reload_connection_run in H. cbn [ret] in H.
      outcome H. eexists. split.
      * eapply tracked_trans; [exact Q |].
        eapply tracked_trans; [exact Hsec |].
        apply tracked_logged_mutating. reflexivity.
      * cbn [coherent]. split; [reflexivity |]. split; [reflexivity |].
        exists w, more. exact Hopt'.
    + cbn [ret] in H. outcome H. eexists. split.
      * eapply tracked_trans; [exact Q | exact Hsec].
      * cbn [coherent]. split; [reflexivity |]. split; [reflexivity |].
        exists w, more. exact Hopt'.
  - rewrite (modify_connection_raises st2 w e Hopt) in H. outcome H.
    exists None. split; [| reflexivity].
    eapply tracked_trans; [exact Q | apply tracked_warned].
Qed.

Lemma agrees_checked (name : string) (l : Locals) (r : Resp) (st : State)
    (out : res Locals) (st' : State) :
  (if rc_failed (rc (assign l r))
   then fail_json (err (assign l r)) (Some name) (rc (assign l r))
   else ret (assign l r)) st = (out, st') ->
  st' = st /\ agrees (Some r) out.
Proof.
  rewrite rc_failed_assign.
  destruct (rc_of r =? 0)%Z eqn:E; cbn [negb fail_json raise ret]; intros H;
    outcome H; (split; [reflexivity |]); cbn [agrees].
  - intros r' Hr'. injection Hr' as <-. now apply Z.eqb_eq.
  - intros r' Hr' _. injection Hr' as <-. eexists. reflexivity.
Qed.

Lemma present_tail_spec (self0 : Nmcli) (lA : Locals) (stA : State)
    (vA : option Resp) (out : res Locals) (st' : State) :
  check_mode (module self0) = false -> coherent vA lA stA ->
  present_tail self0 lA stA = (out, st') ->
  exists v' : option Resp, tracked vA stA v' st' /\ agrees v' out.
Proof.
  intros Hcheck Hco H. unfold present_tail in H. unfold bind at 1 in H.
  pose proof (connection_exists_tracked vA stA) as Hex.
  destruct (connection_exists stA) as [[b | e] stB];
    [| outcome H; exists None; split; [exact Hex | intros r Hr; discriminate]].
  destruct Hex as [Ht Hself]. destruct b; cbn [negb] in H.
  - unfold bind at 1 in H. cbn [ret] in H.
    exists vA.
    destruct (rc_failed (rc lA)) eqn:Hf; cbn [fail_json raise ret] in H; outcome H;
      (split; [exact Ht |]); cbn [agrees].
    + intros r Hr _. subst vA. destruct Hco as (Hrc & Herr & _).
      rewrite Hrc, Herr. eexists. reflexivity.
    + intros r Hr. subst vA. destruct Hco as (Hrc & _).
      rewrite Hrc in Hf. cbn [rc_failed] in Hf.
      apply negb_false_iff in Hf. now apply Z.eqb_eq.
  - unfold bind at 1 in H. unfold bind at 1 in H. cbn [get_self] in H.
    rewrite Hcheck in H.
    unfold bind at 1 in H. cbn [ret] in H. unfold bind at 1 in H.
    destruct (connection_options (self stB) false) as [w [more | e]] eqn:Hopt.
    + rewrite (create_connection_run stB w more Hopt) in H.
      assert (Hsec := secured_tracked vA stB "create" w more (or_introl eq_refl)).
      destruct (create_connection_up (self stB));
        apply agrees_checked in H; destruct H as [-> Hag];
        eexists; (split; [| exact Hag]).
      * eapply tracked_trans; [exact Ht |].
        eapply tracked_trans; [exact Hsec |].
        apply tracked_logged_mutating. reflexivity.
      * eapply tracked_trans; [exact Ht | exact Hsec].
    + rewrite (create_connection_raises stB w e Hopt) in H. outcome H.
      exists vA. split.
      * eapply tracked_trans; [exact Ht | apply tracked_warned].
      * cbn [agrees]. intros r Hr _. subst vA.
        destruct Hco as (_ & _ & w' & more' & Hopt').
        rewrite <- Hself, Hopt in Hopt'. discriminate.
Qed.

Lemma agrees_none (out : res Locals) : agrees None out.
Proof. destruct out; cbn [agrees]; intros r Hr; discriminate. Qed.

Lemma state_present_spec (l : Locals) (st : State) (out : res Locals) (st' : State) :
  check_mode (module (self st)) = false -> rc l = None ->
  state_present l st = (out, st') ->
  exists v : option Resp, tracked None st v st' /\ agrees v out.
Proof.
  intros Hcheck Hrc H. rewrite state_present_split in H. unfold bind at 1 in H.
  pose proof (connection_exists_tracked None st) as Hex.
  destruct (connection_exists st) as [[b | e] st1];
    [| outcome H; exists None; split; [exact Hex | apply agrees_none]].
  destruct Hex as [Ht1 _]. unfold bind at 1 in H.
  destruct (present_head (self st) l b st1) as [o1 stA] eqn:Hh.
  apply (present_head_spec _ _ _ _ _ _ Hcheck Hrc) in Hh.
  destruct Hh as (vA & HtA & HcoA).
  destruct o1 as [lA | e].
  - destruct (present_tail_spec _ _ _ _ _ _ Hcheck HcoA H) as (v' & Ht' & Hag).
    exists v'. split; [| exact Hag].
    eapply tracked_trans; [exact Ht1 |].
    eapply tracked_trans; [exact HtA | exact Ht'].
  - outcome H. subst vA. exists None. split; [| apply agrees_none].
    eapply tracked_trans; [exact Ht1 | exact HtA].
Qed.

Lemma state_absent_spec (l : Locals) (st : State) (out : res Locals) (st' : State) :
  check_mode (module (self st)) = false ->
  state_absent l st = (out, st') ->
  exists v : option Resp, tracked None st v st' /\ agrees v out.
Proof.
  intros Hcheck H. unfold state_absent in H. unfold bind at 1 in H.
  cbn [get_self] in H. unfold bind at 1 in H.
  pose proof (connection_exists_tracked None st) as Hex.
  destruct (connection_exists st) as [[b | e] st1];
    [| outcome H; exists None; split; [exact Hex | apply agrees_none]].
  destruct Hex as [Ht1 _].
  destruct b; [| outcome H; exists None; split; [exact Ht1 | apply agrees_none]].
  rewrite Hcheck in H. unfold bind at 1 in H. cbn [ret] in H.
  unfold bind at 1 in H. rewrite down_connection_run in H.
  unfold bind at 1 in H. rewrite remove_connection_run in H.
  apply agrees_checked in H. destruct H as [-> Hag].
  eexists. split; [| exact Hag].
  eapply tracked_trans; [exact Ht1 |].
  eapply tracked_trans; [| apply tracked_logged_mutating; reflexivity].
  apply tracked_logged_mutating. reflexivity.
Qed.

Lemma state_up_down_spec (action : M Resp) (c : Nmcli -> Cmd) (l : Locals)
    (st : State) (out : res Locals) (st' : State) :
  (forall s : State, action s = (Ok (answer s (c (self s))), logged s (c (self s)))) ->
  (forall s : Nmcli, mutating (c s) = true) ->
  check_mode (module (self st)) = false ->
  state_up_down action l st = (out, st') ->
  exists v : option Resp, tracked None st v st' /\ agrees v out.
Proof.
  intros Hact Hmut Hcheck H. unfold state_up_down in H. unfold bind at 1 in H.
  cbn [get_self] in H. unfold bind at 1 in H.
  pose proof (connection_exists_tracked None st) as Hex.
  destruct (connection_exists st) as [[b | e] st1];
    [| outcome H; exists None; split; [exact Hex | apply agrees_none]].
  destruct Hex as [Ht1 _].
  destruct b; [| outcome H; exists None; split; [exact Ht1 | apply agrees_none]].
  rewrite Hcheck in H. unfold bind at 1 in H. cbn [ret] in H.
  unfold bind at 1 in H.
  destruct (p_conn_reload (P (self st))).
  - unfold bind at 1 in H. rewrite reload_connection_run in H. cbn [ret] in H.
    unfold bind at 1 in H. rewrite Hact in H.
    apply agrees_checked in H. destruct H as [-> Hag].
    eexists. split; [| exact Hag].
    eapply tracked_trans; [exact Ht1 |].
    eapply tracked_trans; [| apply tracked_logged_mutating; apply Hmut].
    apply tracked_logged_mutating. reflexivity.
  - cbn [ret] in H. unfold bind at 1 in H. rewrite Hact in H.
    apply agrees_checked in H. destruct H as [-> Hag].
    eexists. split; [| exact Hag].
    eapply tracked_trans; [exact Ht1 |].
    apply tracked_logged_mutating. apply Hmut.
Qed.

Lemma reconcile_spec (l : Locals) (st : State) (out : res Locals) (st' : State) :
  check_mode (module (self st)) = false -> rc l = None ->
  reconcile l st = (out, st') ->
  exists v : option Resp, tracked None st v st' /\ agrees v out.
Proof.
  intros Hcheck Hrc H. unfold reconcile in H. unfold bind at 1 in H.
  cbn [get_self] in H. unfold try_except in H.
  match type of H with
  | context [match ?body st with _ => _ end] =>
      destruct (body st) as [o1 st1] eqn:Hbody
  end.
  assert (Hspec : exists v : option Resp, tracked None st v st1 /\ agrees v o1).
  { revert Hbody.
    repeat match goal with |- context [if ?b then _ else _] => destruct b end;
      intros Hbody.
    - now apply (state_absent_spec l st).
    - now apply (state_present_spec l st).
    - apply (state_up_down_spec up_connection up_cmd l st);
        [intros s; apply up_connection_run | reflexivity | exact Hcheck | exact Hbody].
    - apply (state_up_down_spec down_connection down_cmd l st);
        [intros s; apply down_connection_run | reflexivity | exact Hcheck | exact Hbody].
    - unfold ret in Hbody. outcome Hbody. exists None.
      split; [apply tracked_refl | apply agrees_none]. }
  destruct Hspec as (v & Ht & Hag). exists v.
  destruct o1 as [l1 | []]; try (outcome H; split; assumption).
  unfold fail_json, raise in H. outcome H. split; [exact Ht |].
  cbn [agrees] in *. intros r Hr Hne.
  destruct (Hag r Hr Hne) as (name & Hname). discriminate.
Qed.

(** C2, as the code has it.  Outside check mode the exit code that is
    checked is the one of the last mutating command the driver ran: when
    that command returned a nonzero exit code and every call made after it
    is a read-only one that succeeded, the run ends as a failure that
    carries the exit code and the standard error of that command. *)
Theorem failing_last_command_is_fatal :
  forall (st : State) (l : Locals),
    check_mode (module (self st)) = false ->
    rc l = None ->
    forall (pre post : History) (c : Cmd) (r : Resp),
      history (snd (@drive Empty_set l st))
      = (history st ++ pre ++ (c, r) :: post)%list ->
      mutating c = true ->
      rc_of r <> 0%Z ->
      Forall successful_query post ->
      exists name : string,
        fst (@drive Empty_set l st)
        = Exc (FailJson (err_of r) (Some name) (Some (rc_of r))).
Proof.
  intros st l Hcheck Hrc pre post c r Hh Hmut Hne Hpost.
  unfold drive, bind in *.
  destruct (reconcile l st) as [o1 st1] eqn:Hrec.
  destruct (reconcile_spec l st o1 st1 Hcheck Hrc Hrec)
    as (v & (_ & ext & Hext & Hv) & Hag).
  assert (Hhist : history st1 = (history st ++ pre ++ (c, r) :: post)%list).
  { destruct o1; exact Hh. }
  rewrite Hext in Hhist. apply app_inv_head in Hhist. subst ext.
  rewrite (verdict_of_last_mutating pre post c r Hmut Hpost) in Hv. subst v.
  destruct o1 as [l1 | e]; cbn [agrees fst] in *.
  - exfalso. apply Hne. now apply Hag.
  - destruct (Hag r eq_refl Hne) as (name & ->). exists name. reflexivity.
Qed.

Lemma failing_last_command_is_fatal_witness :
  exists name : string,
    fst (@drive Empty_set
           (initial_locals (nmcli_of (ansible_module (default_params "eth0" "absent")
                                                     false (host "eth0" delete_fails))))
           (start_of (default_params "eth0" "absent") false (host "eth0" delete_fails)))
    = Exc (FailJson "Error: Connection deletion failed" (Some name) (Some 6%Z)).
Proof.
  apply (failing_last_command_is_fatal
           (start_of (default_params "eth0" "absent") false (host "eth0" delete_fails))
           (initial_locals (nmcli_of (ansible_module (default_params "eth0" "absent")
                                                     false (host "eth0" delete_fails))))
           eq_refl eq_refl
           [(plain ["/usr/bin/nmcli"; "--fields"; "name"; "--terse"; "con"; "show"],
             (0%Z, "eth0", ""));
            (plain ["/usr/bin/nmcli"; "con"; "down"; "eth0"], (0%Z, "", ""))]
           []
           (plain ["/usr/bin/nmcli"; "con"; "del"; "eth0"])
           (6%Z, "", "Error: Connection deletion failed")).
  - vm_compute. reflexivity.
  - reflexivity.
  - vm_compute. discriminate.
  - constructor.
Defined.

(** The claim C2 as the specification words it fails: with [state=absent]
    the down command returns a nonzero exit code, the delete command is
    run all the same, and the run ends as a success. *)
Lemma failing_command_counterexample :
  kinds (calls (main (ansible_module (default_params "eth0" "absent") false
                                     (host "eth0" down_fails))))
  = [Listing; Down; Delete]
  /\ map (fun cr => rc_of (snd cr))
         (calls (main (ansible_module (default_params "eth0" "absent") false
                                      (host "eth0" down_fails))))
     = [0%Z; 10%Z; 0%Z]
  /\ exists result : Result,
       finish (main (ansible_module (default_params "eth0" "absent") false
                                    (host "eth0" down_fails)))
       = ExitJson true (Some result).
Proof.
  split; [vm_compute; reflexivity |]. split; [vm_compute; reflexivity |].
  eexists. vm_compute. reflexivity.
Qed.

(** ** The mapping of the observed connection *)

Lemma show_connection_run (st : State) :
  show_connection st
  = (if negb (Z.eqb (rc_of (answer st (show_cmd (self st)))) 0)
     then Exc (NmcliModuleError (err_of (answer st (show_cmd (self st)))))
     else Ok (parse_show_output (out_of (answer st (show_cmd (self st))))),
     logged st (show_cmd (self st))).
Proof.
  unfold show_connection, bind, get_self.
  rewrite execute_command_run. fold (plain [nmcli_bin (self st); "--show-secrets"; "con";
                                            "show"; conn_name (self st)]).
  fold (show_cmd (self st)). unfold rc_of, err_of, out_of.
  destruct (answer st (show_cmd (self st))) as [[rc0 out0] err0].
  cbn [fst snd]. destruct (negb (rc0 =? 0)%Z); reflexivity.
Qed.

Lemma line_parts (line : string) :
  Py.split1 ":" line = (fst (Py.split1 ":" line), snd (Py.split1 ":" line)).
Proof. now destruct (Py.split1 ":" line). Qed.

Lemma fold_add_bond_alias_other (k : string) (opts : list string)
    (conn_info : dict pyval) :
  ~ In k (flat_map alias_name opts) ->
  dict_get k (fold_left add_bond_alias opts conn_info) = dict_get k conn_info.
Proof.
  revert conn_info. induction opts as [| opt opts IH]; intros conn_info H;
    [reflexivity |].
  cbn [fold_left flat_map] in *.
  rewrite IH by (intros Hin; apply H, in_or_app; now right).
  unfold add_bond_alias. unfold alias_name in H.
  destruct (Py.split1 "=" opt) as [a [v |]]; [| reflexivity].
  apply dict_get_set_other. intros ->. apply H. now left.
Qed.

(** A line leaves the keys it does not store as they are. *)
Lemma parse_line_other (k : string) (conn_info : dict pyval) (line : string) :
  ~ In k (writes line) ->
  dict_get k (parse_line conn_info line) = dict_get k conn_info.
Proof.
  unfold writes, alias_names, line_value, line_key, parse_line.
  destruct (snd (Py.split1 ":" line)) as [rest |]; [| reflexivity].
  set (key := Py.strip (fst (Py.split1 ":" line))).
  destruct (String.eqb key ""); cbn [negb]; [reflexivity |].
  destruct (String.eqb (Py.lstrip rest) "--") eqn:Em.
  - intros H. assert (Hk : k <> key) by (intros ->; apply H; now left).
    destruct (is_TList (settings_type key)); now apply dict_get_set_other.
  - destruct (String.eqb key "bond.options"); cbn [andb negb].
    + apply fold_add_bond_alias_other.
    + intros H. assert (Hk : k <> key) by (intros ->; apply H; now left).
      repeat match goal with |- context [if ?b then _ else _] => destruct b end;
        now apply dict_get_set_other.
Qed.

Lemma parse_lines_other (k : string) (lines : list string) :
  forall conn_info : dict pyval,
    (forall line : string, In line lines -> ~ In k (writes line)) ->
    dict_get k (fold_left parse_line lines conn_info) = dict_get k conn_info.
Proof.
  induction lines as [| line lines IH]; intros conn_info H; [reflexivity |].
  cbn [fold_left]. rewrite IH by (intros later Hin; apply H; now right).
  apply parse_line_other. apply H. now left.
Qed.

(** A line keeps a list-typed setting a list, unless it is a line of
    [bond.options] with an option of that name. *)
Lemma parse_line_keeps_list (k : string) (conn_info : dict pyval) (line : string) :
  settings_type k = TList ->
  ~ In k (alias_names line) ->
  (dict_get k conn_info = None \/ exists l, dict_get k conn_info = Some (VList l)) ->
  dict_get k (parse_line conn_info line) = None
  \/ exists l, dict_get k (parse_line conn_info line) = Some (VList l).
Proof.
  intros Hlist Halias Hinv.
  destruct (in_dec string_dec k (writes line)) as [Hin | Hout];
    [| now rewrite (parse_line_other k conn_info line Hout)].
  right. unfold writes, line_value in Hin.
  destruct (snd (Py.split1 ":" line)) as [rest |] eqn:Es; [| contradiction].
  assert (Hsplit : Py.split1 ":" line = (fst (Py.split1 ":" line), Some rest))
    by (rewrite <- Es; apply line_parts).
  unfold line_key in *.
  destruct (String.eqb (Py.strip (fst (Py.split1 ":" line))) "") eqn:Ek;
    [contradiction |].
  assert (Hkey : Py.strip (fst (Py.split1 ":" line)) <> "")
    by (intros E; rewrite E in Ek; discriminate).
  assert (Hown : k = Py.strip (fst (Py.split1 ":" line)) ->
                 exists l, dict_get k (parse_line conn_info line) = Some (VList l)).
  { intros ->. apply (parse_line_list_typed conn_info line _ rest Hsplit Hkey Hlist). }
  destruct (String.eqb (Py.lstrip rest) "--").
  - destruct Hin as [<- | []]. now apply Hown.
  - destruct (String.eqb (Py.strip (fst (Py.split1 ":" line))) "bond.options").
    + contradiction.
    + destruct Hin as [<- | []]. now apply Hown.
Qed.

Lemma parse_lines_keep_list (k : string) (lines : list string) :
  settings_type k = TList ->
  forall conn_info : dict pyval,
    (forall line : string, In line lines -> ~ In k (alias_names line)) ->
    (dict_get k conn_info = None \/ exists l, dict_get k conn_info = Some (VList l)) ->
    dict_get k (fold_left parse_line lines conn_info) = None
    \/ exists l, dict_get k (fold_left parse_line lines conn_info) = Some (VList l).
Proof.
  intros Hlist. induction lines as [| line lines IH]; intros conn_info H Hinv;
    [exact Hinv |].
  cbn [fold_left]. apply IH; [intros later Hin; apply H; now right |].
  apply parse_line_keeps_list; [exact Hlist | apply H; now left | exact Hinv].
Qed.

(** C10, as the code has it.  When the show command succeeds,
    [show_connection] returns the mapping read off the lines of its
    output, and in this mapping:
    - a key whose line (with a key that is not empty) shows the empty
      marker [--] holds the empty list when its setting type is list and
      [None] when it is of any other type, provided no later line stores
      a value under the same key;
    - a list-typed setting holds a list when it is there at all, so
      never the text [--], provided no line of [bond.options] carries an
      option of that name (such an option is stored as text under its
      own name, whatever the name is). *)
Theorem show_connection_empty_marker :
  forall st : State,
    rc_of (answer st (show_cmd (self st))) = 0%Z ->
    exists conn_info : dict pyval,
      fst (show_connection st) = Ok conn_info
      /\ (forall (pre post : list string) (line : string),
            Py.splitlines (out_of (answer st (show_cmd (self st))))
            = (pre ++ line :: post)%list ->
            line_key line <> "" ->
            line_value line = Some "--" ->
            (forall later : string, In later post -> ~ In (line_key line) (writes later)) ->
            dict_get (line_key line) conn_info
            = Some (match settings_type (line_key line) with
                    | TList => VList []
                    | _ => VNone
                    end))
      /\ (forall k : string,
            settings_type k = TList ->
            (forall line : string,
                In line (Py.splitlines (out_of (answer st (show_cmd (self st))))) ->
                ~ In k (alias_names line)) ->
            dict_get k conn_info <> Some (VStr "--")
            /\ (dict_get k conn_info = None
                \/ exists l : list string, dict_get k conn_info = Some (VList l))).
Proof.
  intros st Hrc. rewrite show_connection_run, Hrc. cbn [Z.eqb negb fst].
  eexists. split; [reflexivity |]. unfold parse_show_output. split.
  - intros pre post line Hlines Hkey Hvalue Hlater. rewrite Hlines.
    rewrite fold_left_app. cbn [fold_left].
    rewrite (parse_lines_other _ post _ Hlater).
    unfold line_value in Hvalue. unfold line_key in *.
    destruct (snd (Py.split1 ":" line)) as [rest |] eqn:Es; [| discriminate].
    assert (Hsplit : Py.split1 ":" line = (fst (Py.split1 ":" line), Some rest))
      by (rewrite <- Es; apply line_parts).
    apply (parse_line_empty_marker _ line _ rest Hsplit Hkey). congruence.
  - intros k Hlist Halias.
    assert (H : dict_get k (fold_left parse_line
                              (Py.splitlines (out_of (answer st (show_cmd (self st)))))
                              [])
                = None
                \/ exists l, dict_get k (fold_left parse_line
                              (Py.splitlines (out_of (answer st (show_cmd (self st)))))
                              [])
                             = Some (VList l)).
    { apply parse_lines_keep_list; [exact Hlist | exact Halias | now left]. }
    split; [| exact H].
    destruct H as [-> | [l ->]]; discriminate.
Qed.

Lemma show_connection_empty_marker_witness :
  exists conn_info : dict pyval,
    fst (show_connection
           (start_of (default_params "eth0" "present") false
              (host_showing "eth0"
                 ("ipv4.dns:      --" ++ newline ++ "ipv4.gateway:  --"))))
    = Ok conn_info
    /\ dict_get "ipv4.dns" conn_info = Some (VList [])
    /\ dict_get "ipv4.gateway" conn_info = Some VNone
    /\ dict_get "ipv4.dns" conn_info <> Some (VStr "--").
Proof.
  destruct (show_connection_empty_marker
              (start_of (default_params "eth0" "present") false
                 (host_showing "eth0"
                    ("ipv4.dns:      --" ++ newline ++ "ipv4.gateway:  --")))
              eq_refl) as (conn_info & Hrun & Hmark & Hlist).
  exists conn_info. split; [exact Hrun |]. split; [| split].
  - apply (Hmark [] ["ipv4.gateway:  --"] "ipv4.dns:      --" eq_refl);
      [discriminate | reflexivity |].
    intros later [<- | []]. vm_compute. intros [E | []]. discriminate.
  - apply (Hmark ["ipv4.dns:      --"] [] "ipv4.gateway:  --" eq_refl);
      [discriminate | reflexivity |].
    intros later [].
  - apply (Hlist "ipv4.dns" eq_refl).
    intros line [<- | [<- | []]]; vm_compute; intros [].
Defined.

(** The claim C10 as the specification words it fails in its last part:
    a line of [bond.options] stores each option as text under the name of
    the option, so an option named like a list-typed setting maps that
    setting to text, here to the text [--]. *)
Lemma show_connection_marker_counterexample :
  settings_type "ipv4.dns" = TList
  /\ Py.splitlines odd_bond_shown
     = ["ipv4.dns:                               --";
        "bond.options:                           mode=balance-rr,ipv4.dns=--"]
  /\ fst (show_connection
            (start_of (default_params "bond0" "present") false
                      (host_showing "bond0" odd_bond_shown)))
     = Ok [("ipv4.dns", VStr "--"); ("mode", VStr "balance-rr")].
Proof. vm_compute. repeat split. Qed.

(* ------------------------------------------------------------------ *)
(** * Further properties of the module *)
(* ------------------------------------------------------------------ *)

(** ** The state machine on the remaining paths *)

(** X1. With [state=up] or [state=down], when the listing succeeds and
    does not show the connection, the only call is that listing and the
    run ends with [changed=false]: nothing is brought up or down, and the
    missing connection is no error. *)
Theorem up_down_missing_connection_is_untouched :
  forall (st : State) (l : Locals),
    str_in (p_state (P (self st))) ["up"; "down"] = true ->
    rc l = None ->
    lists_no_such_name (conn_name (self st)) (answer st (listing_cmd (self st))) = true ->
    history (snd (@drive Empty_set l st))
    = (history st ++ [(listing_cmd (self st), answer st (listing_cmd (self st)))])%list
    /\ exists result : Result,
         fst (@drive Empty_set l st) = Exc (ExitJson false (Some result)).
Proof.
  intros st l Hstate Hrc Hlist. apply str_in_In in Hstate.
  unfold drive, reconcile, bind, get_self, try_except.
  destruct Hstate as [E | [E | []]]; rewrite <- E;
    cbn [String.eqb Ascii.eqb Bool.eqb];
    unfold state_up_down, bind, get_self;
    rewrite (connection_exists_not_listed st Hlist);
    unfold ret, report, exit_json, raise; rewrite Hrc;
    (split; [reflexivity | eexists; reflexivity]).
Qed.

Lemma up_down_missing_connection_is_untouched_witness :
  kinds (history (snd (@drive Empty_set
           (initial_locals (nmcli_of (ansible_module (default_params "eth0" "down")
                                                     false (host "lo" never_fails))))
           (start_of (default_params "eth0" "down") false (host "lo" never_fails)))))
  = [Listing].
Proof.
  rewrite (proj1 (up_down_missing_connection_is_untouched
                    (start_of (default_params "eth0" "down") false
                              (host "lo" never_fails))
                    (initial_locals (nmcli_of (ansible_module
                                                 (default_params "eth0" "down")
                                                 false (host "lo" never_fails))))
                    eq_refl eq_refl eq_refl)).
  reflexivity.
Defined.

(** X2. With [state=absent], outside check mode, when the listing shows
    the connection, the driver runs the listing, the down command and the
    delete command, in that order and nothing else.  The exit code of the
    down command is not looked at; the run ends with [changed=true] when
    the delete command succeeds and as a failure with its exit code and
    error text when it does not. *)
Theorem absent_downs_then_deletes :
  forall (st : State) (l : Locals),
    p_state (P (self st)) = "absent" ->
    check_mode (module (self st)) = false ->
    lists_name (conn_name (self st)) (answer st (listing_cmd (self st))) = true ->
    exists a0 a1 a2 : Resp,
      history (snd (@drive Empty_set l st))
      = (history st
         ++ [(listing_cmd (self st), a0);
             (down_cmd (self st), a1);
             (delete_cmd (self st), a2)])%list
      /\ (rc_of a2 = 0%Z ->
          exists result : Result,
            fst (@drive Empty_set l st) = Exc (ExitJson true (Some result)))
      /\ (rc_of a2 <> 0%Z ->
          fst (@drive Empty_set l st)
          = Exc (FailJson (err_of a2)
                          (Some (no_connection_named (conn_name (self st))))
                          (Some (rc_of a2)))).
Proof.
  intros st l Hstate Hcheck Hlist.
  exists (answer st (listing_cmd (self st))),
         (answer (logged st (listing_cmd (self st))) (down_cmd (self st))),
         (answer (logged (logged st (listing_cmd (self st))) (down_cmd (self st)))
                 (delete_cmd (self st))).
  rewrite <- history_logged3.
  unfold drive, reconcile, bind, get_self, try_except.
  rewrite Hstate. cbn [String.eqb Ascii.eqb Bool.eqb].
  unfold state_absent, bind, get_self.
  rewrite (connection_exists_listed st Hlist), Hcheck.
  unfold ret. rewrite down_connection_run, remove_connection_run.
  cbn [logged self]. rewrite rc_failed_assign.
  set (a2 := answer _ (delete_cmd (self st))).
  destruct (rc_of a2 =? 0)%Z eqn:E; cbn [negb].
  - split; [reflexivity |]. split.
    + intros _. eexists. reflexivity.
    + intros Hne. apply Z.eqb_eq in E. contradiction.
  - split; [reflexivity |]. split.
    + intros H0. rewrite H0 in E. discriminate.
    + intros _. reflexivity.
Qed.

Lemma absent_downs_then_deletes_witness :
  exists a0 a1 a2 : Resp,
    history (snd (@drive Empty_set
               (initial_locals (nmcli_of (ansible_module (default_params "eth0" "absent")
                                                         false (host "eth0" delete_fails))))
               (start_of (default_params "eth0" "absent") false
                         (host "eth0" delete_fails))))
    = [(plain ["/usr/bin/nmcli"; "--fields"; "name"; "--terse"; "con"; "show"], a0);
       (plain ["/usr/bin/nmcli"; "con"; "down"; "eth0"], a1);
       (plain ["/usr/bin/nmcli"; "con"; "del"; "eth0"], a2)].
Proof.
  destruct (absent_downs_then_deletes
              (start_of (default_params "eth0" "absent") false (host "eth0" delete_fails))
              (initial_locals (nmcli_of (ansible_module (default_params "eth0" "absent")
                                                        false (host "eth0" delete_fails))))
              eq_refl eq_refl eq_refl) as (a0 & a1 & a2 & Hh & _).
  exists a0, a1, a2. exact Hh.
Defined.

(** X3. A run with [state=present] is idempotent: outside check mode,
    when the listing shows the connection, the change detector finds no
    difference and the second listing still shows the connection, no
    mutating command is run (every call is a read-only one) and the run
    ends with [changed=false] and the note that no changes were made. *)
Theorem present_unchanged_runs_nothing :
  forall (st st2 : State) (l : Locals) (diff : Diff),
    p_state (P (self st)) = "present" ->
    check_mode (module (self st)) = false ->
    rc l = None ->
    lists_name (conn_name (self st)) (answer st (listing_cmd (self st))) = true ->
    is_connection_changed (logged st (listing_cmd (self st))) = (Ok (false, diff), st2) ->
    lists_name (conn_name (self st2)) (answer st2 (listing_cmd (self st2))) = true ->
    exists (ext : History) (result : Result),
      history (snd (@drive Empty_set l st)) = (history st ++ ext)%list
      /\ only_queries ext
      /\ fst (@drive Empty_set l st) = Exc (ExitJson false (Some result))
      /\ r_Exists result = Some "Connections already exist and no changes made".
Proof.
  intros st st2 l diff Hstate Hcheck Hrc Hl1 Hicc Hl2.
  assert (Q : quietly st (logged st2 (listing_cmd (self st2)))).
  { eapply quietly_trans.
    - pose proof (quiet_connection_exists st) as Q1. unfold quiet_from in Q1.
      rewrite (connection_exists_listed st Hl1) in Q1. exact Q1.
    - eapply quietly_trans.
      + pose proof (quiet_is_connection_changed (logged st (listing_cmd (self st)))) as Q2.
        unfold quiet_from in Q2. rewrite Hicc in Q2. exact Q2.
      + pose proof (quiet_connection_exists st2) as Q3. unfold quiet_from in Q3.
        rewrite (connection_exists_listed st2 Hl2) in Q3. exact Q3. }
  assert (Hrun : exists result : Result,
            @drive Empty_set l st
            = (Exc (ExitJson false (Some result)), logged st2 (listing_cmd (self st2)))
            /\ r_Exists result = Some "Connections already exist and no changes made").
  { unfold drive, reconcile, bind, get_self, try_except.
    rewrite Hstate. cbn [String.eqb Ascii.eqb Bool.eqb].
    unfold state_present, bind, get_self.
    rewrite (connection_exists_listed st Hl1), Hicc, Hcheck.
    unfold ret. rewrite (connection_exists_listed st2 Hl2). cbn [negb].
    destruct (_diff (module (self st))); cbn [set_result rc]; rewrite ?Hrc;
      cbn [rc_failed]; unfold report, exit_json, raise; cbn [set_result rc];
      rewrite ?Hrc; eexists; split; reflexivity. }
  destruct Q as (_ & ext & Hext & Hq).
  destruct Hrun as (result & Hrun & Hnote).
  exists ext, result. rewrite Hrun. cbn [fst snd].
  repeat split; assumption.
Qed.

Lemma present_unchanged_runs_nothing_witness :
  exists (ext : History) (result : Result),
    history (snd (@drive Empty_set
               (initial_locals (nmcli_of (ansible_module (default_params "eth0" "present")
                                  false (host_showing "eth0" "connection.autoconnect: yes"))))
               (start_of (default_params "eth0" "present") false
                         (host_showing "eth0" "connection.autoconnect: yes"))))
    = ext
    /\ only_queries ext
    /\ fst (@drive Empty_set
               (initial_locals (nmcli_of (ansible_module (default_params "eth0" "present")
                                  false (host_showing "eth0" "connection.autoconnect: yes"))))
               (start_of (default_params "eth0" "present") false
                         (host_showing "eth0" "connection.autoconnect: yes")))
       = Exc (ExitJson false (Some result)).
Proof.
  pose (st := start_of (default_params "eth0" "present") false
                       (host_showing "eth0" "connection.autoconnect: yes")).
  pose (r := is_connection_changed (logged st (listing_cmd (self st)))).
  destruct (present_unchanged_runs_nothing st (snd r)
              (initial_locals (nmcli_of (ansible_module (default_params "eth0" "present")
                                 false (host_showing "eth0" "connection.autoconnect: yes"))))
              {| before := [("connection.autoconnect", VStr "yes")];
                 after := [("connection.autoconnect", VStr "yes")] |}
              eq_refl eq_refl eq_refl eq_refl)
    as (ext & result & Hh & Hq & Hf & _);
    [vm_compute; reflexivity | vm_compute; reflexivity |].
  exists ext, result. split; [exact Hh |]. split; [exact Hq | exact Hf].
Defined.

(** ** Validation comes before any call *)

Lemma init_ok (m : AnsibleModule) (nmcli : Nmcli) :
  init m = Ok nmcli ->
  module nmcli = m /\ type nmcli = p_type (params m)
  /\ extra_options_validation (params m) = Ok tt.
Proof.
  unfold init. destruct (extra_options_validation (params m)) as [[] | e];
    [| discriminate].
  cbn [res_bind]. intros H. apply Ok_inj in H. subst nmcli. repeat split.
Qed.

Lemma init_exc (m : AnsibleModule) (e : exn) :
  init m = Exc e ->
  e = FailJson "'master' option is required when 'slave_type' is specified." None None.
Proof.
  unfold init, extra_options_validation.
  destruct (negb _); [| discriminate].
  destruct (p_master (params m)); [discriminate |].
  destruct (p_slave_type (params m)); [| discriminate].
  cbn [res_bind]. intros H. now inversion H.
Qed.

Lemma String_eqb_neq (a b : string) : a <> b -> String.eqb a b = false.
Proof. intros H. destruct (String.eqb a b) eqn:E; [| reflexivity].
  apply String.eqb_eq in E. contradiction. Qed.

Lemma check_for_issues_split (st : State) :
  exists wifi_checks : M unit,
    check_for_issues st
    = (team_checks (self st) ;;; team_slave_checks (self st) ;;; wifi_checks) st.
Proof. eexists. reflexivity. Qed.

Lemma team_checks_end (self0 : Nmcli) (st : State) :
  passes_or_fails (team_checks self0) st.
Proof.
  unfold passes_or_fails, team_checks, bind, fail_json, raise, ret.
  destruct (type_is self0 "team"); [| left; reflexivity].
  destruct (truthy_str _ && _); [right; eexists; reflexivity |].
  destruct (_ && _); [right; eexists; reflexivity | left; reflexivity].
Qed.

Lemma team_slave_checks_end (self0 : Nmcli) (st : State) :
  passes_or_fails (team_slave_checks self0) st.
Proof.
  unfold passes_or_fails, team_slave_checks, bind, fail_json, raise, ret.
  destruct (_ || _); [| left; reflexivity].
  destruct (p_master (P self0)); [| right; eexists; reflexivity].
  destruct (p_ifname (P self0)); [left; reflexivity | right; eexists; reflexivity].
Qed.

Lemma team_checks_fail (self0 : Nmcli) (st : State) :
  type self0 = Some "team" ->
  (truthy_str (p_runner_hwaddr_policy (P self0)) = true
   /\ p_runner (P self0) <> "activebackup")
  \/ (p_runner_fast_rate (P self0) <> None /\ p_runner (P self0) <> "lacp") ->
  exists msg : string, team_checks self0 st = (Exc (FailJson msg None None), st).
Proof.
  intros Ht Hr. unfold team_checks, type_is, bind, fail_json, raise, ret.
  rewrite Ht. cbn [String.eqb Ascii.eqb Bool.eqb].
  destruct Hr as [[Hp Hn] | [Hf Hn]].
  - rewrite Hp, (String_eqb_neq _ _ Hn). eexists. reflexivity.
  - rewrite (String_eqb_neq _ _ Hn).
    destruct (p_runner_fast_rate (P self0)); [| contradiction].
    destruct (truthy_str _ && negb _); eexists; reflexivity.
Qed.

Lemma team_slave_checks_fail (self0 : Nmcli) (st : State) :
  type self0 = Some "team-slave" \/ p_slave_type (P self0) = Some "team" ->
  p_master (P self0) = None \/ p_ifname (P self0) = None ->
  exists msg : string, team_slave_checks self0 st = (Exc (FailJson msg None None), st).
Proof.
  intros Ht Hmi. unfold team_slave_checks, bind, fail_json, raise, ret.
  assert (E : type_is self0 "team-slave" || opt_str_is (p_slave_type (P self0)) "team"
              = true).
  { destruct Ht as [Ht | Hs].
    - unfold type_is. rewrite Ht. reflexivity.
    - rewrite Hs. apply orb_true_r. }
  rewrite E. destruct Hmi as [-> | ->].
  - eexists. reflexivity.
  - destruct (p_master (P self0)); eexists; reflexivity.
Qed.

(** X4. A task whose options fail one of the validations that need no
    external call (a slave type without a master on a connection that is
    not itself of a slave type, a team slave without master or interface
    name, team runner options that do not fit the runner) ends as a
    failure before the external tool is called at all. *)
Theorem invalid_options_fail_before_any_call :
  forall m : AnsibleModule,
    slave_type_without_master (params m)
    \/ team_slave_incomplete (params m)
    \/ team_runner_mismatch (params m) ->
    calls (main m) = []
    /\ exists msg : string, finish (main m) = FailJson msg None None.
Proof.
  intros m Hbad. unfold main.
  destruct (init m) as [nmcli | e] eqn:Einit.
  2:{ apply init_exc in Einit. subst e. split; [reflexivity | eexists; reflexivity]. }
  destruct (init_ok m nmcli Einit) as (Hmod & Htype & Hval).
  assert (HP : P nmcli = params m) by (unfold P; now rewrite Hmod).
  assert (Hfail : exists msg : string,
             check_for_issues (start nmcli) = (Exc (FailJson msg None None), start nmcli)).
  { destruct (check_for_issues_split (start nmcli)) as (wifi_checks & ->).
    cbn [start self]. unfold bind at 1.
    destruct Hbad as [(Hm & Hs & Ht) | [(Ht & Hmi) | (Ht & Hr)]].
    - exfalso. unfold extra_options_validation in Hval. rewrite Hm in Hval.
      destruct (p_slave_type (params m)); [| contradiction].
      destruct (p_type (params m)); [rewrite Ht in Hval |]; discriminate.
    - destruct (team_checks_end nmcli (start nmcli))
        as [-> | (msg & ->)]; [| eexists; reflexivity].
      unfold bind at 1.
      destruct (team_slave_checks_fail nmcli
                  (start nmcli))
        as (msg & ->); [now rewrite Htype, HP | now rewrite HP |].
      eexists. reflexivity.
    - destruct (team_checks_fail nmcli
                  (start nmcli))
        as (msg & ->); [now rewrite Htype | now rewrite HP |].
      eexists. reflexivity. }
  destruct Hfail as (msg & Hfail).
  unfold outcome_of, main_body, bind, get_self.
  change {| self := nmcli; history := []; warnings := [] |} with (start nmcli).
  rewrite Hfail. split; [reflexivity | eexists; reflexivity].
Qed.

Lemma invalid_options_fail_before_any_call_witness :
  calls (main (ansible_module (task "slave0" "present" (Some "team-slave") None None false)
                              false (host "" never_fails))) = []
  /\ exists msg : string,
       finish (main (ansible_module
                       (task "slave0" "present" (Some "team-slave") None None false)
                       false (host "" never_fails)))
       = FailJson msg None None.
Proof.
  apply invalid_options_fail_before_any_call.
  right. left. split; [left; reflexivity | left; reflexivity].
Defined.

(** ** Prefix lengths, once more *)

Lemma chars_append (a b : string) : Py.chars (a ++ b) = (Py.chars a ++ Py.chars b)%list.
Proof.
  unfold Py.chars. induction a as [| c a IH]; simpl; [reflexivity | now rewrite IH].
Qed.

Lemma contains_char_append_r (c : ascii) (a b : string) :
  Py.contains_char c b = true -> Py.contains_char c (a ++ b) = true.
Proof.
  rewrite !contains_char_In, chars_append. intros H. apply in_or_app. now right.
Qed.

(** X5. Enforcing the CIDR notation twice is the same as enforcing it
    once: every address that leaves [enforce_ipv4_cidr_notation] or
    [enforce_ipv6_cidr_notation] has a prefix length, so a second pass
    changes nothing. *)
Theorem enforce_cidr_notation_idempotent :
  forall addresses : option (list string),
    enforce_ipv4_cidr_notation (enforce_ipv4_cidr_notation addresses)
    = enforce_ipv4_cidr_notation addresses
    /\ enforce_ipv6_cidr_notation (enforce_ipv6_cidr_notation addresses)
       = enforce_ipv6_cidr_notation addresses.
Proof.
  intros [l |]; [| split; reflexivity].
  unfold enforce_ipv4_cidr_notation, enforce_ipv6_cidr_notation.
  split; f_equal; rewrite map_map; apply map_ext; intros a;
    destruct (Py.contains_char "/" a) eqn:E; try (now rewrite E);
    rewrite contains_char_append_r; reflexivity.
Qed.

(** ** What the change detector considers *)

Lemma is_empty_value_iff (value : pyval) :
  is_empty_value value = true <-> value = VNone \/ value = VStr "".
Proof.
  split.
  - destruct value as [| [] | z | s | [| x l]]; try discriminate; auto.
    + unfold is_empty_value. cbn. destruct (z =? 0)%Z; discriminate.
    + destruct s; [auto | discriminate].
  - intros [-> | ->]; reflexivity.
Qed.

Lemma compare_values_missing (self : Nmcli) (mtu : option Z) (key : string)
    (value : pyval) :
  compare_values self mtu key VNone value
  = if mtu_default_on_dummy self mtu key value then (false, VNone)
    else (true, VStr (to_text value)).
Proof.
  unfold compare_values, mtu_default_on_dummy. cbn [is_none].
  rewrite andb_true_r.
  destruct value; cbn [pyval_eqb negb]; reflexivity.
Qed.

(** How the loop body treats an option the observed connection lacks. *)
Lemma compare_param_missing (self : Nmcli) (conn_info : dict pyval) (acc : Cmp)
    (key : string) (value : pyval) :
  dict_get key conn_info = None ->
  is_empty_value value = false ->
  exists acc' : Cmp,
    compare_param self conn_info acc (key, value) = Ok acc'
    /\ dict_get key (cmp_before acc') = Some VNone
    /\ if mtu_default_on_dummy self (cmp_mtu acc) key value
       then cmp_changed acc' = cmp_changed acc
            /\ dict_get key (cmp_after acc') = Some VNone
       else cmp_changed acc' = true
            /\ dict_get key (cmp_after acc') = Some (VStr (to_text value)).
Proof.
  intros Hget Hne. unfold compare_param. rewrite Hne, Hget. cbn [res_bind].
  rewrite compare_values_missing.
  destruct (mtu_default_on_dummy self (cmp_mtu acc) key value);
    (eexists; split; [reflexivity |]);
    cbn [cmp_changed cmp_before cmp_after];
    rewrite !dict_get_set_same, ?orb_false_r, ?orb_true_r; repeat split.
Qed.

Lemma mtu_default_on_dummy_auto (self : Nmcli) (mtu : option Z) (key : string)
    (value : pyval) :
  value <> VStr "auto" -> mtu_default_on_dummy self mtu key value = false.
Proof.
  intros H. unfold mtu_default_on_dummy.
  assert (E : pyval_eqb value (VStr "auto") = false).
  { destruct value; try reflexivity. cbn [pyval_eqb].
    apply String_eqb_neq. congruence. }
  rewrite E. now rewrite andb_false_r.
Qed.

(** X6. The change detector leaves out the options without a value, and
    only those: an option is skipped (flag and diff stay as they are)
    when its desired value is [None] or the empty text, and [0], [False]
    and the empty list are values like any other: when the observed
    connection lacks their option they count as a change and enter the
    diff. *)
Theorem empty_values_are_skipped :
  forall (self : Nmcli) (conn_info : dict pyval) (acc : Cmp) (key : string)
         (value : pyval),
    (value = VNone \/ value = VStr "" ->
     compare_param self conn_info acc (key, value) = Ok acc) /\
    (value = VInt 0 \/ value = VBool false \/ value = VList [] ->
     dict_get key conn_info = None ->
     exists acc' : Cmp,
       compare_param self conn_info acc (key, value) = Ok acc'
       /\ cmp_changed acc' = true
       /\ dict_get key (cmp_before acc') = Some VNone
       /\ dict_get key (cmp_after acc') = Some (VStr (to_text value))).
Proof.
  intros self conn_info acc key value. split.
  - intros H. apply is_empty_value_iff in H. unfold compare_param. now rewrite H.
  - intros H Hget.
    assert (Hne : is_empty_value value = false)
      by (destruct H as [-> | [-> | ->]]; reflexivity).
    assert (Hauto : value <> VStr "auto")
      by (destruct H as [-> | [-> | ->]]; discriminate).
    destruct (compare_param_missing self conn_info acc key value Hget Hne)
      as (acc' & Hc & Hb & Hrest).
    rewrite (mtu_default_on_dummy_auto self _ key value Hauto) in Hrest.
    exists acc'. tauto.
Qed.

Lemma empty_values_are_skipped_witness :
  compare_param sample_nmcli [] (empty_cmp sample_nmcli) ("connection.zone", VNone)
  = Ok (empty_cmp sample_nmcli)
  /\ exists acc' : Cmp,
       compare_param sample_nmcli [] (empty_cmp sample_nmcli)
                     ("connection.autoconnect-priority", VInt 0) = Ok acc'
       /\ cmp_changed acc' = true
       /\ dict_get "connection.autoconnect-priority" (cmp_after acc') = Some (VStr "0").
Proof.
  split.
  - apply (proj1 (empty_values_are_skipped sample_nmcli [] (empty_cmp sample_nmcli)
                    "connection.zone" VNone)). now left.
  - destruct (proj2 (empty_values_are_skipped sample_nmcli [] (empty_cmp sample_nmcli)
                       "connection.autoconnect-priority" (VInt 0))
                    (or_introl eq_refl) eq_refl) as (acc' & Hc & Hch & _ & Ha).
    exists acc'. repeat split; assumption.
Defined.

(** X7. An option the observed connection does not have is compared with
    [None]: whatever value is desired for it counts as a change, and the
    diff shows [None] before and the text of the desired value after.  The
    one exception is the MTU of a dummy connection whose desired value is
    the default [auto] while [mtu] is unset: it is shown as [None] after
    as well and is no change. *)
Theorem missing_setting_is_a_change :
  forall (self : Nmcli) (conn_info : dict pyval) (acc : Cmp) (key : string)
         (value : pyval),
    dict_get key conn_info = None ->
    is_empty_value value = false ->
    exists acc' : Cmp,
      compare_param self conn_info acc (key, value) = Ok acc'
      /\ dict_get key (cmp_before acc') = Some VNone
      /\ (mtu_default_on_dummy self (cmp_mtu acc) key value = false ->
          cmp_changed acc' = true
          /\ dict_get key (cmp_after acc') = Some (VStr (to_text value)))
      /\ (mtu_default_on_dummy self (cmp_mtu acc) key value = true ->
          cmp_changed acc' = cmp_changed acc
          /\ dict_get key (cmp_after acc') = Some VNone).
Proof.
  intros self conn_info acc key value Hget Hne.
  destruct (compare_param_missing self conn_info acc key value Hget Hne)
    as (acc' & Hc & Hb & Hrest).
  exists acc'. split; [exact Hc |]. split; [exact Hb |].
  destruct (mtu_default_on_dummy self (cmp_mtu acc) key value);
    split; intros E; try discriminate; exact Hrest.
Qed.

Lemma missing_setting_is_a_change_witness :
  exists acc' : Cmp,
    compare_param sample_nmcli [] (empty_cmp sample_nmcli)
                  ("ipv4.gateway", VStr "192.0.2.1") = Ok acc'
    /\ dict_get "ipv4.gateway" (cmp_before acc') = Some VNone
    /\ cmp_changed acc' = true
    /\ dict_get "ipv4.gateway" (cmp_after acc') = Some (VStr "192.0.2.1").
Proof.
  destruct (missing_setting_is_a_change sample_nmcli [] (empty_cmp sample_nmcli)
              "ipv4.gateway" (VStr "192.0.2.1") eq_refl eq_refl)
    as (acc' & Hc & Hb & Hchange & _).
  exists acc'. split; [exact Hc |]. split; [exact Hb |]. exact (Hchange eq_refl).
Defined.

(** ** When the listing fails, and the plain up and down *)

Lemma connection_exists_fails (st : State) :
  rc_of (answer st (listing_cmd (self st))) <> 0%Z ->
  connection_exists st
  = (Exc (NmcliModuleError (err_of (answer st (listing_cmd (self st))))),
     logged st (listing_cmd (self st))).
Proof.
  intros H. rewrite connection_exists_run.
  apply Z.eqb_neq in H. now rewrite H.
Qed.

(** X8. Whatever the state asked for, in check mode and outside it: when
    the listing of the connections fails, it is the only call of the run,
    and the run ends as a failure that carries the error text of the
    listing and the name of the connection, and no exit code. *)
Theorem failed_listing_is_fatal :
  forall (st : State) (l : Locals),
    str_in (p_state (P (self st))) ["absent"; "present"; "up"; "down"] = true ->
    rc_of (answer st (listing_cmd (self st))) <> 0%Z ->
    @drive Empty_set l st
    = (Exc (FailJson (err_of (answer st (listing_cmd (self st))))
                     (Some (conn_name (self st))) None),
       logged st (listing_cmd (self st))).
Proof.
  intros st l Hstate Hrc. apply str_in_In in Hstate.
  unfold drive, reconcile, bind, get_self, try_except.
  destruct Hstate as [E | [E | [E | [E | []]]]]; rewrite <- E;
    cbn [String.eqb Ascii.eqb Bool.eqb];
    [unfold state_absent | rewrite state_present_split
     | unfold state_up_down | unfold state_up_down];
    unfold bind, get_self;
    rewrite (connection_exists_fails st Hrc); reflexivity.
Qed.

Lemma failed_listing_is_fatal_witness :
  @drive Empty_set
     (initial_locals (nmcli_of (ansible_module (default_params "eth0" "present")
                                               true unreachable)))
     (start_of (default_params "eth0" "present") true unreachable)
  = (Exc (FailJson "Error: NetworkManager is not running." (Some "eth0") None),
     logged (start_of (default_params "eth0" "present") true unreachable)
            (plain ["/usr/bin/nmcli"; "--fields"; "name"; "--terse"; "con"; "show"])).
Proof.
  apply (failed_listing_is_fatal
           (start_of (default_params "eth0" "present") true unreachable)
           (initial_locals (nmcli_of (ansible_module (default_params "eth0" "present")
                                                     true unreachable)))
           eq_refl).
  discriminate.
Defined.

(** X9. With [state=up] or [state=down] and no reload asked for, outside
    check mode, when the listing shows the connection, the driver runs the
    listing and then the one command of the state ([con up NAME] or
    [con down NAME]) and nothing else; the run ends with [changed=true]
    when that command succeeds and as a failure with its exit code and
    error text when it does not. *)
Theorem up_down_runs_one_command :
  forall (st : State) (l : Locals),
    str_in (p_state (P (self st))) ["up"; "down"] = true ->
    check_mode (module (self st)) = false ->
    p_conn_reload (P (self st)) = false ->
    lists_name (conn_name (self st)) (answer st (listing_cmd (self st))) = true ->
    exists a0 a1 : Resp,
      history (snd (@drive Empty_set l st))
      = (history st ++ [(listing_cmd (self st), a0); (action_cmd (self st), a1)])%list
      /\ (rc_of a1 = 0%Z ->
          exists result : Result,
            fst (@drive Empty_set l st) = Exc (ExitJson true (Some result)))
      /\ (rc_of a1 <> 0%Z ->
          fst (@drive Empty_set l st)
          = Exc (FailJson (err_of a1)
                          (Some (no_connection_named (conn_name (self st))))
                          (Some (rc_of a1)))).
Proof.
  intros st l Hstate Hcheck Hreload Hlist. apply str_in_In in Hstate.
  exists (answer st (listing_cmd (self st))),
         (answer (logged st (listing_cmd (self st))) (action_cmd (self st))).
  unfold action_cmd, drive, reconcile, bind, get_self, try_except.
  destruct Hstate as [E | [E | []]]; rewrite <- E;
    cbn [String.eqb Ascii.eqb Bool.eqb];
    unfold state_up_down, bind, get_self;
    rewrite (connection_exists_listed st Hlist), Hcheck, Hreload;
    unfold ret; rewrite ?up_connection_run, ?down_connection_run;
    cbn [logged self]; rewrite rc_failed_assign;
    match goal with |- context [answer ?s ?c] =>
      match c with listing_cmd _ => fail 1 | _ => set (a1 := answer s c) end end;
    (destruct (rc_of a1 =? 0)%Z eqn:Ea; cbn [negb];
     [ split; [unfold report, exit_json, fail_json, raise;
               cbn [logged history snd]; subst a1;
               rewrite <- ?app_assoc; reflexivity |];
       split; [intros _; eexists; reflexivity
              | intros Hne; apply Z.eqb_eq in Ea; contradiction]
     | split; [unfold report, exit_json, fail_json, raise;
               cbn [logged history snd]; subst a1;
               rewrite <- ?app_assoc; reflexivity |];
       split; [intros H0; rewrite H0 in Ea; discriminate
              | intros _; reflexivity] ]).
Qed.

Lemma up_down_runs_one_command_witness :
  exists a0 a1 : Resp,
    history (snd (@drive Empty_set
               (initial_locals (nmcli_of (ansible_module (default_params "eth0" "down")
                                                         false (host "eth0" down_fails))))
               (start_of (default_params "eth0" "down") false (host "eth0" down_fails))))
    = [(plain ["/usr/bin/nmcli"; "--fields"; "name"; "--terse"; "con"; "show"], a0);
       (plain ["/usr/bin/nmcli"; "con"; "down"; "eth0"], a1)].
Proof.
  destruct (up_down_runs_one_command
              (start_of (default_params "eth0" "down") false (host "eth0" down_fails))
              (initial_locals (nmcli_of (ansible_module (default_params "eth0" "down")
                                                        false (host "eth0" down_fails))))
              eq_refl eq_refl eq_refl eq_refl) as (a0 & a1 & Hh & _).
  exists a0, a1. exact Hh.
Defined.

(** ** Secrets and the command line *)

Lemma option_args_secret (kv : string * pyval) :
  is_secret kv = true -> option_args kv = [].
Proof.
  destruct kv as [key value]. unfold is_secret, option_args. cbn [fst].
  intros ->. now destruct value.
Qed.

Lemma option_edits_line (kv : string * pyval) :
  option_edits kv = if is_secret kv && has_value kv then [set_line kv] else [].
Proof.
  destruct kv as [key value]. unfold is_secret, has_value, option_edits, set_line.
  cbn [fst snd]. destruct value; cbn [is_none negb]; rewrite ?andb_false_r, ?andb_true_r;
    try reflexivity; now destruct (str_in key SECRET_OPTIONS).
Qed.

Lemma flat_map_option_args_public (options : dict pyval) :
  flat_map option_args options
  = flat_map option_args (filter (fun kv => negb (is_secret kv)) options).
Proof.
  induction options as [| kv options IH]; [reflexivity |].
  cbn [flat_map filter]. destruct (is_secret kv) eqn:E; cbn [negb].
  - now rewrite (option_args_secret kv E).
  - cbn [flat_map]. now rewrite IH.
Qed.

Lemma flat_map_option_edits_lines (options : dict pyval) :
  flat_map option_edits options
  = map set_line (filter (fun kv => is_secret kv && has_value kv) options).
Proof.
  induction options as [| kv options IH]; [reflexivity |].
  cbn [flat_map filter]. rewrite option_edits_line, IH.
  now destruct (is_secret kv && has_value kv).
Qed.

(** X10. Secrets stay off the command line.  The argument vector the loop
    of [connection_update] builds is the one it builds from the option
    table without its secret entries (the passwords and keys of the wifi
    security settings): no secret entry adds anything to it.  Each secret
    entry that has a value adds one [set] line to the commands of the
    edit session instead, in the order of the table, and nothing else is
    added to them. *)
Theorem secrets_stay_off_the_command_line :
  forall (options : dict pyval) (cmd edits : list string),
    fst (fold_left add_option options (cmd, edits))
    = fst (fold_left add_option
                     (filter (fun kv => negb (is_secret kv)) options) (cmd, edits))
    /\ snd (fold_left add_option options (cmd, edits))
       = (edits ++ map set_line
                       (filter (fun kv => is_secret kv && has_value kv) options))%list.
Proof.
  intros options cmd edits. rewrite !fold_add_option. cbn [fst snd]. split.
  - now rewrite <- flat_map_option_args_public.
  - now rewrite flat_map_option_edits_lines.
Qed.

(** ** The diff of the change detector *)

Lemma dict_keys_set (k : string) (v : pyval) (d : dict pyval) :
  dict_keys (dict_set k v d)
  = if dict_mem k d then dict_keys d else (dict_keys d ++ [k])%list.
Proof.
  unfold dict_keys, dict_mem.
  induction d as [| [k' v'] d IH]; [reflexivity |].
  cbn [dict_set dict_get map fst]. destruct (String.eqb k k') eqn:E.
  - apply String.eqb_eq in E. now subst.
  - cbn [map fst]. rewrite IH. now destruct (dict_get k d).
Qed.

Lemma dict_mem_keys (k : string) (d : dict pyval) :
  dict_mem k d = str_in k (dict_keys d).
Proof.
  unfold dict_mem, dict_keys, str_in.
  induction d as [| [k' v'] d IH]; [reflexivity |].
  cbn [dict_get map fst existsb]. destruct (String.eqb k k'); [reflexivity | exact IH].
Qed.

Lemma dict_mem_set (k k' : string) (v : pyval) (d : dict pyval) :
  dict_mem k (dict_set k' v d) = String.eqb k k' || dict_mem k d.
Proof.
  unfold dict_mem. destruct (String.eqb k k') eqn:E.
  - apply String.eqb_eq in E. subst. now rewrite dict_get_set_same.
  - rewrite dict_get_set_other; [reflexivity |].
    intros ->. now rewrite String.eqb_refl in E.
Qed.

(** What one turn of the loop does to the flag and to the diff. *)
Lemma compare_param_step (self : Nmcli) (conn_info : dict pyval) (acc acc' : Cmp)
    (key : string) (value : pyval) :
  compare_param self conn_info acc (key, value) = Ok acc' ->
  (is_empty_value value = true /\ acc' = acc)
  \/ (is_empty_value value = false
      /\ exists (differs : bool) (shown_before shown_after : pyval),
           cmp_changed acc' = cmp_changed acc || differs
           /\ cmp_before acc' = dict_set key shown_before (cmp_before acc)
           /\ cmp_after acc' = dict_set key shown_after (cmp_after acc)).
Proof.
  unfold compare_param. destruct (is_empty_value value).
  - intros H. apply Ok_inj in H. left. now split.
  - match goal with |- res_bind ?m _ = _ -> _ => destruct m as [[[cv v1] m1] | e] end;
      cbn [res_bind]; [| discriminate].
    destruct (compare_values self m1 key cv v1) as [differs v2].
    intros H. apply Ok_inj in H. subst acc'. right. split; [reflexivity |].
    exists differs, cv, v2. repeat split.
Qed.

Lemma compare_loop_diff (self : Nmcli) (conn_info : dict pyval)
    (options : dict pyval) :
  forall acc acc' : Cmp,
    compare_loop self conn_info acc options = Ok acc' ->
    (cmp_changed acc = true -> cmp_changed acc' = true)
    /\ (dict_keys (cmp_before acc) = dict_keys (cmp_after acc) ->
        dict_keys (cmp_before acc') = dict_keys (cmp_after acc'))
    /\ (forall key : string,
          dict_mem key (cmp_before acc') = true ->
          dict_mem key (cmp_before acc) = true
          \/ exists value : pyval,
               In (key, value) options /\ is_empty_value value = false)
    /\ (forall (key : string) (value : pyval),
          (dict_mem key (cmp_before acc) = true
           \/ (In (key, value) options /\ is_empty_value value = false)) ->
          dict_mem key (cmp_before acc') = true).
Proof.
  induction options as [| [key value] options IH]; intros acc acc' H.
  - cbn [compare_loop] in H. apply Ok_inj in H. subst acc'.
    repeat split; auto.
    + intros key' value' [Hm | [[] _]]. exact Hm.
  - cbn [compare_loop] in H.
    destruct (compare_param self conn_info acc (key, value)) as [acc1 | e] eqn:E;
      cbn [res_bind] in H; [| discriminate].
    destruct (IH acc1 acc' H) as (Hflag & Hkeys & Honly & Hall).
    apply compare_param_step in E.
    destruct E as [[He ->] | (He & differs & b & a & Ec & Eb & Ea)].
    + split; [exact Hflag |]. split; [exact Hkeys |]. split.
      * intros k Hk. destruct (Honly k Hk) as [Hm | (v & Hin & Hv)]; [now left |].
        right. exists v. split; [now right | exact Hv].
      * intros k v [Hm | [[Heq | Hin] Hv]].
        -- apply (Hall k v). now left.
        -- inversion Heq; subst. rewrite He in Hv. discriminate.
        -- apply (Hall k v). right. now split.
    + split; [| split; [| split]].
      * intros Hc. apply Hflag. rewrite Ec, Hc. reflexivity.
      * intros Hk. apply Hkeys. rewrite Eb, Ea, !dict_keys_set, !dict_mem_keys, Hk.
        reflexivity.
      * intros k Hk. destruct (Honly k Hk) as [Hm | (v & Hin & Hv)].
        -- rewrite Eb, dict_mem_set in Hm. apply orb_true_iff in Hm.
           destruct Hm as [Hm | Hm]; [| now left].
           apply String.eqb_eq in Hm. subst k. right. exists value.
           split; [now left | exact He].
        -- right. exists v. split; [now right | exact Hv].
      * intros k v [Hm | [[Heq | Hin] Hv]].
        -- apply (Hall k v). left. rewrite Eb, dict_mem_set, Hm. apply orb_true_r.
        -- inversion Heq; subst. apply (Hall k v). left.
           rewrite Eb, dict_mem_set, String.eqb_refl. reflexivity.
        -- apply (Hall k v). right. now split.
Qed.

(** X11. The diff of the change detector is well formed: whenever
    [_compare_conn_params] returns, the [before] and the [after] side of
    its diff hold the same keys in the same order, and these keys are
    exactly the keys of the options that have a value to compare (an
    option whose desired value is [None] or empty is left out, every other
    one is in, whether it differs or not).  The comparison calls nothing:
    the history stays as it was. *)
Theorem diff_sides_hold_the_compared_options :
  forall (conn_info options : dict pyval) (st st' : State) (changed : bool)
         (diff : Diff),
    _compare_conn_params conn_info options st = (Ok (changed, diff), st') ->
    dict_keys (before diff) = dict_keys (after diff)
    /\ (forall key : string,
          dict_mem key (before diff) = true
          <-> exists value : pyval,
                In (key, value) options /\ is_empty_value value = false)
    /\ history st' = history st.
Proof.
  intros conn_info options st st' changed diff.
  unfold _compare_conn_params, bind, get_self, lift, modify_self, ret.
  destruct (compare_loop (self st) conn_info _ options) as [acc' | e] eqn:E;
    [| discriminate].
  intros H. apply pair_equal_spec in H. destruct H as [H <-].
  apply Ok_inj in H. apply pair_equal_spec in H. destruct H as [_ <-].
  cbn [before after history].
  destruct (compare_loop_diff _ _ _ _ _ E) as (_ & Hkeys & Honly & Hall).
  split; [apply Hkeys; reflexivity |]. split; [| reflexivity].
  intros key. split.
  - intros Hm. destruct (Honly key Hm) as [Hm0 | Hex]; [discriminate | exact Hex].
  - intros (value & Hin & Hv). apply (Hall key value). right. now split.
Qed.

Lemma diff_sides_hold_the_compared_options_witness :
  exists (changed : bool) (diff : Diff),
    fst (_compare_conn_params [("connection.autoconnect", VStr "yes")]
           [("connection.autoconnect", VStr "no"); ("connection.zone", VNone)]
           (start sample_nmcli))
    = Ok (changed, diff)
    /\ dict_keys (before diff) = dict_keys (after diff)
    /\ dict_mem "connection.autoconnect" (before diff) = true.
Proof.
  pose (r := _compare_conn_params [("connection.autoconnect", VStr "yes")]
               [("connection.autoconnect", VStr "no"); ("connection.zone", VNone)]
               (start sample_nmcli)).
  destruct (diff_sides_hold_the_compared_options
              [("connection.autoconnect", VStr "yes")]
              [("connection.autoconnect", VStr "no"); ("connection.zone", VNone)]
              (start sample_nmcli) (snd r) true
              {| before := [("connection.autoconnect", VStr "yes")];
                 after := [("connection.autoconnect", VStr "no")] |} eq_refl)
    as (Hk & Hm & _).
  eexists _, _. split; [reflexivity |]. split; [exact Hk |].
  apply Hm. exists (VStr "no"). split; [left; reflexivity | reflexivity].
Defined.

(** X12. A difference is never forgotten: once the loop of the change
    detector has set the flag, no later option clears it, so the
    connection counts as changed as soon as one compared option
    differs. *)
Theorem found_difference_is_kept :
  forall (self : Nmcli) (conn_info options : dict pyval) (acc acc' : Cmp),
    cmp_changed acc = true ->
    compare_loop self conn_info acc options = Ok acc' ->
    cmp_changed acc' = true.
Proof.
  intros self conn_info options acc acc' Hc H.
  now apply (compare_loop_diff self conn_info options acc acc' H).
Qed.

Lemma found_difference_is_kept_witness :
  exists acc' : Cmp,
    compare_loop sample_nmcli [("connection.zone", VStr "home")]
      {| cmp_mtu := None; cmp_changed := true; cmp_before := []; cmp_after := [] |}
      [("connection.zone", VStr "home")] = Ok acc'
    /\ cmp_changed acc' = true.
Proof.
  eexists. split; [vm_compute; reflexivity |].
  apply (found_difference_is_kept sample_nmcli [("connection.zone", VStr "home")]
           [("connection.zone", VStr "home")]
           {| cmp_mtu := None; cmp_changed := true; cmp_before := [];
              cmp_after := [] |} _ eq_refl).
  vm_compute. reflexivity.
Defined.

(** ** The calls of a modification and of a creation *)

(** X13. [modify_connection] makes one call or two.  The first is the
    modify command, [con modify NAME] followed by the options, with
    nothing on its standard input.  The edit session [con edit NAME],
    whose input is the edit commands followed by [save] and [quit],
    follows exactly when the modify command succeeded and there are edit
    commands; the answer returned is that of the last call made. *)
Theorem modify_connection_calls :
  forall (st : State) (w : list string) (more : dict pyval),
    connection_options (self st) false = (w, Ok more) ->
    exists (args : list string) (r1 r : Resp) (st' : State),
      modify_connection st = (Ok r, st')
      /\ history st'
         = (history st
            ++ (plain ([nmcli_bin (self st); "con"; "modify"; conn_name (self st)]
                       ++ args), r1)
               :: (if Z.eqb (rc_of r1) 0 && nonempty (edit_commands (self st'))
                   then [({| argv := [nmcli_bin (self st); "con"; "edit";
                                      conn_name (self st)];
                             data := Some (Py.join newline
                                             (edit_commands (self st')
                                              ++ ["save"; "quit"])) |}, r)]
                   else []))%list
      /\ (Z.eqb (rc_of r1) 0 && nonempty (edit_commands (self st')) = false -> r = r1).
Proof.
  intros st w more Hopt.
  exists (flat_map option_args (update_options (self st) "modify" more)),
         (update_answer st "modify" w more),
         (secured_answer st "modify" w more),
         (secured st "modify" w more).
  split; [exact (modify_connection_run st w more Hopt) |].
  unfold secured, secured_answer.
  assert (E : forall st1 : State,
             self st1 = self (updated st "modify" w more) ->
             Z.eqb (rc_of (update_answer st "modify" w more)) 0
             && nonempty (edit_commands (self st1))
             = secrets_follow st "modify" w more).
  { intros st1 ->. reflexivity. }
  destruct (secrets_follow st "modify" w more) eqn:F.
  - rewrite E by reflexivity. split; [| discriminate].
    cbn [logged history updated after_options]. rewrite <- !app_assoc. reflexivity.
  - rewrite E by reflexivity. split; [| reflexivity].
    cbn [logged history updated after_options]. reflexivity.
Qed.

Lemma modify_connection_calls_witness :
  exists (args : list string) (r1 r : Resp) (st' : State),
    modify_connection (start sample_nmcli) = (Ok r, st')
    /\ hd_error (argvs (history st'))
       = Some (["/usr/bin/nmcli"; "con"; "modify"; "eth0"] ++ args)%list.
Proof.
  edestruct (modify_connection_calls (start sample_nmcli))
    as (args & r1 & r & st' & Hrun & Hh & _); [vm_compute; reflexivity |].
  exists args, r1, r, st'. split; [exact Hrun |].
  rewrite Hh. reflexivity.
Defined.

(** ** What is written for a list is read back as that list *)

Lemma str_of_chars (s : string) : Py.str_of (Py.chars s) = s.
Proof. apply string_of_list_ascii_of_string. Qed.

Lemma split_aux_run (sep : ascii) (x cur rest : list ascii) :
  existsb (Ascii.eqb sep) x = false ->
  Py.split_aux sep cur (x ++ rest) = Py.split_aux sep (rev x ++ cur) rest.
Proof.
  revert cur. induction x as [| c x IH]; intros cur H; [reflexivity |].
  cbn [existsb] in H. apply orb_false_iff in H. destruct H as [Hc Hx].
  cbn [app Py.split_aux rev]. rewrite Ascii.eqb_sym, Hc.
  rewrite (IH (c :: cur) Hx), <- app_assoc. reflexivity.
Qed.

Lemma split_join (sep : ascii) (l : list string) :
  l <> [] ->
  Forall (fun x => Py.contains_char sep x = false) l ->
  Py.split sep (Py.join (String sep "") l) = l.
Proof.
  intros Hne Hall. unfold Py.split.
  induction l as [| x l IH]; [contradiction |].
  inversion Hall as [| x' l' Hx Hl]; subst.
  destruct l as [| y l].
  - cbn [Py.join]. rewrite <- (app_nil_r (Py.chars x)).
    rewrite (split_aux_run sep (Py.chars x) [] [] Hx).
    cbn [Py.split_aux]. now rewrite app_nil_r, rev_involutive, str_of_chars.
  - change (Py.join (String sep "") (x :: y :: l))
      with (x ++ String sep "" ++ Py.join (String sep "") (y :: l))%string.
    rewrite !chars_append.
    rewrite (split_aux_run sep (Py.chars x) [] _ Hx).
    cbn [Py.chars list_ascii_of_string app Py.split_aux].
    rewrite Ascii.eqb_refl, app_nil_r, rev_involutive, str_of_chars.
    f_equal. apply IH; [discriminate | exact Hl].
Qed.

Lemma map_fixed {A : Type} (f : A -> A) (l : list A) :
  Forall (fun x => f x = x) l -> map f l = l.
Proof. induction 1 as [| x l Hx _ IH]; cbn [map]; congruence. Qed.

Lemma parse_line_joined (conn_info : dict pyval) (line key_text rest : string)
    (l : list string) :
  Py.split1 ":" line = (key_text, Some rest) ->
  settings_type (Py.strip key_text) = TList ->
  str_in (Py.strip key_text) ["ipv4.routes"; "ipv6.routes"] = false ->
  l <> [] ->
  Forall (fun x => Py.contains_char "," x = false) l ->
  Forall (fun x => Py.strip x = x) l ->
  Py.lstrip rest = Py.join "," l ->
  Py.lstrip rest <> "--" ->
  parse_line conn_info line = dict_set (Py.strip key_text) (VList l) conn_info.
Proof.
  intros Hsplit Hlist Hroutes Hne Hcomma Hstrip Hjoin Hmark.
  unfold parse_line. rewrite Hsplit. cbn [fst snd].
  set (key := Py.strip key_text) in *.
  assert (Hkey : String.eqb key "" = false).
  { destruct (String.eqb key "") eqn:E; [| reflexivity].
    apply String.eqb_eq in E. rewrite E in Hlist. discriminate. }
  assert (Hbond : String.eqb key "bond.options" = false).
  { destruct (String.eqb key "bond.options") eqn:E; [| reflexivity].
    apply String.eqb_eq in E. rewrite E in Hlist. discriminate. }
  rewrite Hkey, Hbond, Hroutes, Hlist. cbn [negb is_TList].
  rewrite (String_eqb_neq _ _ Hmark), Hjoin.
  rewrite (split_join "," l Hne Hcomma), (map_fixed _ l Hstrip). reflexivity.
Qed.

(** X14. What the module writes for a list setting it reads back as the
    same list.  [list_to_string] joins the elements with commas; when the
    external tool prints that text as the value of a list-typed setting
    (other than the routes, which are separated by semicolons), the loop
    of [show_connection] stores the list itself under the key, provided
    the list is not empty, no element holds a comma or has white space
    around it, and the text is not the empty marker. *)
Theorem list_setting_round_trip :
  forall (conn_info : dict pyval) (line key_text rest : string) (l : list string),
    Py.split1 ":" line = (key_text, Some rest) ->
    settings_type (Py.strip key_text) = TList ->
    str_in (Py.strip key_text) ["ipv4.routes"; "ipv6.routes"] = false ->
    l <> [] ->
    Forall (fun x => Py.contains_char "," x = false) l ->
    Forall (fun x => Py.strip x = x) l ->
    list_to_string (VList l) = Ok (VStr (Py.lstrip rest)) ->
    Py.lstrip rest <> "--" ->
    dict_get (Py.strip key_text) (parse_line conn_info line) = Some (VList l).
Proof.
  intros conn_info line key_text rest l Hsplit Hlist Hroutes Hne Hcomma Hstrip
         Hjoin Hmark.
  cbn [list_to_string] in Hjoin. apply Ok_inj in Hjoin.
  assert (Hj : Py.lstrip rest = Py.join "," l) by congruence.
  rewrite (parse_line_joined conn_info line key_text rest l Hsplit Hlist Hroutes
             Hne Hcomma Hstrip Hj Hmark).
  apply dict_get_set_same.
Qed.

Lemma list_setting_round_trip_witness :
  dict_get "ipv4.dns" (parse_line [] "ipv4.dns:      192.0.2.53,198.51.100.53")
  = Some (VList ["192.0.2.53"; "198.51.100.53"]).
Proof.
  apply (list_setting_round_trip [] "ipv4.dns:      192.0.2.53,198.51.100.53"
           "ipv4.dns" "      192.0.2.53,198.51.100.53"
           ["192.0.2.53"; "198.51.100.53"]);
    try reflexivity; try discriminate;
    repeat constructor.
Defined.

(** X15. A list setting that is observed as it was written is no change:
    when the line of a list-typed setting (other than the routes) prints
    the desired list joined by commas, the change detector compares the
    desired list with the observed one, leaves the flag as it is and
    shows the list on both sides of the diff. *)
Theorem observed_list_setting_is_no_change :
  forall (self : Nmcli) (conn_info : dict pyval) (acc : Cmp)
         (line key_text rest : string) (l : list string),
    Py.split1 ":" line = (key_text, Some rest) ->
    settings_type (Py.strip key_text) = TList ->
    str_in (Py.strip key_text) ["ipv4.routes"; "ipv6.routes"] = false ->
    l <> [] ->
    Forall (fun x => Py.contains_char "," x = false) l ->
    Forall (fun x => Py.strip x = x) l ->
    Py.lstrip rest = Py.join "," l ->
    Py.lstrip rest <> "--" ->
    exists acc' : Cmp,
      compare_param self (parse_line conn_info line) acc (Py.strip key_text, VList l)
      = Ok acc'
      /\ cmp_changed acc' = cmp_changed acc
      /\ dict_get (Py.strip key_text) (cmp_before acc') = Some (VList l)
      /\ dict_get (Py.strip key_text) (cmp_after acc') = Some (VList l).
Proof.
  intros self conn_info acc line key_text rest l Hsplit Hlist Hroutes Hne Hcomma
         Hstrip Hjoin Hmark.
  rewrite (parse_line_joined conn_info line key_text rest l Hsplit Hlist Hroutes
             Hne Hcomma Hstrip Hjoin Hmark).
  unfold compare_param. rewrite is_empty_value_list, dict_get_set_same.
  rewrite (normalize_param_list self (cmp_mtu acc) _ l l Hlist).
  unfold observed_as_compared. rewrite Hroutes. cbn [res_bind].
  rewrite compare_values_lists.
  assert (E : (if str_in (Py.strip key_text) ORDERED_LISTS
               then negb (list_eqb l l)
               else negb (list_eqb (sorted l) (sorted l))) = false).
  { destruct (str_in (Py.strip key_text) ORDERED_LISTS);
      now rewrite list_eqb_refl. }
  rewrite E. eexists. split; [reflexivity |].
  cbn [cmp_changed cmp_before cmp_after].
  rewrite orb_false_r, !dict_get_set_same. repeat split.
Qed.

Lemma observed_list_setting_is_no_change_witness :
  exists acc' : Cmp,
    compare_param sample_nmcli
      (parse_line [] "ipv4.dns:      192.0.2.53,198.51.100.53")
      (empty_cmp sample_nmcli)
      ("ipv4.dns", VList ["192.0.2.53"; "198.51.100.53"]) = Ok acc'
    /\ cmp_changed acc' = false.
Proof.
  destruct (observed_list_setting_is_no_change sample_nmcli []
              (empty_cmp sample_nmcli)
              "ipv4.dns:      192.0.2.53,198.51.100.53"
              "ipv4.dns" "      192.0.2.53,198.51.100.53"
              ["192.0.2.53"; "198.51.100.53"])
    as (acc' & Hc & Hflag & _);
    try reflexivity; try discriminate; repeat constructor.
  exists acc'. split; [exact Hc | exact Hflag].
Defined.

(** ** The values the external tool prints with an explanation *)

Lemma take_while_run (f : ascii -> bool) (x rest : list ascii) :
  forallb f x = true -> Py.take_while f (x ++ rest) = (x ++ Py.take_while f rest)%list.
Proof.
  induction x as [| c x IH]; [reflexivity |]. cbn [forallb app Py.take_while].
  intros H. apply andb_true_iff in H. destruct H as [-> H]. now rewrite IH.
Qed.

Lemma drop_while_run (f : ascii -> bool) (x rest : list ascii) :
  forallb f x = true -> Py.drop_while f (x ++ rest) = Py.drop_while f rest.
Proof.
  induction x as [| c x IH]; [reflexivity |]. cbn [forallb app Py.drop_while].
  intros H. apply andb_true_iff in H. destruct H as [-> H]. now rewrite IH.
Qed.

Lemma digit_is_no_sign (c : ascii) : Py.is_digit c = true -> Ascii.eqb c "-" = false.
Proof.
  intros H. destruct c as [[] [] [] [] [] [] [] []]; try reflexivity.
  vm_compute in H. discriminate.
Qed.

Lemma sign_of_digit {A : Type} (c : ascii) (r : list ascii) (signed : list ascii -> A)
    (unsigned : A) :
  Py.is_digit c = true ->
  match c :: r with
  | "-"%char :: r' => signed r'
  | _ => unsigned
  end = unsigned.
Proof.
  intros H. destruct c as [[] [] [] [] [] [] [] []]; try reflexivity.
  vm_compute in H. discriminate.
Qed.

Lemma run_of_chars (f : ascii -> bool) (s : string) :
  run_of f s ->
  exists (c : ascii) (r : list ascii),
    Py.chars s = c :: r /\ f c = true /\ forallb f (c :: r) = true.
Proof.
  intros [Hne Hall]. destruct s as [| c s]; [contradiction |].
  exists c, (Py.chars s). split; [reflexivity |]. split; [| exact Hall].
  cbn in Hall. apply andb_true_iff in Hall. tauto.
Qed.

Lemma match_enum_value_number (sign digits word : string) :
  sign = "" \/ sign = "-" ->
  run_of Py.is_digit digits -> run_of Py.is_word word ->
  Re.match_enum_value (sign ++ digits ++ " (" ++ word ++ ")")
  = Some (sign ++ digits)%string.
Proof.
  intros Hsign Hd Hw.
  destruct (run_of_chars _ _ Hd) as (d & ds & Ed & Hd0 & Hds).
  destruct (run_of_chars _ _ Hw) as (c & cs & Ew & Hc0 & Hcs).
  pose (tail := (" " :: "(" :: c :: cs ++ [")"])%char%list).
  assert (E1 : Py.take_while Py.is_digit (d :: ds ++ tail) = d :: ds).
  { change (d :: ds ++ tail)%list with ((d :: ds) ++ tail)%list.
    rewrite (take_while_run _ _ _ Hds). cbn. now rewrite app_nil_r. }
  assert (E2 : Py.drop_while Py.is_digit (d :: ds ++ tail) = tail).
  { change (d :: ds ++ tail)%list with ((d :: ds) ++ tail)%list.
    rewrite (drop_while_run _ _ _ Hds). reflexivity. }
  assert (Ew1 : Py.take_while Py.is_word (c :: cs ++ [")"%char]) = c :: cs).
  { change (c :: cs ++ [")"%char])%list with ((c :: cs) ++ [")"%char])%list.
    rewrite (take_while_run _ _ _ Hcs). cbn. now rewrite app_nil_r. }
  assert (Ew2 : Py.drop_while Py.is_word (c :: cs ++ [")"%char]) = [")"%char]).
  { change (c :: cs ++ [")"%char])%list with ((c :: cs) ++ [")"%char])%list.
    rewrite (drop_while_run _ _ _ Hcs). reflexivity. }
  unfold Re.match_enum_value. rewrite !chars_append, Ed, Ew.
  change (Py.chars " (") with [" "%char; "("%char].
  change (Py.chars ")") with [")"%char]. cbn [app].
  fold tail.
  destruct Hsign as [-> | ->].
  - change (Py.chars "") with (@nil ascii). cbn [app].
    rewrite (sign_of_digit d _ _ _ Hd0).
    rewrite E1, E2. unfold tail. rewrite Ew1, Ew2. cbn [app append].
    now rewrite <- Ed, str_of_chars.
  - change (Py.chars "-") with ["-"%char]. cbn [app].
    rewrite E1, E2. unfold tail. rewrite Ew1, Ew2. rewrite <- Ed.
    cbn [app append].
    change ("-"%char :: Py.chars digits)%list with (Py.chars ("-" ++ digits)).
    now rewrite str_of_chars.
Qed.

Lemma number_is_no_marker (sign digits rest : string) :
  sign = "" \/ sign = "-" -> run_of Py.is_digit digits ->
  String.eqb (sign ++ digits ++ rest) "--" = false.
Proof.
  intros Hsign Hd. destruct (run_of_chars _ _ Hd) as (d & ds & Ed & Hd0 & _).
  destruct digits as [| d' digits]; [discriminate |].
  cbn in Ed. inversion Ed; subst d'.
  destruct Hsign as [-> | ->]; cbn [append String.eqb];
    rewrite ?Ascii.eqb_refl, (digit_is_no_sign d Hd0); reflexivity.
Qed.

(** X16. A value the external tool prints as a number with an explanation
    in brackets is stored as the number alone.  When the line of a
    setting that is neither list typed nor [bond.options] shows an
    optional minus sign and digits, one space and a bracketed word, the
    loop of [show_connection] stores the sign and the digits under the
    key, so that such a setting is compared by its number. *)
Theorem explained_number_is_stored_alone :
  forall (conn_info : dict pyval) (line key_text rest sign digits word : string),
    Py.split1 ":" line = (key_text, Some rest) ->
    Py.strip key_text <> "" ->
    Py.strip key_text <> "bond.options" ->
    settings_type (Py.strip key_text) <> TList ->
    sign = "" \/ sign = "-" ->
    run_of Py.is_digit digits ->
    run_of Py.is_word word ->
    Py.lstrip rest = (sign ++ digits ++ " (" ++ word ++ ")")%string ->
    dict_get (Py.strip key_text) (parse_line conn_info line)
    = Some (VStr (sign ++ digits)).
Proof.
  intros conn_info line key_text rest sign digits word Hsplit Hkey Hbond Htype
         Hsign Hd Hw Hraw.
  unfold parse_line. rewrite Hsplit. cbn [fst snd].
  set (key := Py.strip key_text) in *.
  rewrite (String_eqb_neq _ _ Hkey), (String_eqb_neq _ _ Hbond). cbn [negb].
  rewrite Hraw, (number_is_no_marker sign digits _ Hsign Hd).
  assert (Hl : is_TList (settings_type key) = false).
  { destruct (settings_type key); try reflexivity. contradiction. }
  assert (Hr : str_in key ["ipv4.routes"; "ipv6.routes"] = false).
  { destruct (str_in key ["ipv4.routes"; "ipv6.routes"]) eqn:E; [| reflexivity].
    apply str_in_In in E. destruct E as [E | [E | []]]; subst key;
      rewrite <- E in Htype; now contradiction Htype. }
  rewrite Hl, Hr, (match_enum_value_number sign digits word Hsign Hd Hw).
  apply dict_get_set_same.
Qed.

Lemma explained_number_is_stored_alone_witness :
  dict_get "connection.autoconnect-slaves"
           (parse_line [] "connection.autoconnect-slaves:   -1 (default)")
  = Some (VStr "-1").
Proof.
  apply (explained_number_is_stored_alone []
           "connection.autoconnect-slaves:   -1 (default)"
           "connection.autoconnect-slaves" "   -1 (default)" "-" "1" "default");
    try reflexivity; try discriminate; try (now right);
    split; try discriminate; reflexivity.
Defined.

(** ** How the option table is rendered *)

Lemma bool_setting_is_converted_alone (self : Nmcli) (key : string) :
  settings_type key = TBool ->
  str_in key ["vlan.id"; "vxlan.id"] = false
  /\ String.eqb key (mtu_setting self) = false
  /\ String.eqb key "ipv6.ip6-privacy" = false.
Proof.
  intros H. split; [| split].
  - destruct (str_in key ["vlan.id"; "vxlan.id"]) eqn:E; [| reflexivity].
    apply str_in_In in E. destruct E as [E | [E | []]]; subst key; discriminate.
  - destruct (String.eqb key (mtu_setting self)) eqn:E; [| reflexivity].
    apply String.eqb_eq in E. subst key.
    destruct (mtu_setting_cases self) as [F | F]; rewrite F in H; discriminate.
  - destruct (String.eqb key "ipv6.ip6-privacy") eqn:E; [| reflexivity].
    apply String.eqb_eq in E. subst key. discriminate.
Qed.

Lemma convert_option_rendered (self : Nmcli) (detect_change : bool) (key : string)
    (value value' : pyval) :
  convert_option self detect_change key value = Ok value' ->
  (settings_type key = TBool -> value' = VStr (bool_to_string value))
  /\ (settings_type key = TList -> detect_change = false ->
      value' = VNone \/ exists text : string, value' = VStr text).
Proof.
  intros H. split.
  - intros Hb. destruct (bool_setting_is_converted_alone self key Hb) as (E1 & E2 & E3).
    unfold convert_option in H. rewrite E1, E2, E3, Hb in H. cbn [is_TBool] in H.
    destruct detect_change; apply Ok_inj in H; now subst.
  - intros Hl ->. unfold convert_option in H. rewrite Hl in H.
    cbn [is_TBool is_TList] in H.
    destruct value; cbn [list_to_string] in H; try discriminate;
      apply Ok_inj in H; subst; eauto.
Qed.

Lemma convert_options_rendered (self : Nmcli) (detect_change : bool)
    (options : dict pyval) :
  forall table : dict pyval,
    convert_options self detect_change options = Ok table ->
    dict_keys table = dict_keys options
    /\ forall (key : string) (value' : pyval),
         In (key, value') table ->
         exists value : pyval,
           In (key, value) options
           /\ convert_option self detect_change key value = Ok value'.
Proof.
  unfold convert_options.
  induction options as [| [k0 v0] options IH]; intros table H.
  - cbn [res_map_list] in H. apply Ok_inj in H. subst table.
    split; [reflexivity | intros key value' []].
  - cbn [res_map_list fst snd] in H.
    destruct (convert_option self detect_change k0 v0) as [v1 | e] eqn:E;
      [| discriminate].
    cbn [res_bind] in H.
    destruct (res_map_list _ options) as [rest | e]; [| discriminate].
    cbn [res_bind] in H. apply Ok_inj in H. subst table.
    destruct (IH rest eq_refl) as [Hk Hv]. split.
    + unfold dict_keys in *. cbn [map fst]. now rewrite Hk.
    + intros key value' [Heq | Hin].
      * inversion Heq; subst. exists v0. split; [now left | exact E].
      * destruct (Hv key value' Hin) as (value & Hin' & Hc).
        exists value. split; [now right | exact Hc].
Qed.

Lemma connection_options_converted (self : Nmcli) (detect_change : bool)
    (w : list string) (table : dict pyval) :
  connection_options self detect_change = (w, Ok table) ->
  exists options : dict pyval,
    convert_options self detect_change options = Ok table.
Proof.
  unfold connection_options. cbv zeta.
  match goal with |- match ?x with _ => _ end = _ -> _ => destruct x as [o1 | e] end.
  - match goal with |- match ?x with _ => _ end = _ -> _ =>
      destruct x as [w' [o5 | e]] end.
    + intros H. apply pair_equal_spec in H. destruct H as [_ H].
      eexists. exact H.
    + intros H. apply pair_equal_spec in H. destruct H as [_ H]. discriminate.
  - intros H. apply pair_equal_spec in H. destruct H as [_ H]. discriminate.
Qed.

(** X17. How the option table renders its values.  In the table
    [connection_options] returns, in either mode, every setting of
    boolean type holds the text [yes] or the text [no], whatever was
    given for it; and in the mode of the create and modify commands every
    list-typed setting holds [None] or a text, never a list. *)
Theorem option_table_is_rendered :
  forall (self : Nmcli) (detect_change : bool) (w : list string)
         (table : dict pyval) (key : string) (value : pyval),
    connection_options self detect_change = (w, Ok table) ->
    In (key, value) table ->
    (settings_type key = TBool -> value = VStr "yes" \/ value = VStr "no")
    /\ (settings_type key = TList -> detect_change = false ->
        value = VNone \/ exists text : string, value = VStr text).
Proof.
  intros self detect_change w table key value Hopt Hin.
  destruct (connection_options_converted self detect_change w table Hopt)
    as (options & Hconv).
  destruct (convert_options_rendered self detect_change options table Hconv)
    as (_ & Hv).
  destruct (Hv key value Hin) as (v0 & _ & Hc).
  destruct (convert_option_rendered self detect_change key v0 value Hc) as [Hb Hl].
  split; [| exact Hl].
  intros Ht. rewrite (Hb Ht). unfold bool_to_string.
  destruct (truthy v0); [now left | now right].
Qed.

Lemma option_table_is_rendered_witness :
  exists (w : list string) (table : dict pyval),
    connection_options sample_nmcli false = (w, Ok table)
    /\ In ("connection.autoconnect", VStr "yes") table.
Proof.
  eexists _, _. split; [vm_compute; reflexivity |].
  assert (H : In ("connection.autoconnect", VStr "yes")
                 (match snd (connection_options sample_nmcli false) with
                  | Ok t => t
                  | Exc _ => []
                  end)) by (vm_compute; left; reflexivity).
  pose proof (option_table_is_rendered sample_nmcli false
                (fst (connection_options sample_nmcli false)) _
                "connection.autoconnect" (VStr "yes") eq_refl H) as [Hb _].
  destruct (Hb eq_refl) as [_ | Hno]; [| discriminate Hno].
  vm_compute. left. reflexivity.
Defined.

(** ** Nothing but the external tool is run *)

Lemma tool_kept_refl (b : string) (st : State) :
  nmcli_bin (self st) = b -> tool_kept b st st.
Proof.
  intros H. split; [exact H |]. exists []. split; [now rewrite app_nil_r | constructor].
Qed.

Lemma tool_kept_trans (b : string) (st1 st2 st3 : State) :
  tool_kept b st1 st2 -> tool_kept b st2 st3 -> tool_kept b st1 st3.
Proof.
  intros (_ & e1 & H1 & F1) (Hb & e2 & H2 & F2). split; [exact Hb |].
  exists (e1 ++ e2)%list. split.
  - now rewrite H2, H1, app_assoc.
  - apply Forall_app. now split.
Qed.

Lemma tool_bind {A B : Type} (b : string) (m : M A) (f : A -> M B) :
  tool_only b m -> (forall a : A, tool_only b (f a)) -> tool_only b (bind m f).
Proof.
  intros Hm Hf st Hb. specialize (Hm st Hb). unfold bind.
  destruct (m st) as [[a | e] st1]; cbn [snd] in *; [| exact Hm].
  eapply tool_kept_trans; [exact Hm |]. apply Hf. apply Hm.
Qed.

Lemma tool_get_self_bind {B : Type} (b : string) (f : Nmcli -> M B) :
  (forall a : Nmcli, nmcli_bin a = b -> tool_only b (f a)) ->
  tool_only b (bind get_self f).
Proof. intros Hf st Hb. exact (Hf (self st) Hb st Hb). Qed.

Lemma tool_ret_bind {A B : Type} (b : string) (a : A) (f : A -> M B) :
  tool_only b (f a) -> tool_only b (bind (ret a) f).
Proof. intros H st Hb. exact (H st Hb). Qed.

Lemma tool_ret {A : Type} (b : string) (a : A) : tool_only b (ret a).
Proof. intros st. apply tool_kept_refl. Qed.

Lemma tool_raise {A : Type} (b : string) (e : exn) : tool_only b (@raise A e).
Proof. intros st. apply tool_kept_refl. Qed.

Lemma tool_get_self (b : string) : tool_only b get_self.
Proof. intros st. apply tool_kept_refl. Qed.

Lemma tool_lift {A : Type} (b : string) (r : res A) : tool_only b (lift r).
Proof. intros st. apply tool_kept_refl. Qed.

Lemma tool_warn (b : string) (w : list string) : tool_only b (warn w).
Proof.
  intros st Hb. split; [exact Hb |].
  exists []. split; [cbn; now rewrite app_nil_r | constructor].
Qed.

Lemma tool_modify_self (b : string) (f : Nmcli -> Nmcli) :
  (forall s : Nmcli, nmcli_bin (f s) = nmcli_bin s) -> tool_only b (modify_self f).
Proof.
  intros Hf st Hb. split; [cbn; now rewrite Hf |].
  exists []. split; [cbn; now rewrite app_nil_r | constructor].
Qed.

Lemma tool_try_except {A : Type} (b : string) (body : M A) (handler : string -> M A) :
  tool_only b body -> (forall msg : string, tool_only b (handler msg)) ->
  tool_only b (try_except body handler).
Proof.
  intros Hbody Hh st Hb. specialize (Hbody st Hb). unfold try_except.
  destruct (body st) as [[a | []] st1]; cbn [snd] in *; try exact Hbody.
  eapply tool_kept_trans; [exact Hbody |]. apply Hh. apply Hbody.
Qed.

Lemma tool_execute_command (b : string) (cmd : list string) (d : option string) :
  hd_error cmd = Some b -> tool_only b (execute_command cmd d).
Proof.
  intros Hc st Hb. split; [exact Hb |].
  eexists. split; [reflexivity |]. constructor; [exact Hc | constructor].
Qed.

Create HintDb tool.

Ltac tool_step :=
  first
    [ apply tool_ret | apply tool_raise | apply tool_get_self
    | apply tool_warn | apply tool_lift
    | apply tool_modify_self; intros; reflexivity
    | apply tool_execute_command; cbn [hd_error app]; congruence
    | solve [auto with tool nocore]
    | apply tool_get_self_bind; intros ? ?
    | apply tool_bind
    | match goal with
      | |- forall _, _ => intro
      | |- tool_only _ (if ?c then _ else _) => destruct c
      | |- tool_only _ (match ?x with _ => _ end) => destruct x
      end ].

Ltac tool_tac := repeat tool_step.

Lemma tool_connection_exists (b : string) : tool_only b connection_exists.
Proof. unfold connection_exists, list_connection_info. tool_tac. Qed.

Lemma tool_show_connection (b : string) : tool_only b show_connection.
Proof. unfold show_connection. tool_tac. Qed.

Lemma tool_down_connection (b : string) : tool_only b down_connection.
Proof. unfold down_connection. tool_tac. Qed.

Lemma tool_up_connection (b : string) : tool_only b up_connection.
Proof. unfold up_connection. tool_tac. Qed.

Lemma tool_reload_connection (b : string) : tool_only b reload_connection.
Proof. unfold reload_connection. tool_tac. Qed.

Lemma tool_remove_connection (b : string) : tool_only b remove_connection.
Proof. unfold remove_connection. tool_tac. Qed.

Lemma tool_edit_connection (b : string) : tool_only b edit_connection.
Proof. unfold edit_connection, execute_edit_commands. tool_tac. Qed.

Lemma tool_check_for_unsupported_properties (b : string) (setting : string) :
  tool_only b (check_for_unsupported_properties setting).
Proof.
  unfold check_for_unsupported_properties, get_supported_properties,
    execute_edit_commands, fail_json.
  tool_tac.
Qed.

#[local] Hint Resolve tool_connection_exists tool_show_connection
  tool_down_connection tool_up_connection tool_reload_connection
  tool_remove_connection tool_edit_connection
  tool_check_for_unsupported_properties : tool.

Lemma tool_is_connection_changed (b : string) : tool_only b is_connection_changed.
Proof. unfold is_connection_changed, _compare_conn_params. tool_tac. Qed.

Lemma tool_check_for_issues (b : string) : tool_only b check_for_issues.
Proof. unfold check_for_issues, fail_json. tool_tac. Qed.

Lemma tool_connection_update (b : string) (nmcli_command : string) :
  tool_only b (connection_update nmcli_command).
Proof.
  unfold connection_update, fail_json.
  apply tool_get_self_bind. intros self0 Hb.
  assert (H : forall cmd0 : list string,
             hd_error cmd0 = Some b ->
             tool_only b
               (let cmd1 := (cmd0 ++ [conn_name self0])%list in
                let '(w, r) := connection_options self0 false in
                warn w ;;;
                more <- lift r ;;
                let options := update_options self0 nmcli_command more in
                let '(cmd, edits) :=
                  fold_left add_option options (cmd1, edit_commands self0) in
                modify_self (fun s => set_edit_commands s edits) ;;;
                execute_command cmd None)).
  { intros cmd0 Hcmd. cbv zeta.
    destruct (connection_options self0 false) as [w r].
    apply tool_bind; [apply tool_warn | intros _].
    apply tool_bind; [apply tool_lift | intros more].
    rewrite fold_add_option.
    apply tool_bind; [apply tool_modify_self; intros; reflexivity | intros _].
    apply tool_execute_command.
    destruct cmd0 as [| c cmd0]; [discriminate |]. exact Hcmd. }
  destruct (String.eqb nmcli_command "create").
  - apply tool_ret_bind. apply H. cbn [hd_error]. congruence.
  - destruct (String.eqb nmcli_command "modify").
    + apply tool_ret_bind. apply H. cbn [hd_error]. congruence.
    + intros st Hst. apply tool_kept_refl. exact Hst.
Qed.

#[local] Hint Resolve tool_is_connection_changed tool_check_for_issues
  tool_connection_update : tool.

Lemma tool_create_connection (b : string) : tool_only b create_connection.
Proof. unfold create_connection. tool_tac. Qed.

Lemma tool_modify_connection (b : string) : tool_only b modify_connection.
Proof. unfold modify_connection. tool_tac. Qed.

#[local] Hint Resolve tool_create_connection tool_modify_connection : tool.

Lemma tool_reconcile (b : string) (l : Locals) : tool_only b (reconcile l).
Proof.
  unfold reconcile. apply tool_get_self_bind. intros self0 Hb.
  apply tool_try_except; [| intros msg; apply tool_raise].
  repeat match goal with
         | |- tool_only _ (if String.eqb _ _ then _ else _) =>
             destruct (String.eqb _ _)
         end.
  - unfold state_absent, fail_json, exit_json. tool_tac.
  - unfold state_present, fail_json, exit_json. tool_tac.
  - unfold state_up_down, fail_json, exit_json. tool_tac.
  - unfold state_up_down, fail_json, exit_json. tool_tac.
  - apply tool_ret.
Qed.

Lemma tool_main_body (b : string) : tool_only b main_body.
Proof.
  unfold main_body, drive, report, exit_json.
  apply tool_get_self_bind. intros self0 Hb.
  apply tool_bind; [apply tool_check_for_issues | intros _].
  apply tool_bind; [apply tool_reconcile | intros l']. apply tool_raise.
Qed.

(** X18. Nothing but the external tool is run: every command of every
    call a run makes, whatever the task and however the calls are
    answered, has the path of [nmcli] the module looked up at its start
    as the program to run. *)
Theorem only_the_tool_is_run :
  forall m : AnsibleModule,
    Forall (fun cr => hd_error (argv (fst cr)) = Some (nmcli_path m)) (calls (main m)).
Proof.
  intros m. unfold main.
  destruct (init m) as [nmcli | e] eqn:Einit; [| constructor].
  destruct (init_ok m nmcli Einit) as (Hmod & _).
  assert (Hb : nmcli_bin (self (start nmcli)) = nmcli_path m).
  { unfold nmcli_bin. cbn [start self]. now rewrite Hmod. }
  destruct (tool_main_body (nmcli_path m) (start nmcli) Hb) as (_ & ext & Hh & Hext).
  unfold outcome_of. cbn [calls].
  change {| self := nmcli; history := []; warnings := [] |} with (start nmcli).
  rewrite Hh. exact Hext.
Qed.

(** ** The data of a VPN connection *)

Lemma normalize_param_vpn_data (self : Nmcli) (mtu : option Z) (c v : string) :
  c <> "" ->
  normalize_param self mtu "vpn.data" (VStr c) (VStr v)
  = Ok (VList (sorted (map (fun part => Re.sub_equals (Py.strip part))
                           (Py.split "," c))),
        VList (sorted (map Py.strip (Py.split "," v))), mtu).
Proof.
  intros Hc. destruct c as [| a c]; [contradiction |].
  unfold normalize_param.
  destruct (mac_setting_cases self) as [E | E];
    destruct (mtu_setting_cases self) as [F | F];
    rewrite E, F; reflexivity.
Qed.

(** X19. The entries of [vpn.data] are compared as a set of assignments:
    when the observed text and the desired text are not empty and their
    comma separated entries are the same up to their order, the white
    space around the entries and, on the observed side, the white space
    around the first equals sign of an entry, the change detector leaves
    the flag as it is. *)
Theorem vpn_data_order_is_ignored :
  forall (self : Nmcli) (conn_info : dict pyval) (acc : Cmp)
         (observed desired : string),
    dict_get "vpn.data" conn_info = Some (VStr observed) ->
    observed <> "" -> desired <> "" ->
    Permutation (map (fun part => Re.sub_equals (Py.strip part))
                     (Py.split "," observed))
                (map Py.strip (Py.split "," desired)) ->
    exists acc' : Cmp,
      compare_param self conn_info acc ("vpn.data", VStr desired) = Ok acc'
      /\ cmp_changed acc' = cmp_changed acc.
Proof.
  intros self conn_info acc observed desired Hget Ho Hd Hperm.
  unfold compare_param. rewrite Hget.
  assert (He : is_empty_value (VStr desired) = false)
    by (destruct desired; [contradiction | reflexivity]).
  rewrite He, (normalize_param_vpn_data self (cmp_mtu acc) observed desired Ho).
  cbn [res_bind]. rewrite compare_values_lists.
  change (str_in "vpn.data" ORDERED_LISTS) with false. cbv iota.
  rewrite (sorted_of_permutation _ _ Hperm), list_eqb_refl.
  eexists. split; [reflexivity |]. cbn [cmp_changed negb]. apply orb_false_r.
Qed.

Lemma vpn_data_order_is_ignored_witness :
  exists acc' : Cmp,
    compare_param sample_nmcli
      [("vpn.data", VStr "gateway = vpn.example.org, user = alice")]
      (empty_cmp sample_nmcli)
      ("vpn.data", VStr "user=alice,gateway=vpn.example.org") = Ok acc'
    /\ cmp_changed acc' = false.
Proof.
  destruct (vpn_data_order_is_ignored sample_nmcli
              [("vpn.data", VStr "gateway = vpn.example.org, user = alice")]
              (empty_cmp sample_nmcli)
              "gateway = vpn.example.org, user = alice"
              "user=alice,gateway=vpn.example.org" eq_refl)
    as (acc' & Hc & Hflag); try discriminate.
  - vm_compute. apply perm_swap.
  - exists acc'. split; [exact Hc | exact Hflag].
Defined.

(** ** Quotes around the access point name *)

(** X20. The access point name of a GSM connection is compared without
    the double quotes some versions of the external tool print around
    it: when the observed text, stripped of the double quotes at its
    ends, is the desired name, the change detector leaves the flag as it
    is and shows the stripped text in the diff. *)
Theorem gsm_apn_quotes_are_ignored :
  forall (self : Nmcli) (conn_info : dict pyval) (acc : Cmp)
         (observed desired : string),
    dict_get "gsm.apn" conn_info = Some (VStr observed) ->
    observed <> "" -> desired <> "" ->
    Py.strip_char "034" observed = desired ->
    exists acc' : Cmp,
      compare_param self conn_info acc ("gsm.apn", VStr desired) = Ok acc'
      /\ cmp_changed acc' = cmp_changed acc
      /\ dict_get "gsm.apn" (cmp_before acc') = Some (VStr desired).
Proof.
  intros self conn_info acc observed desired Hget Ho Hd Hstrip.
  unfold compare_param. rewrite Hget.
  assert (He : is_empty_value (VStr desired) = false)
    by (destruct desired; [contradiction | reflexivity]).
  rewrite He.
  assert (Hn : normalize_param self (cmp_mtu acc) "gsm.apn" (VStr observed)
                               (VStr desired)
               = Ok (VStr desired, VStr desired, cmp_mtu acc)).
  { subst desired. destruct observed as [| a o]; [contradiction |].
    unfold normalize_param.
    destruct (mac_setting_cases self) as [E | E];
      destruct (mtu_setting_cases self) as [F | F];
      rewrite E, F; reflexivity. }
  rewrite Hn. cbn [res_bind].
  assert (Hc : compare_values self (cmp_mtu acc) "gsm.apn" (VStr desired) (VStr desired)
               = (false, VStr desired)).
  { unfold compare_values. cbn [is_none]. rewrite andb_false_r. cbn [andb].
    cbn [to_text pyval_eqb]. now rewrite String.eqb_refl. }
  rewrite Hc. eexists. split; [reflexivity |].
  cbn [cmp_changed cmp_before]. rewrite orb_false_r, dict_get_set_same. now split.
Qed.

Lemma gsm_apn_quotes_are_ignored_witness :
  exists acc' : Cmp,
    compare_param sample_nmcli [("gsm.apn", VStr (dquote ++ "internet" ++ dquote))]
      (empty_cmp sample_nmcli) ("gsm.apn", VStr "internet") = Ok acc'
    /\ cmp_changed acc' = false.
Proof.
  destruct (gsm_apn_quotes_are_ignored sample_nmcli
              [("gsm.apn", VStr (dquote ++ "internet" ++ dquote))]
              (empty_cmp sample_nmcli)
              (dquote ++ "internet" ++ dquote) "internet" eq_refl)
    as (acc' & Hc & Hflag & _); try discriminate; try reflexivity.
  exists acc'. split; [exact Hc | exact Hflag].
Defined.

(** ** A task that does not give the type *)

Lemma type_after_comparison (conn_info options : dict pyval) (st : State) :
  type (self (snd (_compare_conn_params conn_info options st))) = type (self st).
Proof.
  unfold _compare_conn_params, bind, get_self, lift, modify_self, ret.
  destruct (compare_loop (self st) conn_info _ options); reflexivity.
Qed.

(** X21. A task that gives no type takes it from the connection: when
    the type is not set and the show command succeeds and prints a type,
    [is_connection_changed] sets the type of the object to the one shown,
    with [802-11-wireless] written as [wifi], before it builds the option
    table; the type stays set however the comparison ends. *)
Theorem missing_type_is_read_from_the_connection :
  forall (st : State) (shown : string),
    truthy (of_str (type (self st))) = false ->
    rc_of (answer st (show_cmd (self st))) = 0%Z ->
    dict_get "connection.type"
             (parse_show_output (out_of (answer st (show_cmd (self st)))))
    = Some (VStr shown) ->
    shown <> "" ->
    type (self (snd (is_connection_changed st)))
    = Some (if String.eqb shown "802-11-wireless" then "wifi" else shown).
Proof.
  intros st shown Htype Hrc Hget Hshown.
  unfold is_connection_changed. unfold bind at 1. unfold get_self at 1.
  rewrite Htype. cbn [negb].
  unfold bind at 1. unfold bind at 1.
  rewrite show_connection_run, Hrc. cbn [Z.eqb negb]. rewrite Hget.
  assert (Ht : truthy (VStr shown) = true)
    by (destruct shown; [contradiction | reflexivity]).
  rewrite Ht. unfold modify_self at 1.
  set (st1 := {| self := set_type _ _; history := _; warnings := _ |}).
  assert (H1 : type (self st1)
               = Some (if String.eqb shown "802-11-wireless" then "wifi" else shown))
    by reflexivity.
  clearbody st1. unfold bind at 1. unfold get_self at 1.
  destruct (connection_options (self st1) true) as [w [more | e]].
  - unfold bind, warn, lift. cbn [self history warnings].
    rewrite show_connection_run. cbn [logged self].
    destruct (negb _); [exact H1 |].
    rewrite type_after_comparison. exact H1.
  - unfold bind, warn, lift. exact H1.
Qed.

Lemma missing_type_is_read_from_the_connection_witness :
  type (self (snd (is_connection_changed
                     (start_of (default_params "wlan0" "present") false
                               (host_showing "wlan0"
                                  "connection.type:   802-11-wireless")))))
  = Some "wifi".
Proof.
  apply (missing_type_is_read_from_the_connection
           (start_of (default_params "wlan0" "present") false
                     (host_showing "wlan0" "connection.type:   802-11-wireless"))
           "802-11-wireless"); try reflexivity.
  discriminate.
Defined.
